(** * BookMi back end: reservation, payment and payment-method handlers

    A shallow embedding of the Express/Mongoose handlers of the booking
    back end, and the properties of its reservation life cycle, payment
    settlement and default payment-method selection.

    Source files embedded here:
    - [src/controllers/reservationController.js]
      ([createReservation], [getReservation], [updateReservationStatus],
      [updatePaymentStatus], [deleteReservation]);
    - the payment controller ([createPayment], [getPayment],
      [paymentWebhook]);
    - the payment-method controller and the [PaymentMethod] schema hooks;
    - [src/middleware/auth.js] ([authorize]), [src/middleware/error.js]
      ([errorHandler]), the [asyncHandler] wrapper, the notification service
      and the reservations, payments and payment-methods routers.

    MongoDB collections that are only read by [_id] are finite maps keyed by
    the identifier; the payment-method collection, which is counted, filtered
    and sorted, is the list of its documents in insertion order; the
    notification collection is an append-only list. *)

From stdpp Require Import gmap strings list fin_maps.
From Stdlib Require Import ZArith.

Local Open Scope string_scope.

(** ** Identifiers and enumerations *)

(** The text of an ObjectId, as [toString()] gives it. *)
Abbreviation Id := string.

(** [Array.prototype.includes] on an array of strings. *)
Definition includes (l : list string) (x : string) : bool := bool_decide (x ∈ l).

(** [String.prototype.includes]. *)
Fixpoint str_includes (sub s : string) : bool :=
  String.prefix sub s ||
  match s with
  | EmptyString => false
  | String _ s' => str_includes sub s'
  end.

(** An [enum] validator of a schema path: the text is cast to the
    enumeration, or the path is invalid. *)
Fixpoint cast_enum {A : Type} (table : list (string * A)) (x : string) : option A :=
  match table with
  | [] => None
  | (k, v) :: rest => if bool_decide (x = k) then Some v else cast_enum rest x
  end.

Module Role.
(** [User.role]: enum ['booker', 'artist', 'admin']. *)
Inductive t := booker | artist | admin.
#[global] Instance Role_eq_dec : EqDecision t := ltac:(solve_decision).
Definition to_string (r : t) : string :=
  match r with booker => "booker" | artist => "artist" | admin => "admin" end.
End Role.

Module OwnerModel.
(** [userModel], [recipientModel], [senderModel]: enum ['Booker', 'Artist']. *)
Inductive t := Booker | Artist.
#[global] Instance OwnerModel_eq_dec : EqDecision t := ltac:(solve_decision).
End OwnerModel.

Module Status.
(** [Reservation.status]. *)
Inductive t := pending | confirmed | completed | cancelled.
#[global] Instance Status_eq_dec : EqDecision t := ltac:(solve_decision).
Definition of_string : string -> option t :=
  cast_enum [("pending", pending); ("confirmed", confirmed);
             ("completed", completed); ("cancelled", cancelled)].
End Status.

Module PaymentStatus.
(** [Reservation.paymentStatus]. *)
Inductive t := pending | paid | failed | refunded | partial.
#[global] Instance PaymentStatus_eq_dec : EqDecision t := ltac:(solve_decision).
Definition of_string : string -> option t :=
  cast_enum [("pending", pending); ("paid", paid); ("failed", failed);
             ("refunded", refunded); ("partial", partial)].
End PaymentStatus.

Module PayStatus.
(** [Payment.status]. *)
Inductive t := pending | processing | completed | failed | refunded.
#[global] Instance PayStatus_eq_dec : EqDecision t := ltac:(solve_decision).
Definition of_string : string -> option t :=
  cast_enum [("pending", pending); ("processing", processing);
             ("completed", completed); ("failed", failed);
             ("refunded", refunded)].
End PayStatus.

Module PaymentType.
(** [Payment.paymentType]. *)
Inductive t := full | advance | balance.
#[global] Instance PaymentType_eq_dec : EqDecision t := ltac:(solve_decision).
Definition of_string : string -> option t :=
  cast_enum [("full", full); ("advance", advance); ("balance", balance)].
End PaymentType.

Module Method.
(** [Payment.paymentMethod] and [PaymentMethod.type]. *)
Inductive t := credit_card | mobile_money | orange | mtn | moov | wave | visa.
#[global] Instance Method_eq_dec : EqDecision t := ltac:(solve_decision).
Definition of_string : string -> option t :=
  cast_enum [("credit_card", credit_card); ("mobile_money", mobile_money);
             ("orange", orange); ("mtn", mtn); ("moov", moov);
             ("wave", wave); ("visa", visa)].
End Method.

Module NotifType.
(** [Notification.type], the values the modelled handlers emit. *)
Inductive t :=
| new_reservation | reservation_confirmed | reservation_completed
| reservation_cancelled | payment_received | payment_confirmed
| payment_refunded | payment_failed.
#[global] Instance NotifType_eq_dec : EqDecision t := ltac:(solve_decision).
End NotifType.

(** A JS object with text fields ([details], [paymentDetails]). *)
Abbreviation Details := (list (string * string)).

(** ** Documents *)

Module User.
(** [req.user] after [protect]: the stored user ([id], [role]) with the
    [booker] and [artist] claims of the token, which [protect] copies only
    when they are truthy. *)
Record t := { id : Id; role : Role.t; booker : option Id; artist : option Id }.
End User.

Module Reservation.
(** The event details (times, place, price, stored card data) are read by no
    handler below and are left out. *)
Record t := {
  _id : Id;
  booker : Id;
  serviceId : Id;
  artistId : Id;
  status : Status.t;
  paymentStatus : PaymentStatus.t;
  transactionId : string;
  date : string
}.
#[global] Instance Reservation_eq_dec : EqDecision t := ltac:(solve_decision).
Definition set_status (st : Status.t) (r : t) : t :=
  {| _id := _id r; booker := booker r; serviceId := serviceId r;
     artistId := artistId r; status := st; paymentStatus := paymentStatus r;
     transactionId := transactionId r; date := date r |}.
Definition set_paymentStatus (ps : PaymentStatus.t) (r : t) : t :=
  {| _id := _id r; booker := booker r; serviceId := serviceId r;
     artistId := artistId r; status := status r; paymentStatus := ps;
     transactionId := transactionId r; date := date r |}.
Definition set_transactionId (tx : string) (r : t) : t :=
  {| _id := _id r; booker := booker r; serviceId := serviceId r;
     artistId := artistId r; status := status r;
     paymentStatus := paymentStatus r; transactionId := tx; date := date r |}.
End Reservation.

Module Payment.
(** Amounts are whole numbers of FCFA.  The time stamps ([createdAt],
    [updatedAt], [completedAt]) are read by no handler below and are left
    out. *)
Record t := {
  _id : Id;
  reservation : Id;
  payer : Id;
  payee : Id;
  amount : Z;
  serviceFee : Z;
  totalAmount : Z;
  paymentType : PaymentType.t;
  paymentMethod : Method.t;
  status : PayStatus.t;
  transactionId : string;
  reference : string;
  paymentDetails : option Details;
  notes : string
}.
Definition set_status (st : PayStatus.t) (p : t) : t :=
  {| _id := _id p; reservation := reservation p; payer := payer p;
     payee := payee p; amount := amount p; serviceFee := serviceFee p;
     totalAmount := totalAmount p; paymentType := paymentType p;
     paymentMethod := paymentMethod p; status := st;
     transactionId := transactionId p; reference := reference p;
     paymentDetails := paymentDetails p; notes := notes p |}.
Definition set_transactionId (tx : string) (p : t) : t :=
  {| _id := _id p; reservation := reservation p; payer := payer p;
     payee := payee p; amount := amount p; serviceFee := serviceFee p;
     totalAmount := totalAmount p; paymentType := paymentType p;
     paymentMethod := paymentMethod p; status := status p;
     transactionId := tx; reference := reference p;
     paymentDetails := paymentDetails p; notes := notes p |}.
End Payment.

Module PaymentMethod.
(** [createdAt] is the reading of [Date.now()] when the document was
    created; [updatedAt] is read by no handler and is left out. *)
Record t := {
  _id : Id;
  user : Id;
  userModel : OwnerModel.t;
  type : Method.t;
  name : string;
  details : Details;
  isDefault : bool;
  createdAt : nat
}.
Definition set_isDefault (b : bool) (m : t) : t :=
  {| _id := _id m; user := user m; userModel := userModel m; type := type m;
     name := name m; details := details m; isDefault := b;
     createdAt := createdAt m |}.
Definition set_name (n : string) (m : t) : t :=
  {| _id := _id m; user := user m; userModel := userModel m; type := type m;
     name := n; details := details m; isDefault := isDefault m;
     createdAt := createdAt m |}.
Definition set_details (d : Details) (m : t) : t :=
  {| _id := _id m; user := user m; userModel := userModel m; type := type m;
     name := name m; details := d; isDefault := isDefault m;
     createdAt := createdAt m |}.
End PaymentMethod.

Module Notification.
(** The [message] text (it embeds a locale-formatted amount) and the
    free-form [data] are left out. *)
Record t := {
  recipient : Id;
  recipientModel : OwnerModel.t;
  sender : Id;
  senderModel : OwnerModel.t;
  relatedId : Id;
  type : NotifType.t;
  title : string
}.
End Notification.

(** ** The database *)

Record Store := {
  reservations : gmap Id Reservation.t;
  payments : gmap Id Payment.t;
  paymentMethods : list PaymentMethod.t;
  notifications : list Notification.t;
  (** [_id]s of the Booker and Artist documents, for [populate] *)
  bookers : gset Id;
  artists : gset Id
}.

Definition set_reservations (f : gmap Id Reservation.t -> gmap Id Reservation.t)
    (s : Store) : Store :=
  {| reservations := f (reservations s); payments := payments s;
     paymentMethods := paymentMethods s; notifications := notifications s;
     bookers := bookers s; artists := artists s |}.

Definition set_payments (f : gmap Id Payment.t -> gmap Id Payment.t)
    (s : Store) : Store :=
  {| reservations := reservations s; payments := f (payments s);
     paymentMethods := paymentMethods s; notifications := notifications s;
     bookers := bookers s; artists := artists s |}.

Definition set_paymentMethods (f : list PaymentMethod.t -> list PaymentMethod.t)
    (s : Store) : Store :=
  {| reservations := reservations s; payments := payments s;
     paymentMethods := f (paymentMethods s); notifications := notifications s;
     bookers := bookers s; artists := artists s |}.

Definition set_notifications (f : list Notification.t -> list Notification.t)
    (s : Store) : Store :=
  {| reservations := reservations s; payments := payments s;
     paymentMethods := paymentMethods s; notifications := f (notifications s);
     bookers := bookers s; artists := artists s |}.

(** ** Exceptions, replies and the handler monad *)

(** Modelled from the spec: [utils/errorResponse] is not among the sources;
    an [ErrorResponse] is an error that carries a human-readable message and
    the HTTP status to answer with (section 7 of the specification). *)
Inductive Exn :=
| ErrorResponse (message : string) (statusCode : nat)
| TypeError (message : string)
| ValidationError (message : string)
| DuplicateKeyError (message : string).

Definition exn_message (e : Exn) : string :=
  match e with
  | ErrorResponse m _ | TypeError m | ValidationError m | DuplicateKeyError m => m
  end.

(** What [res.status(code).json(...)] sends: [{success: true, data}] or
    [{success: false, error}]. *)
Inductive Reply (A : Type) :=
| Json (code : nat) (data : A)
| JsonError (code : nat) (error : string).
Arguments Json {A} code data.
Arguments JsonError {A} code error.

Definition reply_code {A : Type} (r : Reply A) : nat :=
  match r with Json c _ | JsonError c _ => c end.

(** An [async] function over the database: the new database and either the
    exception thrown or the value returned. *)
Definition M (A : Type) : Type := Store -> Store * (Exn + A).

Definition ret {A : Type} (a : A) : M A := fun s => (s, inr a).
Definition throw {A : Type} (e : Exn) : M A := fun s => (s, inl e).
Definition bind {A B : Type} (c : M A) (k : A -> M B) : M B :=
  fun s => match c s with
           | (s', inr a) => k a s'
           | (s', inl e) => (s', inl e)
           end.
Definition try_catch {A : Type} (c : M A) (handler : Exn -> M A) : M A :=
  fun s => match c s with
           | (s', inl e) => handler e s'
           | r => r
           end.
Definition get : M Store := fun s => (s, inr s).
Definition modify (f : Store -> Store) : M unit := fun s => (f s, inr tt).

Notation "'let*' x ':=' c 'in' k" := (bind c (fun x => k))
  (at level 10, x name, c at level 100, k at level 200).
Notation "c ';;' k" := (bind c (fun _ => k))
  (at level 100, k at level 200, right associativity).

(** [wp c Q s]: running [c] from the database [s] ends in a database and an
    outcome that satisfy [Q]. *)
Definition wp {A : Type} (c : M A) (Q : Store -> Exn + A -> Prop) (s : Store)
    : Prop :=
  Q (fst (c s)) (snd (c s)).

(** [src/middleware/error.js].  None of the handlers below raises a
    CastError or a JWT error, so these cases are left out. *)
Definition errorHandler {A : Type} (production : bool) (err : Exn) : Reply A :=
  match err with
  | ValidationError m => JsonError 400 m
  | DuplicateKeyError _ => JsonError 400 "Valeur dupliquée entrée"
  | ErrorResponse m (S _ as code) => JsonError code (if bool_decide (m = "") then "Erreur serveur" else m)
  | ErrorResponse m 0 | TypeError m =>
      JsonError 500 (if production then "Erreur serveur"
                     else if bool_decide (m = "") then "Erreur serveur" else m)
  end.

(** [asyncHandler]: a rejected promise goes to [next], that is to
    [errorHandler]. *)
Definition asyncHandler {A : Type} (production : bool) (fn : M (Reply A))
    (s : Store) : Store * Reply A :=
  match fn s with
  | (s', inr r) => (s', r)
  | (s', inl e) => (s', errorHandler production e)
  end.

(** [protect] of [src/middleware/auth.js]: the request goes on with the
    authenticated user as [req.user], or is refused with 401.  [principal]
    is the user the token resolves to, if any. *)
Definition protect {A : Type} (principal : option User.t)
    (next : User.t -> M (Reply A)) : M (Reply A) :=
  match principal with
  | None => throw (ErrorResponse "Accès non autorisé" 401)
  | Some user => next user
  end.

(** [authorize(roles)] of [src/middleware/auth.js], after [protect] has set
    [req.user]. *)
Definition authorize {A : Type} (roles : list Role.t) (user : User.t)
    (next : M (Reply A)) : M (Reply A) :=
  if bool_decide (User.role user ∈ roles) then next
  else throw (ErrorResponse
                ("Le rôle " ++ Role.to_string (User.role user)
                 ++ " n'est pas autorisé à accéder à cette ressource") 403).

(** ** Collections *)

Module ReservationModel.
Definition findById (id : Id) : M (option Reservation.t) :=
  fun s => (s, inr (reservations s !! id)).
(** [reservation.save()] of a loaded document: the enumerated paths hold
    values of their enumerations, so validation passes. *)
Definition save (r : Reservation.t) : M unit :=
  modify (set_reservations (insert (Reservation._id r) r)).
(** [populate] of a reference: the referenced document, or [null] when it
    no longer exists.  Only its [_id] is kept. *)
Definition populate_booker (s : Store) (r : Reservation.t) : option Id :=
  if bool_decide (Reservation.booker r ∈ bookers s)
  then Some (Reservation.booker r) else None.
Definition populate_artistId (s : Store) (r : Reservation.t) : option Id :=
  if bool_decide (Reservation.artistId r ∈ artists s)
  then Some (Reservation.artistId r) else None.
End ReservationModel.

Module NotificationModel.
Definition create (n : Notification.t) : M Notification.t :=
  fun s => (set_notifications (fun l => (l ++ [n])%list) s, inr n).
End NotificationModel.

(** ** The notification service *)

Module notificationService.

Definition createNotification (n : Notification.t) : M Notification.t :=
  try_catch (NotificationModel.create n) (fun error => throw error).

(** The notification goes to the booker, from the artist; for a status
    other than confirmed, completed or cancelled nothing is created
    ([return null]). *)
Definition notifyReservationStatusChange (reservation : Reservation.t)
    (previousStatus : Status.t) : M (option Notification.t) :=
  try_catch
    (let build ty ti :=
       {| Notification.recipient := Reservation.booker reservation;
          Notification.recipientModel := OwnerModel.Booker;
          Notification.sender := Reservation.artistId reservation;
          Notification.senderModel := OwnerModel.Artist;
          Notification.relatedId := Reservation._id reservation;
          Notification.type := ty;
          Notification.title := ti |} in
     match Reservation.status reservation with
     | Status.confirmed =>
         let* n := createNotification
                     (build NotifType.reservation_confirmed "Réservation confirmée") in
         ret (Some n)
     | Status.completed =>
         let* n := createNotification
                     (build NotifType.reservation_completed "Réservation terminée") in
         ret (Some n)
     | Status.cancelled =>
         let* n := createNotification
                     (build NotifType.reservation_cancelled "Réservation annulée") in
         ret (Some n)
     | Status.pending => ret None
     end)
    (fun error => throw error).

(** [notifyPayment(payment, reservation, action)]: one notification to the
    artist, then one to the booker. *)
Definition notifyPayment (payment : Payment.t) (reservation : Reservation.t)
    (action : string) : M (list Notification.t) :=
  try_catch
    (let titles :=
       if bool_decide (action = "created") then ("Paiement reçu", "Paiement effectué")
       else if bool_decide (action = "confirmed") then ("Paiement confirmé", "Paiement confirmé")
       else if bool_decide (action = "refunded") then ("Paiement remboursé", "Paiement remboursé")
       else ("Mise à jour de paiement", "Mise à jour de paiement") in
     let notificationType :=
       if bool_decide (action = "confirmed") then NotifType.payment_confirmed
       else if bool_decide (action = "refunded") then NotifType.payment_refunded
       else if bool_decide (action = "failed") then NotifType.payment_failed
       else NotifType.payment_received in
     let artistNotification :=
       {| Notification.recipient := Reservation.artistId reservation;
          Notification.recipientModel := OwnerModel.Artist;
          Notification.sender := Reservation.booker reservation;
          Notification.senderModel := OwnerModel.Booker;
          Notification.relatedId := Reservation._id reservation;
          Notification.type := notificationType;
          Notification.title := fst titles |} in
     let bookerNotification :=
       {| Notification.recipient := Reservation.booker reservation;
          Notification.recipientModel := OwnerModel.Booker;
          Notification.sender := Reservation.artistId reservation;
          Notification.senderModel := OwnerModel.Artist;
          Notification.relatedId := Reservation._id reservation;
          Notification.type := notificationType;
          Notification.title := snd titles |} in
     let* artistNotif := createNotification artistNotification in
     let* bookerNotif := createNotification bookerNotification in
     ret [artistNotif; bookerNotif])
    (fun error => throw error).

End notificationService.

(** JS truthiness of an optional text: the text when it is present and not
    empty. *)
Definition truthy (x : option string) : option string :=
  match x with
  | Some v => if bool_decide (v = "") then None else Some v
  | None => None
  end.

(** A nested schema path keeps the keys the schema declares. *)
Definition cast_details (keys : list string) (d : Details) : Details :=
  List.filter (fun kv => includes keys (fst kv)) d.

(** ** The reservation controller *)

Module reservationController.

(** Reading [_id] of a populated reference that came back [null]. *)
Definition null_deref : Exn :=
  TypeError "Cannot read properties of null (reading '_id')".

(** Reading [toString] of a claim the token does not carry. *)
Definition undefined_deref : Exn :=
  TypeError "Cannot read properties of undefined (reading 'toString')".

Definition or_default (m : string) (d : string) : string :=
  if bool_decide (m = "") then d else m.

(** GET /api/reservations/:id and GET /api/reservations/artist/:id.  The
    reply carries the reservation; the fields of the populated documents
    are left out. *)
Definition getReservation (user : option User.t) (originalUrl : string)
    (id : Id) : M (Reply Reservation.t) :=
  match user with
  | None =>
      ret (JsonError 401 "Authentification requise pour accéder à cette réservation")
  | Some user =>
      let isArtistRoute := str_includes "/artist/" originalUrl in
      try_catch
        (let* found := ReservationModel.findById id in
         match found with
         | None => ret (JsonError 404 ("Réservation non trouvée avec l'id " ++ id))
         | Some reservation =>
             let* db := get in
             let populatedBooker := ReservationModel.populate_booker db reservation in
             let populatedArtist := ReservationModel.populate_artistId db reservation in
             (* Cas 1: the user is a booker and the reservation is theirs *)
             let* isAuthorized :=
               match User.role user, User.booker user with
               | Role.booker, Some bookerId =>
                   match populatedBooker with
                   | None => throw null_deref
                   | Some reservationBookerId =>
                       ret (bool_decide (bookerId = reservationBookerId))
                   end
               | _, _ => ret false
               end in
             (* Cas 2: the user is an artist *)
             let* isAuthorized :=
               match User.role user with
               | Role.artist =>
                   if isArtistRoute then ret true
                   else
                     match User.artist user with
                     | Some artistId =>
                         match populatedArtist with
                         | None => throw null_deref
                         | Some reservationArtistId =>
                             ret (if bool_decide (artistId = reservationArtistId)
                                  then true else isAuthorized)
                         end
                     | None =>
                         let userId := User.id user in
                         match populatedArtist with
                         | None => throw null_deref
                         | Some reservationArtistId =>
                             ret (if bool_decide (userId = reservationArtistId)
                                  then true else isAuthorized)
                         end
                     end
               | _ => ret isAuthorized
               end in
             if negb isAuthorized
             then ret (JsonError 403 "Vous n'êtes pas autorisé à accéder à cette réservation")
             else ret (Json 200 reservation)
         end)
        (fun error =>
           ret (JsonError 500
                  (or_default (exn_message error)
                     "Erreur serveur lors de la récupération de la réservation")))
  end.

(** PATCH /api/reservations/:id/status and
    PATCH /api/reservations/artist/:id/status.  The reservation is loaded
    without [populate], so [booker] and [artistId] are ObjectIds, whose
    [_id] is the ObjectId itself. *)
Definition updateReservationStatus (user : option User.t) (originalUrl : string)
    (id : Id) (status : option string) : M (Reply Reservation.t) :=
  match user with
  | None =>
      ret (JsonError 401 "Authentification requise pour mettre à jour une réservation")
  | Some user =>
      match status with
      | None => ret (JsonError 400 "Statut invalide")
      | Some status =>
          if negb (includes ["pending"; "confirmed"; "completed"; "cancelled"] status)
          then ret (JsonError 400 "Statut invalide")
          else
            try_catch
              (let* found := ReservationModel.findById id in
               match found with
               | None => ret (JsonError 404 ("Réservation non trouvée avec l'id " ++ id))
               | Some reservation =>
                   let isBooker :=
                     match User.role user, User.booker user with
                     | Role.booker, Some bookerId =>
                         bool_decide (bookerId = Reservation.booker reservation)
                     | _, _ => false
                     end in
                   let isArtist :=
                     match User.role user with
                     | Role.artist =>
                         match User.artist user with
                         | Some artistId =>
                             bool_decide (artistId = Reservation.artistId reservation)
                         | None =>
                             let isArtistRoute := str_includes "/artist/" originalUrl in
                             if isArtistRoute then true
                             else bool_decide (User.id user = Reservation.artistId reservation)
                         end
                     | _ => false
                     end in
                   if isBooker && negb (bool_decide (status = "cancelled"))
                   then ret (JsonError 403 "Les bookers ne peuvent que annuler une réservation")
                   else if isArtist && negb (includes ["confirmed"; "completed"; "cancelled"] status)
                   then ret (JsonError 403 "Les artistes ne peuvent que confirmer, compléter ou annuler une réservation")
                   else if negb isBooker && negb isArtist
                   then ret (JsonError 403 "Vous n'êtes pas autorisé à modifier cette réservation")
                   else
                     let previousStatus := Reservation.status reservation in
                     match Status.of_string status with
                     | None => throw (ValidationError "Reservation validation failed: status")
                     | Some newStatus =>
                         let reservation := Reservation.set_status newStatus reservation in
                         ReservationModel.save reservation ;;
                         try_catch
                           (if isArtist
                            then notificationService.notifyReservationStatusChange
                                   reservation previousStatus ;; ret tt
                            else if isBooker && bool_decide (status = "cancelled")
                            then notificationService.createNotification
                                   {| Notification.recipient := Reservation.artistId reservation;
                                      Notification.recipientModel := OwnerModel.Artist;
                                      Notification.sender := Reservation.booker reservation;
                                      Notification.senderModel := OwnerModel.Booker;
                                      Notification.relatedId := Reservation._id reservation;
                                      Notification.type := NotifType.reservation_cancelled;
                                      Notification.title := "Réservation annulée" |} ;; ret tt
                            else ret tt)
                           (fun notifError => ret tt) ;;
                         ret (Json 200 reservation)
                     end
               end)
              (fun error =>
                 ret (JsonError 500
                        (or_default (exn_message error)
                           "Erreur serveur lors de la mise à jour du statut")))
      end
  end.


(** PATCH /api/reservations/:id/payment *)
Definition updatePaymentStatus (user : User.t) (id : Id)
    (paymentStatus transactionId : option string) : M (Reply Reservation.t) :=
  match paymentStatus with
  | None => throw (ErrorResponse "Statut de paiement invalide" 400)
  | Some paymentStatus =>
      if negb (includes ["pending"; "paid"; "failed"; "refunded"] paymentStatus)
      then throw (ErrorResponse "Statut de paiement invalide" 400)
      else
        let* found := ReservationModel.findById id in
        match found with
        | None => throw (ErrorResponse ("Réservation non trouvée avec l'id " ++ id) 404)
        | Some reservation =>
            match User.booker user with
            | None => throw undefined_deref
            | Some bookerId =>
                if negb (bool_decide (Reservation.booker reservation = bookerId))
                then throw (ErrorResponse "Vous n'êtes pas autorisé à modifier cette réservation" 403)
                else
                  match PaymentStatus.of_string paymentStatus with
                  | None => throw (ValidationError "Reservation validation failed: paymentStatus")
                  | Some newStatus =>
                      let reservation := Reservation.set_paymentStatus newStatus reservation in
                      let reservation :=
                        match truthy transactionId with
                        | Some tx => Reservation.set_transactionId tx reservation
                        | None => reservation
                        end in
                      ReservationModel.save reservation ;;
                      ret (Json 200 reservation)
                  end
            end
        end
  end.

End reservationController.

(** ** The reservations router

    The router is mounted on [/api/reservations], behind [protect].
    [query] is the query string of the request, empty or starting with
    [?]. *)

Module reservationsRouter.

(** router.get('/artist/:id', authorize(['artist']), getReservation) *)
Definition GET_artist_id (production : bool) (principal : option User.t)
    (id : Id) (query : string) : Store -> Store * Reply Reservation.t :=
  asyncHandler production
    (protect principal (fun user =>
       authorize [Role.artist] user
         (reservationController.getReservation (Some user)
            ("/api/reservations/artist/" ++ id ++ query) id))).

(** router.get('/:id', authorize(['booker']), getReservation) *)
Definition GET_id (production : bool) (principal : option User.t)
    (id : Id) (query : string) : Store -> Store * Reply Reservation.t :=
  asyncHandler production
    (protect principal (fun user =>
       authorize [Role.booker] user
         (reservationController.getReservation (Some user)
            ("/api/reservations/" ++ id ++ query) id))).

(** router.patch('/artist/:id/status', authorize(['artist']), updateReservationStatus) *)
Definition PATCH_artist_id_status (production : bool) (principal : option User.t)
    (id : Id) (query : string) (status : option string)
    : Store -> Store * Reply Reservation.t :=
  asyncHandler production
    (protect principal (fun user =>
       authorize [Role.artist] user
         (reservationController.updateReservationStatus (Some user)
            ("/api/reservations/artist/" ++ id ++ "/status" ++ query) id status))).

(** router.patch('/:id/status', authorize(['booker']), updateReservationStatus) *)
Definition PATCH_id_status (production : bool) (principal : option User.t)
    (id : Id) (query : string) (status : option string)
    : Store -> Store * Reply Reservation.t :=
  asyncHandler production
    (protect principal (fun user =>
       authorize [Role.booker] user
         (reservationController.updateReservationStatus (Some user)
            ("/api/reservations/" ++ id ++ "/status" ++ query) id status))).

(** router.patch('/:id/payment', authorize(['booker']), updatePaymentStatus) *)
Definition PATCH_id_payment (production : bool) (principal : option User.t)
    (id : Id) (paymentStatus transactionId : option string)
    : Store -> Store * Reply Reservation.t :=
  asyncHandler production
    (protect principal (fun user =>
       authorize [Role.booker] user
         (reservationController.updatePaymentStatus user id
            paymentStatus transactionId))).

End reservationsRouter.

(** ** The payment-method collection and its [save] hooks *)

Module PaymentMethodModel.

(** The query [{user, userModel}]. *)
Definition owned_by (user : Id) (userModel : OwnerModel.t)
    (m : PaymentMethod.t) : bool :=
  bool_decide (PaymentMethod.user m = user)
  && bool_decide (PaymentMethod.userModel m = userModel).

Definition has_id (id : Id) (m : PaymentMethod.t) : bool :=
  bool_decide (PaymentMethod._id m = id).

Definition findById (id : Id) : M (option PaymentMethod.t) :=
  fun s => (s, inr (List.find (has_id id) (paymentMethods s))).

Definition countDocuments (query : PaymentMethod.t -> bool) : M nat :=
  fun s => (s, inr (length (List.filter query (paymentMethods s)))).

(** [updateMany(query, update)]: no [save] hook runs. *)
Definition updateMany (query : PaymentMethod.t -> bool)
    (update : PaymentMethod.t -> PaymentMethod.t) : M unit :=
  modify (set_paymentMethods (map (fun m => if query m then update m else m))).

(** The first document of the least [createdAt]. *)
Fixpoint earliest (l : list PaymentMethod.t) : option PaymentMethod.t :=
  match l with
  | [] => None
  | m :: rest =>
      match earliest rest with
      | Some m' =>
          if Nat.ltb (PaymentMethod.createdAt m') (PaymentMethod.createdAt m)
          then Some m' else Some m
      | None => Some m
      end
  end.

(** [findOne(query).sort('createdAt')] *)
Definition findOne_sort_createdAt (query : PaymentMethod.t -> bool)
    : M (option PaymentMethod.t) :=
  fun s => (s, inr (earliest (List.filter query (paymentMethods s)))).

(** [deleteOne()] of a loaded document: no [save] hook runs. *)
Definition deleteOne (doc : PaymentMethod.t) : M unit :=
  modify (set_paymentMethods
            (List.filter (fun m => negb (has_id (PaymentMethod._id doc) m)))).

(** Writing a document: it replaces the stored document of its [_id], or is
    inserted at the end. *)
Definition persist (doc : PaymentMethod.t) (l : list PaymentMethod.t)
    : list PaymentMethod.t :=
  if existsb (has_id (PaymentMethod._id doc)) l
  then map (fun m => if has_id (PaymentMethod._id doc) m then doc else m) l
  else (l ++ [doc])%list.

(** [doc.save()] with the schema hooks.  The post-save hook saves another
    document, which runs the hooks again; [fuel] bounds that nesting, and
    [save_fuel_enough] below shows that the nesting never exceeds two. *)
Fixpoint save_fuel (fuel : nat) (doc : PaymentMethod.t) : M unit :=
  match fuel with
  | 0 => throw (TypeError "save: nesting bound reached")
  | S fuel' =>
      let user := PaymentMethod.user doc in
      let userModel := PaymentMethod.userModel doc in
      (* pre('save'): a single default per owner *)
      (if PaymentMethod.isDefault doc
       then updateMany
              (fun m => owned_by user userModel m
                        && negb (has_id (PaymentMethod._id doc) m)
                        && PaymentMethod.isDefault m)
              (PaymentMethod.set_isDefault false)
       else ret tt) ;;
      modify (set_paymentMethods (persist doc)) ;;
      (* post('save'): an owner with a method has a default *)
      let* defaultCount :=
        countDocuments (fun m => owned_by user userModel m
                                 && PaymentMethod.isDefault m) in
      if Nat.eqb defaultCount 0
      then
        let* firstPaymentMethod :=
          findOne_sort_createdAt (owned_by user userModel) in
        match firstPaymentMethod with
        | Some firstPaymentMethod =>
            save_fuel fuel' (PaymentMethod.set_isDefault true firstPaymentMethod)
        | None => ret tt
        end
      else ret tt
  end.

Definition save : PaymentMethod.t -> M unit := save_fuel 2.

(** [PaymentMethod.create(data)]: [type] is required and enumerated, [name]
    is required; [_id] and [createdAt] come from the driver and the clock. *)
Definition create (newId : Id) (now : nat) (user : Id)
    (userModel : OwnerModel.t) (type name : option string)
    (details : option Details) (isDefault : bool) : M PaymentMethod.t :=
  match type, truthy name with
  | Some type, Some name =>
      match Method.of_string type with
      | Some type =>
          let* stored := findById newId in
          match stored with
          | Some _ => throw (DuplicateKeyError "E11000 duplicate key error: _id")
          | None =>
              let doc :=
                {| PaymentMethod._id := newId;
                   PaymentMethod.user := user;
                   PaymentMethod.userModel := userModel;
                   PaymentMethod.type := type;
                   PaymentMethod.name := name;
                   PaymentMethod.details :=
                     cast_details ["cardNumber"; "cardholderName"; "expiryDate";
                                   "phoneNumber"; "operator"]
                       (default [] details);
                   PaymentMethod.isDefault := isDefault;
                   PaymentMethod.createdAt := now |} in
              save doc ;; ret doc
          end
      | None => throw (ValidationError "PaymentMethod validation failed: type")
      end
  | None, _ => throw (ValidationError "PaymentMethod validation failed: type")
  | _, None => throw (ValidationError "PaymentMethod validation failed: name")
  end.

End PaymentMethodModel.

(** ** The payment-method controller *)

Module paymentMethodController.

(** [userId] and [userModel] of the caller: the role-scoped claim of the
    token, else the user's own id. *)
Definition acting_id (user : User.t) : option Id :=
  match User.role user with
  | Role.booker => Some (default (User.id user) (User.booker user))
  | Role.artist => Some (default (User.id user) (User.artist user))
  | Role.admin => None
  end.

Definition acting_model (user : User.t) : option OwnerModel.t :=
  match User.role user with
  | Role.booker => Some OwnerModel.Booker
  | Role.artist => Some OwnerModel.Artist
  | Role.admin => None
  end.

(** [{...old, ...new}] *)
Definition spread (old new : Details) : Details :=
  (List.filter (fun kv => negb (includes (map fst new) (fst kv))) old ++ new)%list.

(** POST /api/payment-methods *)
Definition addPaymentMethod (user : User.t) (type name : option string)
    (details : option Details) (newId : Id) (now : nat)
    : M (Reply PaymentMethod.t) :=
  match acting_id user, acting_model user with
  | Some userId, Some userModel =>
      let* existingCount :=
        PaymentMethodModel.countDocuments
          (PaymentMethodModel.owned_by userId userModel) in
      let* paymentMethod :=
        PaymentMethodModel.create newId now userId userModel type name details
          (Nat.eqb existingCount 0) in
      ret (Json 201 paymentMethod)
  | _, _ => ret (JsonError 400 "Type d'utilisateur non pris en charge")
  end.

(** The ownership check shared by the handlers on [/:id]:
    [paymentMethod.user.toString() !== userId.toString()]. *)
Definition check_owner {A : Type} (user : User.t) (paymentMethod : PaymentMethod.t)
    (denied : string) (next : Id -> M (Reply A)) : M (Reply A) :=
  match acting_id user with
  | None => throw reservationController.undefined_deref
  | Some userId =>
      if negb (bool_decide (PaymentMethod.user paymentMethod = userId))
      then ret (JsonError 403 denied)
      else next userId
  end.

(** PUT /api/payment-methods/:id *)
Definition updatePaymentMethod (user : User.t) (id : Id) (name : option string)
    (details : option Details) : M (Reply PaymentMethod.t) :=
  let* found := PaymentMethodModel.findById id in
  match found with
  | None => ret (JsonError 404 ("Moyen de paiement non trouvé avec l'id " ++ id))
  | Some paymentMethod =>
      check_owner user paymentMethod
        "Vous n'êtes pas autorisé à modifier ce moyen de paiement"
        (fun _ =>
           let paymentMethod :=
             match truthy name with
             | Some name => PaymentMethod.set_name name paymentMethod
             | None => paymentMethod
             end in
           let paymentMethod :=
             match details with
             | Some details =>
                 PaymentMethod.set_details
                   (cast_details ["cardNumber"; "cardholderName"; "expiryDate";
                                  "phoneNumber"; "operator"]
                      (spread (PaymentMethod.details paymentMethod) details))
                   paymentMethod
             | None => paymentMethod
             end in
           PaymentMethodModel.save paymentMethod ;;
           ret (Json 200 paymentMethod))
  end.

(** PUT /api/payment-methods/:id/default *)
Definition setDefaultPaymentMethod (user : User.t) (id : Id)
    : M (Reply PaymentMethod.t) :=
  let* found := PaymentMethodModel.findById id in
  match found with
  | None => ret (JsonError 404 ("Moyen de paiement non trouvé avec l'id " ++ id))
  | Some paymentMethod =>
      check_owner user paymentMethod
        "Vous n'êtes pas autorisé à modifier ce moyen de paiement"
        (fun _ =>
           let paymentMethod := PaymentMethod.set_isDefault true paymentMethod in
           PaymentMethodModel.save paymentMethod ;;
           ret (Json 200 paymentMethod))
  end.

(** DELETE /api/payment-methods/:id.  The reply carries no data. *)
Definition deletePaymentMethod (user : User.t) (id : Id) : M (Reply unit) :=
  let* found := PaymentMethodModel.findById id in
  match found with
  | None => ret (JsonError 404 ("Moyen de paiement non trouvé avec l'id " ++ id))
  | Some paymentMethod =>
      check_owner user paymentMethod
        "Vous n'êtes pas autorisé à supprimer ce moyen de paiement"
        (fun userId =>
           if PaymentMethod.isDefault paymentMethod
           then
             let* count :=
               PaymentMethodModel.countDocuments
                 (PaymentMethodModel.owned_by userId
                    (PaymentMethod.userModel paymentMethod)) in
             if Nat.ltb 1 count
             then
               (* the source expects the post-save hook to pick a new
                  default here; [deleteOne] runs no save hook *)
               PaymentMethodModel.deleteOne paymentMethod ;;
               ret (Json 200 tt)
             else
               ret (JsonError 400 "Impossible de supprimer votre seul moyen de paiement")
           else
             PaymentMethodModel.deleteOne paymentMethod ;;
             ret (Json 200 tt))
  end.

End paymentMethodController.

(** ** The payment-methods router: every route is behind
    [authorize(['booker', 'artist'])]. *)

Module paymentMethodsRouter.

Definition guarded {A : Type} (production : bool) (user : User.t)
    (handler : M (Reply A)) : Store -> Store * Reply A :=
  asyncHandler production (authorize [Role.booker; Role.artist] user handler).

(** A request to the payment-method routes, by a user [protect] let in.
    A POST comes with what the environment supplies to it: the [_id] the
    driver gives the new document and the reading of the clock. *)
Inductive Request :=
| POST (type name : option string) (details : option Details)
       (newId : Id) (now : nat)
| PUT (id : Id) (name : option string) (details : option Details)
| PUT_default (id : Id)
| DELETE (id : Id).

(** The database after a request, and the status code of the reply. *)
Definition serve (production : bool) (user : User.t) (req : Request)
    (s : Store) : Store * nat :=
  match req with
  | POST type name details newId now =>
      let '(s', r) :=
        guarded production user
          (paymentMethodController.addPaymentMethod user type name details newId now) s in
      (s', reply_code r)
  | PUT id name details =>
      let '(s', r) :=
        guarded production user
          (paymentMethodController.updatePaymentMethod user id name details) s in
      (s', reply_code r)
  | PUT_default id =>
      let '(s', r) :=
        guarded production user
          (paymentMethodController.setDefaultPaymentMethod user id) s in
      (s', reply_code r)
  | DELETE id =>
      let '(s', r) :=
        guarded production user
          (paymentMethodController.deletePaymentMethod user id) s in
      (s', reply_code r)
  end.

(** A sequence of requests, each by its own principal. *)
Fixpoint serve_all (production : bool) (reqs : list (User.t * Request))
    (s : Store) : Store :=
  match reqs with
  | [] => s
  | (user, req) :: rest => serve_all production rest (fst (serve production user req s))
  end.

End paymentMethodsRouter.

(** The methods of an owner, and how many of them are flagged default. *)
Definition methods_of (user : Id) (userModel : OwnerModel.t) (s : Store)
    : list PaymentMethod.t :=
  List.filter (PaymentMethodModel.owned_by user userModel) (paymentMethods s).

Definition default_count (user : Id) (userModel : OwnerModel.t) (s : Store) : nat :=
  length (List.filter PaymentMethod.isDefault (methods_of user userModel s)).

Definition empty_store : Store :=
  {| reservations := ∅; payments := ∅; paymentMethods := [];
     notifications := []; bookers := ∅; artists := ∅ |}.

(** ** The payment collection *)

Module PaymentModel.

Definition findById (id : Id) : M (option Payment.t) :=
  fun s => (s, inr (payments s !! id)).

(** [payment.save()] of a loaded document.  The pre-save hooks write the
    time stamps, which the record leaves out. *)
Definition save (p : Payment.t) : M unit :=
  modify (set_payments (insert (Payment._id p) p)).

(** The fields of [paymentData] before validation.  [None] for an amount is
    a value that does not cast to a number (absent, null, not numeric). *)
Record Data := {
  reservation : Id;
  payer : Id;
  payee : Id;
  amount : option Z;
  serviceFee : option Z;
  totalAmount : option Z;
  paymentMethod : option Method.t;
  paymentType : string;
  paymentDetails : option Details;
  notes : option string
}.

(** [Payment.create(paymentData)]: the required paths are present, the
    enumerated ones are cast, [_id] and the generated [reference] are
    unique.  The document is stored with status [pending]. *)
Definition create (newId : Id) (reference : string) (d : Data) : M Payment.t :=
  match amount d, serviceFee d, totalAmount d, paymentMethod d,
        PaymentType.of_string (paymentType d) with
  | Some amount, Some serviceFee, Some totalAmount, Some paymentMethod,
    Some paymentType =>
      let* db := get in
      if bool_decide (is_Some (payments db !! newId))
      then throw (DuplicateKeyError "E11000 duplicate key error: _id")
      else if bool_decide
                (map_Exists (fun _ p => Payment.reference p = reference) (payments db))
      then throw (DuplicateKeyError "E11000 duplicate key error: reference")
      else
        let payment :=
          {| Payment._id := newId;
             Payment.reservation := reservation d;
             Payment.payer := payer d;
             Payment.payee := payee d;
             Payment.amount := amount;
             Payment.serviceFee := serviceFee;
             Payment.totalAmount := totalAmount;
             Payment.paymentType := paymentType;
             Payment.paymentMethod := paymentMethod;
             Payment.status := PayStatus.pending;
             Payment.transactionId := "";
             Payment.reference := reference;
             Payment.paymentDetails :=
               cast_details ["phoneNumber"; "operator"; "cardLast4";
                             "expiryDate"; "cardholderName"]
                 <$> paymentDetails d;
             Payment.notes := default "" (notes d) |} in
        save payment ;; ret payment
  | _, _, _, _, _ => throw (ValidationError "Payment validation failed")
  end.

End PaymentModel.

(** ** The payment controller *)

Module paymentController.

(** The body of POST /api/payments.  [totalAmount] is what a caller may
    send under that name; the handler does not read it. *)
Record Body := {
  reservationId : Id;
  amount : option Z;
  serviceFee : option Z;
  totalAmount : option Z;
  paymentMethod : option string;
  paymentType : option string;
  paymentMethodId : option Id;
  paymentDetails : option Details;
  notes : option string
}.

(** What the environment supplies to one call: the [_id] the driver gives
    the new payment, the text of
    [Math.random().toString(36).substring(2, 15)] and the generated
    [reference]. *)
Record Gen := { newId : Id; random36 : string; reference : string }.

(** [Number(a) + Number(b)]; NaN when either is.  The source adds IEEE
    doubles: on whole numbers the sum below is the sum the source computes
    as long as both terms and the sum are within [safe_integer]; beyond it
    the source rounds (2^53 + 1 gives 2^53). *)
Definition number_add (a b : option Z) : option Z :=
  match a, b with
  | Some a, Some b => Some (a + b)%Z
  | _, _ => None
  end.

(** [s.slice(-4)] *)
Definition slice_last4 (s : string) : string :=
  String.substring (String.length s - 4) 4 s.

(** [{...paymentDetails, cardLast4: cardNumber.slice(-4), cardNumber: undefined}] *)
Definition mask_card (paymentDetails : Details) (cardNumber : string) : Details :=
  (List.filter (fun kv => negb (bool_decide (fst kv = "cardNumber"))) paymentDetails
   ++ [("cardLast4", slice_last4 cardNumber)])%list.

Definition field (k : string) (d : Details) : option string :=
  snd <$> List.find (fun kv => bool_decide (fst kv = k)) d.

(** POST /api/payments *)
Definition createPayment (user : User.t) (body : Body) (gen : Gen)
    : M (Reply Payment.t) :=
  let* found := ReservationModel.findById (reservationId body) in
  match found with
  | None =>
      throw (ErrorResponse ("Réservation non trouvée avec l'id " ++ reservationId body) 404)
  | Some reservation =>
      let bookerId := default (User.id user) (User.booker user) in
      if negb (bool_decide (Reservation.booker reservation = bookerId))
      then throw (ErrorResponse
                    "Vous n'êtes pas autorisé à effectuer un paiement pour cette réservation" 403)
      else
        let* savedPaymentMethod :=
          match truthy (paymentMethodId body) with
          | Some paymentMethodId =>
              let* saved := PaymentMethodModel.findById paymentMethodId in
              match saved with
              | None =>
                  throw (ErrorResponse
                           ("Moyen de paiement non trouvé avec l'id " ++ paymentMethodId) 404)
              | Some saved =>
                  if negb (bool_decide (PaymentMethod.user saved = bookerId))
                  then throw (ErrorResponse "Ce moyen de paiement ne vous appartient pas" 403)
                  else ret (Some saved)
              end
          | None => ret None
          end in
        let totalAmount := number_add (amount body) (serviceFee body) in
        let paymentData :=
          {| PaymentModel.reservation := reservationId body;
             PaymentModel.payer := bookerId;
             PaymentModel.payee := Reservation.artistId reservation;
             PaymentModel.amount := amount body;
             PaymentModel.serviceFee := serviceFee body;
             PaymentModel.totalAmount := totalAmount;
             PaymentModel.paymentMethod :=
               match savedPaymentMethod with
               | Some saved => Some (PaymentMethod.type saved)
               | None => paymentMethod body ≫= Method.of_string
               end;
             PaymentModel.paymentType := default "full" (truthy (paymentType body));
             PaymentModel.paymentDetails :=
               match savedPaymentMethod with
               | Some saved => Some (PaymentMethod.details saved)
               | None =>
                   match paymentDetails body with
                   | Some details =>
                       match bool_decide (paymentMethod body = Some "credit_card"),
                             truthy (field "cardNumber" details) with
                       | true, Some cardNumber => Some (mask_card details cardNumber)
                       | _, _ => Some details
                       end
                   | None => None
                   end
               end;
             PaymentModel.notes := notes body |} in
        try_catch
          (let* payment :=
             PaymentModel.create (newId gen) (reference gen) paymentData in
           (* the simulated gateway settles at once *)
           let payment := Payment.set_status PayStatus.completed payment in
           let payment := Payment.set_transactionId ("sim_" ++ random36 gen) payment in
           PaymentModel.save payment ;;
           (if bool_decide (Payment.status payment = PayStatus.completed)
            then
              let prevPaymentStatus := Reservation.paymentStatus reservation in
              let reservation :=
                Reservation.set_paymentStatus
                  (if bool_decide (Payment.paymentType payment = PaymentType.advance)
                   then PaymentStatus.partial else PaymentStatus.paid)
                  reservation in
              let reservation :=
                if bool_decide (Reservation.status reservation = Status.pending)
                then Reservation.set_status Status.confirmed reservation
                else reservation in
              let reservation :=
                Reservation.set_transactionId (Payment.transactionId payment)
                  reservation in
              ReservationModel.save reservation ;;
              try_catch
                (notificationService.notifyPayment payment reservation "created" ;; ret tt)
                (fun notifError => ret tt) ;;
              if bool_decide (Reservation.status reservation = Status.confirmed)
                 && negb (bool_decide (prevPaymentStatus = PaymentStatus.paid))
              then
                try_catch
                  (notificationService.notifyReservationStatusChange
                     reservation Status.pending ;; ret tt)
                  (fun notifError => ret tt)
              else ret tt
            else ret tt) ;;
           ret (Json 201 payment))
          (fun error =>
             throw (ErrorResponse
                      ("Erreur lors du traitement du paiement: " ++ exn_message error) 500))
  end.

(** POST /api/payments/:id/webhook, with the text [status] of the body
    (a body that carries no [status] is not among the inputs here).
    [paramsId] is the [:id] of the URL, [paymentId] the one of the body. *)
Definition paymentWebhook (paramsId : Id) (paymentId : option Id)
    (status : string) (transactionId : option string) : M (Reply Payment.t) :=
  let* found := PaymentModel.findById (default paramsId (truthy paymentId)) in
  match found with
  | None => ret (JsonError 404 "Paiement non trouvé")
  | Some payment =>
      match PayStatus.of_string status with
      | None => throw (ValidationError "Payment validation failed: status")
      | Some newStatus =>
          let payment := Payment.set_status newStatus payment in
          let payment :=
            match truthy transactionId with
            | Some tx => Payment.set_transactionId tx payment
            | None => payment
            end in
          PaymentModel.save payment ;;
          (if bool_decide (status = "completed")
           then
             let* found := ReservationModel.findById (Payment.reservation payment) in
             match found with
             | Some reservation =>
                 let reservation :=
                   Reservation.set_paymentStatus
                     (if bool_decide (Payment.paymentType payment = PaymentType.advance)
                      then PaymentStatus.partial else PaymentStatus.paid)
                     reservation in
                 let* reservation :=
                   if bool_decide (Reservation.status reservation = Status.pending)
                   then
                     let previousStatus := Reservation.status reservation in
                     let reservation :=
                       Reservation.set_status Status.confirmed reservation in
                     try_catch
                       (notificationService.notifyReservationStatusChange
                          reservation previousStatus ;; ret tt)
                       (fun error => ret tt) ;;
                     ret reservation
                   else ret reservation in
                 ReservationModel.save reservation ;;
                 try_catch
                   (notificationService.notifyPayment payment reservation "confirmed" ;;
                    ret tt)
                   (fun error => ret tt)
             | None => ret tt
             end
           else ret tt) ;;
          ret (Json 200 payment)
      end
  end.

End paymentController.

(** ** The payments router *)

Module paymentsRouter.

(** router.route('/').post(protect, authorize(['booker']), createPayment) *)
Definition POST_payments (production : bool) (principal : option User.t)
    (body : paymentController.Body) (gen : paymentController.Gen)
    : Store -> Store * Reply Payment.t :=
  asyncHandler production
    (protect principal (fun user =>
       authorize [Role.booker] user
         (paymentController.createPayment user body gen))).

(** router.post('/:id/webhook', paymentWebhook): no [protect]. *)
Definition POST_id_webhook (production : bool) (paramsId : Id)
    (paymentId : option Id) (status : string) (transactionId : option string)
    : Store -> Store * Reply Payment.t :=
  asyncHandler production
    (paymentController.paymentWebhook paramsId paymentId status transactionId).

End paymentsRouter.

(** ** Actors, settlement events and sample data for the statements *)

(** The booker whose token names the reservation's booker. *)
Definition owning_booker (user : User.t) (r : Reservation.t) : Prop :=
  User.role user = Role.booker ∧ User.booker user = Some (Reservation.booker r).

(** The artist whose acting id ([req.user.artist], else [req.user.id]) is
    the reservation's artist. *)
Definition assigned_artist (user : User.t) (r : Reservation.t) : Prop :=
  User.role user = Role.artist
  ∧ default (User.id user) (User.artist user) = Reservation.artistId r.

(** A payment reaches [completed]: [createPayment] answered 201 with it, or
    the webhook was delivered with status [completed] and answered 200 with
    it. *)
Inductive completes (production : bool) : Store -> Payment.t -> Store -> Prop :=
| completes_createPayment principal body gen s s' p :
    paymentsRouter.POST_payments production principal body gen s
    = (s', Json 201 p) ->
    completes production s p s'
| completes_webhook paramsId paymentId transactionId s s' p :
    paymentsRouter.POST_id_webhook production paramsId paymentId
      "completed" transactionId s = (s', Json 200 p) ->
    completes production s p s'.

(** The range in which every whole number is a double: magnitude at most
    2^53. *)
Definition safe_integer (x : Z) : Prop := (- 2 ^ 53 ≤ x ≤ 2 ^ 53)%Z.

(** The body with another caller-supplied [totalAmount]. *)
Definition with_totalAmount (t : option Z) (b : paymentController.Body)
    : paymentController.Body :=
  {| paymentController.reservationId := paymentController.reservationId b;
     paymentController.amount := paymentController.amount b;
     paymentController.serviceFee := paymentController.serviceFee b;
     paymentController.totalAmount := t;
     paymentController.paymentMethod := paymentController.paymentMethod b;
     paymentController.paymentType := paymentController.paymentType b;
     paymentController.paymentMethodId := paymentController.paymentMethodId b;
     paymentController.paymentDetails := paymentController.paymentDetails b;
     paymentController.notes := paymentController.notes b |}.

Module Sample.

Definition booker1 : User.t :=
  {| User.id := "b1"; User.role := Role.booker;
     User.booker := Some "b1"; User.artist := None |}.

(** A booker whose token carries no [booker] claim. *)
Definition booker1_bare : User.t :=
  {| User.id := "b1"; User.role := Role.booker;
     User.booker := None; User.artist := None |}.

Definition artist1 : User.t :=
  {| User.id := "a1"; User.role := Role.artist;
     User.booker := None; User.artist := Some "a1" |}.

Definition artist2 : User.t :=
  {| User.id := "a2"; User.role := Role.artist;
     User.booker := None; User.artist := Some "a2" |}.

(** Reservation r1 of booker b1 with artist a1. *)
Definition r1 (st : Status.t) (ps : PaymentStatus.t) : Reservation.t :=
  {| Reservation._id := "r1"; Reservation.booker := "b1";
     Reservation.serviceId := "s1"; Reservation.artistId := "a1";
     Reservation.status := st; Reservation.paymentStatus := ps;
     Reservation.transactionId := ""; Reservation.date := "2025-05-08" |}.

Definition p1 (ty : PaymentType.t) (st : PayStatus.t) : Payment.t :=
  {| Payment._id := "p1"; Payment.reservation := "r1"; Payment.payer := "b1";
     Payment.payee := "a1"; Payment.amount := 500; Payment.serviceFee := 25;
     Payment.totalAmount := 525; Payment.paymentType := ty;
     Payment.paymentMethod := Method.orange; Payment.status := st;
     Payment.transactionId := "sim_abc"; Payment.reference := "PAY-20250508-12345";
     Payment.paymentDetails := None; Payment.notes := "" |}.

(** A database with the single reservation [r]. *)
Definition db (r : Reservation.t) : Store :=
  {| reservations := {[ "r1" := r ]}; payments := ∅; paymentMethods := [];
     notifications := []; bookers := {[ "b1" ]}; artists := {[ "a1"; "a2" ]} |}.

(** A database with the reservation [r] and the payment [p]. *)
Definition db_with_payment (r : Reservation.t) (p : Payment.t) : Store :=
  {| reservations := {[ "r1" := r ]}; payments := {[ "p1" := p ]};
     paymentMethods := []; notifications := []; bookers := {[ "b1" ]};
     artists := {[ "a1"; "a2" ]} |}.

(** The body of the scenario of section 8: amount 500, fee 25, and a
    caller-supplied total of 1. *)
Definition body (ty : string) : paymentController.Body :=
  {| paymentController.reservationId := "r1";
     paymentController.amount := Some 500%Z;
     paymentController.serviceFee := Some 25%Z;
     paymentController.totalAmount := Some 1%Z;
     paymentController.paymentMethod := Some "orange";
     paymentController.paymentType := Some ty;
     paymentController.paymentMethodId := None;
     paymentController.paymentDetails := None;
     paymentController.notes := None |}.

Definition gen : paymentController.Gen :=
  {| paymentController.newId := "p1"; paymentController.random36 := "abc";
     paymentController.reference := "PAY-20250508-12345" |}.

(** Booker b1 adds two payment methods, then deletes the first, which is
    the default. *)
Definition add_add_delete : list (User.t * paymentMethodsRouter.Request) :=
  [ (booker1, paymentMethodsRouter.POST (Some "orange") (Some "Orange Money") None "m1" 1);
    (booker1, paymentMethodsRouter.POST (Some "visa") (Some "Visa") None "m2" 2);
    (booker1, paymentMethodsRouter.DELETE "m1") ].

(** The second method as it was created. *)
Definition m2 : PaymentMethod.t :=
  {| PaymentMethod._id := "m2"; PaymentMethod.user := "b1";
     PaymentMethod.userModel := OwnerModel.Booker;
     PaymentMethod.type := Method.visa; PaymentMethod.name := "Visa";
     PaymentMethod.details := []; PaymentMethod.isDefault := false;
     PaymentMethod.createdAt := 2 |}.

(** The database after a first delivery of the webhook for payment p1,
    which was pending, with status completed. *)
Definition delivered_once : Store :=
  fst (paymentsRouter.POST_id_webhook false "p1" None "completed" None
         (db_with_payment (r1 Status.pending PaymentStatus.pending)
            (p1 PaymentType.full PayStatus.pending))).

End Sample.

(** ** The default payment method of an owner *)

(** The query [{user, userModel, isDefault: true}]. *)
Definition is_default_of (user : Id) (userModel : OwnerModel.t)
    (m : PaymentMethod.t) : bool :=
  PaymentMethodModel.owned_by user userModel m && PaymentMethod.isDefault m.

(** The unique index on [_id]. *)
Definition unique_ids (l : list PaymentMethod.t) : Prop :=
  NoDup (map PaymentMethod._id l).

Definition at_most_one_default (l : list PaymentMethod.t) : Prop :=
  ∀ user userModel,
    (length (List.filter (is_default_of user userModel) l) ≤ 1)%nat.

(** What the requests to the payment-method routes maintain. *)
Definition consistent_methods (s : Store) : Prop :=
  unique_ids (paymentMethods s) ∧ at_most_one_default (paymentMethods s).

(** The effect of the pre-save hook on the collection. *)
Definition pre_save (doc : PaymentMethod.t) (l : list PaymentMethod.t)
    : list PaymentMethod.t :=
  if PaymentMethod.isDefault doc
  then map (fun m =>
              if PaymentMethodModel.owned_by (PaymentMethod.user doc)
                   (PaymentMethod.userModel doc) m
                 && negb (PaymentMethodModel.has_id (PaymentMethod._id doc) m)
                 && PaymentMethod.isDefault m
              then PaymentMethod.set_isDefault false m else m) l
  else l.

(** ** More of the reservation controller *)

Module Service.
(** Of a service, the reservation controller reads that it exists and
    whether it is [active]. *)
Record t := { _id : Id; artist : Id; active : bool }.
End Service.

(** [notifyNewReservation] of the notification service: one notification
    to the artist. *)
Definition notifyNewReservation (reservation : Reservation.t) : M Notification.t :=
  try_catch
    (notificationService.createNotification
       {| Notification.recipient := Reservation.artistId reservation;
          Notification.recipientModel := OwnerModel.Artist;
          Notification.sender := Reservation.booker reservation;
          Notification.senderModel := OwnerModel.Booker;
          Notification.relatedId := Reservation._id reservation;
          Notification.type := NotifType.new_reservation;
          Notification.title := "Nouvelle réservation" |})
    (fun error => throw error).

Module ReservationBody.
(** The body of POST /api/reservations.  The payment number and the card
    fields are copied to the document and read by nothing; they are left
    out, as they are from [Reservation.t]. *)
Record t := {
  serviceId : option Id;
  artistId : option Id;
  booker : option Id;
  date : option string;
  startTime : option string;
  endTime : option string;
  location : option string;
  eventType : option string;
  paymentMethod : option string;
  amount : option Z;
  serviceFee : option Z
}.
End ReservationBody.

(** [Reservation.create(reservationData)]: the required paths are present,
    [paymentMethod] is one of the enumeration, [_id] is unique.  The
    document starts with the schema defaults: status pending, paymentStatus
    pending, no transaction id. *)
Definition Reservation_create (newId : Id) (bookerId : Id) (serviceId : Id)
    (body : ReservationBody.t) : M Reservation.t :=
  match ReservationBody.artistId body, truthy (ReservationBody.date body),
        truthy (ReservationBody.startTime body),
        truthy (ReservationBody.endTime body),
        truthy (ReservationBody.location body),
        truthy (ReservationBody.eventType body),
        ReservationBody.amount body, ReservationBody.serviceFee body,
        ReservationBody.paymentMethod body with
  | Some artistId, Some date, Some _, Some _, Some _, Some _, Some _, Some _,
    Some paymentMethod =>
      if negb (includes ["orange"; "mtn"; "moov"; "wave"; "visa"] paymentMethod)
      then throw (ValidationError "Reservation validation failed: paymentMethod")
      else
        let* db := get in
        if bool_decide (is_Some (reservations db !! newId))
        then throw (DuplicateKeyError "E11000 duplicate key error: _id")
        else
          let reservation :=
            {| Reservation._id := newId;
               Reservation.booker := bookerId;
               Reservation.serviceId := serviceId;
               Reservation.artistId := artistId;
               Reservation.status := Status.pending;
               Reservation.paymentStatus := PaymentStatus.pending;
               Reservation.transactionId := "";
               Reservation.date := date |} in
          ReservationModel.save reservation ;; ret reservation
  | _, _, _, _, _, _, _, _, _ =>
      throw (ValidationError "Reservation validation failed")
  end.

(** The booker id of [createReservation]:
    [req.user?.booker || (req.user?.role === 'booker' ? req.user.id : null) || booker]. *)
Definition resolve_bookerId (user : option User.t) (booker : option Id)
    : option Id :=
  match user ≫= User.booker with
  | Some b => Some b
  | None =>
      match user with
      | Some u =>
          if bool_decide (User.role u = Role.booker) then Some (User.id u)
          else truthy booker
      | None => truthy booker
      end
  end.

(** POST /api/reservations.  [services] is the Service collection, which
    the handler only reads; [newId] is the [_id] the driver gives the new
    reservation. *)
Definition createReservation (services : gmap Id Service.t)
    (user : option User.t) (body : ReservationBody.t) (newId : Id)
    : M (Reply Reservation.t) :=
  match ReservationBody.serviceId body with
  | None => throw (ErrorResponse "Service non trouvé avec l'id undefined" 404)
  | Some serviceId =>
      match services !! serviceId with
      | None => throw (ErrorResponse ("Service non trouvé avec l'id " ++ serviceId) 404)
      | Some service =>
          if negb (Service.active service)
          then throw (ErrorResponse
                        "Ce service n'est pas disponible pour réservation" 400)
          else
            match resolve_bookerId user (ReservationBody.booker body) with
            | None =>
                throw (ErrorResponse
                         "ID du booker requis pour créer une réservation" 400)
            | Some bookerId =>
                try_catch
                  (let* reservation :=
                     Reservation_create newId bookerId serviceId body in
                   try_catch
                     (notifyNewReservation reservation ;; ret tt)
                     (fun notifError => ret tt) ;;
                   ret (Json 201 reservation))
                  (fun err =>
                     match err with
                     | ValidationError m =>
                         throw (ErrorResponse ("Erreur de validation: " ++ m) 400)
                     | _ => throw err
                     end)
            end
      end
  end.

(** DELETE /api/reservations/:id.  The reply carries no data. *)
Definition deleteReservation (user : User.t) (id : Id) : M (Reply unit) :=
  let* found := ReservationModel.findById id in
  match found with
  | None => ret (JsonError 404 ("Réservation non trouvée avec l'id " ++ id))
  | Some reservation =>
      let isAuthorized := bool_decide (User.role user = Role.admin) in
      let isAuthorized :=
        match User.role user, User.booker user with
        | Role.booker, Some bookerId =>
            if bool_decide (bookerId = Reservation.booker reservation)
            then true else isAuthorized
        | _, _ => isAuthorized
        end in
      if negb isAuthorized
      then ret (JsonError 403 "Vous n'êtes pas autorisé à supprimer cette réservation")
      else
        modify (set_reservations (delete (Reservation._id reservation))) ;;
        ret (Json 200 tt)
  end.

(** router.route('/').post(authorize(['booker']), createReservation) *)
Definition POST_reservations (production : bool) (services : gmap Id Service.t)
    (principal : option User.t) (body : ReservationBody.t) (newId : Id)
    : Store -> Store * Reply Reservation.t :=
  asyncHandler production
    (protect principal (fun user =>
       authorize [Role.booker] user
         (createReservation services (Some user) body newId))).

(** router.delete('/:id', authorize(['booker', 'admin']), deleteReservation) *)
Definition DELETE_reservations_id (production : bool) (principal : option User.t)
    (id : Id) : Store -> Store * Reply unit :=
  asyncHandler production
    (protect principal (fun user =>
       authorize [Role.booker; Role.admin] user (deleteReservation user id))).

(** ** More of the payment controller *)

(** GET /api/payments/:id.  The populated reservation is not read by the
    handler and is left out of the reply. *)
Definition getPayment (user : User.t) (id : Id) : M (Reply Payment.t) :=
  let* found := PaymentModel.findById id in
  match found with
  | None => throw (ErrorResponse ("Paiement non trouvé avec l'id " ++ id) 404)
  | Some payment =>
      let userId :=
        if bool_decide (User.role user = Role.booker)
        then default (User.id user) (User.booker user)
        else default (User.id user) (User.artist user) in
      if negb (bool_decide (Payment.payer payment = userId))
         && negb (bool_decide (Payment.payee payment = userId))
      then throw (ErrorResponse "Vous n'êtes pas autorisé à accéder à ce paiement" 403)
      else ret (Json 200 payment)
  end.

(** router.get('/:id', protect, authorize(['booker', 'artist']), getPayment) *)
Definition GET_payments_id (production : bool) (principal : option User.t)
    (id : Id) : Store -> Store * Reply Payment.t :=
  asyncHandler production
    (protect principal (fun user =>
       authorize [Role.booker; Role.artist] user (getPayment user id))).

(** ** More of the payment-method controller *)

(** Insertion of [x] before the first element it may precede. *)
Fixpoint insert_sorted {A : Type} (before : A -> A -> bool) (x : A)
    (l : list A) : list A :=
  match l with
  | [] => [x]
  | y :: rest =>
      if before x y then x :: y :: rest
      else y :: insert_sorted before x rest
  end.

(** [.sort(...)] of a query, by the order [before]. *)
Definition sort_by {A : Type} (before : A -> A -> bool) (l : list A) : list A :=
  foldr (insert_sorted before) [] l.

(** The order [{ isDefault: -1, createdAt: -1 }]: the default first, then
    the latest created. *)
Definition default_then_latest (a b : PaymentMethod.t) : bool :=
  if PaymentMethod.isDefault a
  then negb (PaymentMethod.isDefault b)
       || Nat.leb (PaymentMethod.createdAt b) (PaymentMethod.createdAt a)
  else negb (PaymentMethod.isDefault b)
       && Nat.leb (PaymentMethod.createdAt b) (PaymentMethod.createdAt a).

(** GET /api/payment-methods: the reply carries [count] and [data]. *)
Definition getMyPaymentMethods (user : User.t)
    : M (Reply (nat * list PaymentMethod.t)) :=
  match paymentMethodController.acting_id user,
        paymentMethodController.acting_model user with
  | Some userId, Some userModel =>
      let* db := get in
      let paymentMethods :=
        sort_by default_then_latest
          (List.filter (PaymentMethodModel.owned_by userId userModel)
             (paymentMethods db)) in
      ret (Json 200 (length paymentMethods, paymentMethods))
  | _, _ => ret (JsonError 400 "Type d'utilisateur non pris en charge")
  end.

(** GET /api/payment-methods/:id *)
Definition getPaymentMethod (user : User.t) (id : Id)
    : M (Reply PaymentMethod.t) :=
  let* found := PaymentMethodModel.findById id in
  match found with
  | None => ret (JsonError 404 ("Moyen de paiement non trouvé avec l'id " ++ id))
  | Some paymentMethod =>
      paymentMethodController.check_owner user paymentMethod
        "Vous n'êtes pas autorisé à accéder à ce moyen de paiement"
        (fun _ => ret (Json 200 paymentMethod))
  end.

(** ** Further sample data *)

Module Fixture.

(** The collection after booker b1 created two payment methods: m1 is the
    default, m2 is not. *)
Definition two_methods : Store :=
  paymentMethodsRouter.serve_all false
    [ (Sample.booker1,
       paymentMethodsRouter.POST (Some "orange") (Some "Orange Money") None "m1" 1);
      (Sample.booker1,
       paymentMethodsRouter.POST (Some "visa") (Some "Visa") None "m2" 2) ]
    empty_store.

(** The first method as it is stored, flagged default. *)
Definition m1 : PaymentMethod.t :=
  {| PaymentMethod._id := "m1"; PaymentMethod.user := "b1";
     PaymentMethod.userModel := OwnerModel.Booker;
     PaymentMethod.type := Method.orange; PaymentMethod.name := "Orange Money";
     PaymentMethod.details := []; PaymentMethod.isDefault := true;
     PaymentMethod.createdAt := 1 |}.

(** The collection with the single method m1, the default. *)
Definition one_method : Store :=
  paymentMethodsRouter.serve_all false
    [ (Sample.booker1,
       paymentMethodsRouter.POST (Some "orange") (Some "Orange Money") None "m1" 1) ]
    empty_store.

(** Another booker. *)
Definition booker2 : User.t :=
  {| User.id := "b2"; User.role := Role.booker;
     User.booker := Some "b2"; User.artist := None |}.

(** An artist whose token carries no [artist] claim. *)
Definition artist2_bare : User.t :=
  {| User.id := "a2"; User.role := Role.artist;
     User.booker := None; User.artist := None |}.

(** The Service collection with the active service s1 of artist a1. *)
Definition services : gmap Id Service.t :=
  {[ "s1" := {| Service._id := "s1"; Service.artist := "a1";
                Service.active := true |} ]}.


(** A card payment for reservation r1 whose details carry the full card
    number. *)
Definition card_body : paymentController.Body :=
  {| paymentController.reservationId := "r1";
     paymentController.amount := Some 500%Z;
     paymentController.serviceFee := Some 25%Z;
     paymentController.totalAmount := None;
     paymentController.paymentMethod := Some "credit_card";
     paymentController.paymentType := Some "full";
     paymentController.paymentMethodId := None;
     paymentController.paymentDetails := Some [("cardNumber", "4000123412344242")];
     paymentController.notes := None |}.

(** The payment stored for [card_body]. *)
Definition card_payment : Payment.t :=
  {| Payment._id := "p1"; Payment.reservation := "r1"; Payment.payer := "b1";
     Payment.payee := "a1"; Payment.amount := 500; Payment.serviceFee := 25;
     Payment.totalAmount := 525; Payment.paymentType := PaymentType.full;
     Payment.paymentMethod := Method.credit_card;
     Payment.status := PayStatus.completed;
     Payment.transactionId := "sim_abc";
     Payment.reference := "PAY-20250508-12345";
     Payment.paymentDetails := Some [("cardLast4", "4242")];
     Payment.notes := "" |}.

(** Reservation r1 of booker b1, who has saved the Orange Money method m1. *)
Definition db_with_method : Store :=
  set_paymentMethods (fun _ => [m1])
    (Sample.db (Sample.r1 Status.pending PaymentStatus.pending)).

(** A payment that names the saved method m1 and, in the body, another
    method. *)
Definition saved_method_body : paymentController.Body :=
  {| paymentController.reservationId := "r1";
     paymentController.amount := Some 500%Z;
     paymentController.serviceFee := Some 25%Z;
     paymentController.totalAmount := None;
     paymentController.paymentMethod := Some "visa";
     paymentController.paymentType := Some "full";
     paymentController.paymentMethodId := Some "m1";
     paymentController.paymentDetails := Some [("cardholderName", "A. B.")];
     paymentController.notes := None |}.

(** The payment stored for [saved_method_body]. *)
Definition saved_method_payment : Payment.t :=
  {| Payment._id := "p1"; Payment.reservation := "r1"; Payment.payer := "b1";
     Payment.payee := "a1"; Payment.amount := 500; Payment.serviceFee := 25;
     Payment.totalAmount := 525; Payment.paymentType := PaymentType.full;
     Payment.paymentMethod := Method.orange;
     Payment.status := PayStatus.completed;
     Payment.transactionId := "sim_abc";
     Payment.reference := "PAY-20250508-12345";
     Payment.paymentDetails := Some [];
     Payment.notes := "" |}.

End Fixture.

(** A list that holds a default method starts with one. *)
Definition default_first (l : list PaymentMethod.t) : Prop :=
  (∃ m, m ∈ l ∧ PaymentMethod.isDefault m = true) ->
  ∃ h t, l = h :: t ∧ PaymentMethod.isDefault h = true.

(** * Properties *)

(** ** Auxiliary facts *)

(** A closed decidable proposition, settled by evaluating its decision. *)
Ltac by_computation := apply (bool_decide_unpack _); vm_compute; exact I.

Lemma includes_true l x : includes l x = true <-> x ∈ l.
Proof. unfold includes. apply bool_decide_eq_true. Qed.

Lemma includes_false l x : includes l x = false <-> x ∉ l.
Proof. unfold includes. apply bool_decide_eq_false. Qed.

(** The artist test of [updateReservationStatus] succeeds for the assigned
    artist, with or without the [artist] claim, on either route. *)
Lemma isArtist_assigned user originalUrl r :
  assigned_artist user r ->
  match User.artist user with
  | Some artistId => bool_decide (artistId = Reservation.artistId r)
  | None => if str_includes "/artist/" originalUrl then true
            else bool_decide (User.id user = Reservation.artistId r)
  end = true.
Proof.
  intros [_ Ha]. destruct (User.artist user); simpl in Ha.
  - by apply bool_decide_eq_true_2.
  - destruct (str_includes _ _); [done|]. by apply bool_decide_eq_true_2.
Qed.

(** ** Reservation status updates *)

(** C2. On an existing reservation, a status update by the owning booker
    to a status other than cancelled, or by the assigned artist to a status
    outside confirmed, completed, cancelled (that is, to pending), is
    answered 403 and leaves the database as it was. *)
Theorem updateReservationStatus_forbidden_targets
    production user originalUrl id status r s :
  reservations s !! id = Some r ->
  (owning_booker user r
   ∧ status ∈ ["pending"; "confirmed"; "completed"; "cancelled"]
   ∧ status ≠ "cancelled")
  ∨ (assigned_artist user r
     ∧ status ∈ ["pending"; "confirmed"; "completed"; "cancelled"]
     ∧ status ∉ ["confirmed"; "completed"; "cancelled"]) ->
  ∃ message,
    asyncHandler production
      (reservationController.updateReservationStatus (Some user) originalUrl id
         (Some status)) s
    = (s, JsonError 403 message).
Proof.
  intros Hr Hactor.
  unfold asyncHandler, reservationController.updateReservationStatus.
  assert (includes ["pending"; "confirmed"; "completed"; "cancelled"] status = true) as ->.
  { apply includes_true. destruct Hactor as [(_ & H & _)|(_ & H & _)]; exact H. }
  simpl. unfold try_catch, bind, ReservationModel.findById. rewrite Hr.
  destruct Hactor as [([Hrole Hb] & _ & Hne) | (Hart & _ & Hnin)].
  - rewrite Hrole, Hb. rewrite bool_decide_eq_true_2 by done.
    rewrite (bool_decide_eq_false_2 (status = "cancelled")) by done.
    simpl. eauto.
  - rewrite (isArtist_assigned user originalUrl r Hart).
    destruct Hart as [Hrole _]. rewrite Hrole.
    apply includes_false in Hnin. rewrite Hnin.
    simpl. eauto.
Qed.

Lemma updateReservationStatus_forbidden_targets_witness :
  (∃ message,
     asyncHandler false
       (reservationController.updateReservationStatus (Some Sample.booker1)
          "/api/reservations/r1/status" "r1" (Some "confirmed"))
       (Sample.db (Sample.r1 Status.pending PaymentStatus.pending))
     = (Sample.db (Sample.r1 Status.pending PaymentStatus.pending),
        JsonError 403 message))
  ∧ (∃ message,
       asyncHandler false
         (reservationController.updateReservationStatus (Some Sample.artist1)
            "/api/reservations/artist/r1/status" "r1" (Some "pending"))
         (Sample.db (Sample.r1 Status.confirmed PaymentStatus.pending))
       = (Sample.db (Sample.r1 Status.confirmed PaymentStatus.pending),
          JsonError 403 message)).
Proof.
  split.
  - apply (updateReservationStatus_forbidden_targets false Sample.booker1
             "/api/reservations/r1/status" "r1" "confirmed"
             (Sample.r1 Status.pending PaymentStatus.pending)).
    + reflexivity.
    + left. split; [split; reflexivity|]. split; [by_computation|discriminate].
  - apply (updateReservationStatus_forbidden_targets false Sample.artist1
             "/api/reservations/artist/r1/status" "r1" "pending"
             (Sample.r1 Status.confirmed PaymentStatus.pending)).
    + reflexivity.
    + right. split; [split; reflexivity|]. split; by_computation.
Defined.

(** C3, as stated, fails: the assigned artist moves a completed reservation
    back to confirmed. *)
Lemma terminal_statuses_can_be_left :
  ¬ (∀ production user originalUrl id status r s,
       reservations s !! id = Some r ->
       Reservation.status r ∈ [Status.completed; Status.cancelled] ->
       Reservation.status <$>
         reservations
           (fst (asyncHandler production
                   (reservationController.updateReservationStatus (Some user)
                      originalUrl id status) s)) !! id
       = Some (Reservation.status r)).
Proof.
  intros H.
  specialize (H false Sample.artist1 "/api/reservations/artist/r1/status" "r1"
                (Some "confirmed")
                (Sample.r1 Status.completed PaymentStatus.paid)
                (Sample.db (Sample.r1 Status.completed PaymentStatus.paid))).
  vm_compute in H.
  assert (Some Status.confirmed = Some Status.completed) as Heq
    by (apply H; [reflexivity|constructor]).
  discriminate Heq.
Qed.

(** C3, amended. The handler does not read the current status: whatever it
    is (completed and cancelled included), a request by the owning booker
    with target cancelled, or by the assigned artist with a target among
    confirmed, completed, cancelled, is answered 200 and the target is
    stored. *)
Theorem updateReservationStatus_from_any_status
    production user originalUrl id status r s :
  reservations s !! id = Some r ->
  Reservation._id r = id ->
  (owning_booker user r ∧ status = "cancelled")
  ∨ (assigned_artist user r ∧ status ∈ ["confirmed"; "completed"; "cancelled"]) ->
  ∃ target s',
    Status.of_string status = Some target
    ∧ asyncHandler production
        (reservationController.updateReservationStatus (Some user) originalUrl id
           (Some status)) s
      = (s', Json 200 (Reservation.set_status target r))
    ∧ reservations s' !! id = Some (Reservation.set_status target r).
Proof.
  intros Hr Hid Hactor.
  unfold asyncHandler, reservationController.updateReservationStatus.
  assert (∀ x, x ∈ ["confirmed"; "completed"; "cancelled"] ->
    includes ["pending"; "confirmed"; "completed"; "cancelled"] x = true) as Hvalid.
  { intros x Hx. apply includes_true. set_unfold. tauto. }
  destruct Hactor as [([Hrole Hb] & ->) | (Hart & Hin)].
  - exists Status.cancelled.
    rewrite Hvalid by by_computation.
    cbn. unfold try_catch, bind, ReservationModel.findById. cbn.
    rewrite Hr, Hrole, Hb.
    rewrite (bool_decide_eq_true_2 (Reservation.booker r = Reservation.booker r)) by done.
    cbn. eexists. split; [reflexivity|]. split; [reflexivity|].
    cbn. rewrite Hid. apply lookup_insert_eq.
  - pose proof (isArtist_assigned user originalUrl r Hart) as HisArtist.
    destruct Hart as [Hrole _].
    rewrite (Hvalid _ Hin).
    cbn. unfold try_catch, bind, ReservationModel.findById. cbn.
    rewrite Hr, Hrole, HisArtist. rewrite (proj2 (includes_true _ _) Hin).
    set_unfold in Hin. destruct Hin as [->|[->|[->|[]]]].
    + exists Status.confirmed. eexists. split; [reflexivity|]. split; [reflexivity|].
      cbn. rewrite Hid. apply lookup_insert_eq.
    + exists Status.completed. eexists. split; [reflexivity|]. split; [reflexivity|].
      cbn. rewrite Hid. apply lookup_insert_eq.
    + exists Status.cancelled. eexists. split; [reflexivity|]. split; [reflexivity|].
      cbn. rewrite Hid. apply lookup_insert_eq.
Qed.

Lemma updateReservationStatus_from_any_status_witness :
  ∃ target s',
    Status.of_string "confirmed" = Some target
    ∧ asyncHandler false
        (reservationController.updateReservationStatus (Some Sample.artist1)
           "/api/reservations/artist/r1/status" "r1" (Some "confirmed"))
        (Sample.db (Sample.r1 Status.cancelled PaymentStatus.pending))
      = (s', Json 200 (Reservation.set_status target
                         (Sample.r1 Status.cancelled PaymentStatus.pending)))
    ∧ reservations s' !! "r1"
      = Some (Reservation.set_status target
                (Sample.r1 Status.cancelled PaymentStatus.pending)).
Proof.
  apply (updateReservationStatus_from_any_status false Sample.artist1
           "/api/reservations/artist/r1/status" "r1" "confirmed"
           (Sample.r1 Status.cancelled PaymentStatus.pending)).
  - reflexivity.
  - reflexivity.
  - right. split; [split; reflexivity|by_computation].
Defined.

(** ** Direct payment-status updates *)

(** C9. PATCH /reservations/:id/payment accepts exactly pending, paid,
    failed and refunded: a request with paymentStatus partial is answered
    with the 400 validation error and the database is as it was, and a
    request is answered with that validation error exactly when its
    paymentStatus is outside the four values. *)
Theorem updatePaymentStatus_accepted_values production user id transactionId s :
  asyncHandler production
    (reservationController.updatePaymentStatus user id (Some "partial") transactionId) s
  = (s, JsonError 400 "Statut de paiement invalide")
  ∧ ∀ paymentStatus,
      asyncHandler production
        (reservationController.updatePaymentStatus user id (Some paymentStatus)
           transactionId) s
      = (s, JsonError 400 "Statut de paiement invalide")
      <-> paymentStatus ∉ ["pending"; "paid"; "failed"; "refunded"].
Proof.
  split; [reflexivity|].
  intros ps. unfold asyncHandler, reservationController.updatePaymentStatus.
  destruct (includes _ ps) eqn:Hin; simpl.
  - apply includes_true in Hin. split; [|done].
    intros H. exfalso.
    assert (∃ st, PaymentStatus.of_string ps = Some st) as [st Hst].
    { set_unfold in Hin. destruct Hin as [->|[->|[->|[->|[]]]]]; eexists; reflexivity. }
    unfold bind, ReservationModel.findById in H. simpl in H.
    destruct (reservations s !! id); simpl in H; [|destruct production; discriminate].
    destruct (User.booker user); simpl in H; [|destruct production; discriminate].
    destruct (bool_decide _); simpl in H; [|discriminate].
    rewrite Hst in H. simpl in H. discriminate.
  - apply includes_false in Hin. done.
Qed.

(** C10, as stated for every authenticated principal without a booker id,
    fails: artist a1, whose token carries no booker id, is stopped by
    [authorize] before the handler and answered 403. *)
Lemma updatePaymentStatus_missing_claim_other_role :
  ¬ (∀ production user id paymentStatus transactionId r s,
       User.booker user = None ->
       reservations s !! id = Some r ->
       paymentStatus ∈ ["pending"; "paid"; "failed"; "refunded"] ->
       ∃ message,
         reservationsRouter.PATCH_id_payment production (Some user) id
           (Some paymentStatus) transactionId s
         = (s, JsonError 500 message)).
Proof.
  intros H.
  destruct (H false Sample.artist1 "r1" "paid" None
              (Sample.r1 Status.pending PaymentStatus.pending)
              (Sample.db (Sample.r1 Status.pending PaymentStatus.pending)))
    as [message Hreply].
  - reflexivity.
  - reflexivity.
  - by_computation.
  - vm_compute in Hreply. discriminate Hreply.
Qed.

(** C10, amended. PATCH /reservations/:id/payment by an authenticated
    principal of role booker (the role the route admits) whose token
    carries no booker id, on an existing reservation and with an accepted
    paymentStatus: the ownership comparison reads [toString] of the missing
    id, the error handler answers 500 (not 403, not 400), and the database
    is as it was. *)
Theorem updatePaymentStatus_missing_booker_claim
    production user id paymentStatus transactionId r s :
  User.role user = Role.booker ->
  User.booker user = None ->
  reservations s !! id = Some r ->
  paymentStatus ∈ ["pending"; "paid"; "failed"; "refunded"] ->
  reservationsRouter.PATCH_id_payment production (Some user) id
    (Some paymentStatus) transactionId s
  = (s, JsonError 500
          (if production then "Erreur serveur"
           else "Cannot read properties of undefined (reading 'toString')")).
Proof.
  intros Hrole Hbooker Hr Hin.
  unfold reservationsRouter.PATCH_id_payment, asyncHandler,
    protect, authorize,
    reservationController.updatePaymentStatus.
  rewrite Hrole. simpl.
  apply includes_true in Hin. rewrite Hin. simpl.
  unfold bind, ReservationModel.findById. rewrite Hr, Hbooker. simpl.
  by destruct production.
Qed.

Lemma updatePaymentStatus_missing_booker_claim_witness :
  reservationsRouter.PATCH_id_payment false (Some Sample.booker1_bare) "r1"
    (Some "paid") None (Sample.db (Sample.r1 Status.pending PaymentStatus.pending))
  = (Sample.db (Sample.r1 Status.pending PaymentStatus.pending),
     JsonError 500 "Cannot read properties of undefined (reading 'toString')").
Proof.
  apply (updatePaymentStatus_missing_booker_claim false Sample.booker1_bare
           "r1" "paid" None (Sample.r1 Status.pending PaymentStatus.pending)).
  - reflexivity.
  - reflexivity.
  - reflexivity.
  - by_computation.
Defined.

(** ** Rules for running a handler

    [wp] is computed along the structure of the handler: one rule per
    monad operation and per collection primitive. *)

Section wp_rules.
Context {A : Type}.
Implicit Types (Q : Store -> Exn + A -> Prop) (s : Store).

Lemma wp_ret (a : A) Q s : Q s (inr a) -> wp (ret a) Q s.
Proof. done. Qed.

Lemma wp_throw (e : Exn) Q s : Q s (inl e) -> wp (throw e) Q s.
Proof. done. Qed.

Lemma wp_bind {B : Type} (c : M B) (k : B -> M A) Q s :
  wp c (fun s' x => match x with
                    | inl e => Q s' (inl e)
                    | inr b => wp (k b) Q s'
                    end) s ->
  wp (bind c k) Q s.
Proof. unfold wp, bind. by destruct (c s) as [s' [e|b]]. Qed.

Lemma wp_try_catch (c : M A) (handler : Exn -> M A) Q s :
  wp c (fun s' x => match x with
                    | inl e => wp (handler e) Q s'
                    | inr a => Q s' (inr a)
                    end) s ->
  wp (try_catch c handler) Q s.
Proof. unfold wp, try_catch. by destruct (c s) as [s' [e|a]]. Qed.

Lemma wp_asyncHandler production (fn : M (Reply A))
    (Q : Store -> Reply A -> Prop) s :
  wp fn (fun s' x => match x with
                     | inl e => Q s' (errorHandler production e)
                     | inr r => Q s' r
                     end) s ->
  Q (fst (asyncHandler production fn s)) (snd (asyncHandler production fn s)).
Proof. unfold wp, asyncHandler. by destruct (fn s) as [s' [e|a]]. Qed.

End wp_rules.

Lemma wp_swallow (c : M unit) (Q : Store -> Exn + unit -> Prop) s :
  wp c (fun s' _ => Q s' (inr tt)) s ->
  wp (try_catch c (fun _ => ret tt)) Q s.
Proof. unfold wp, try_catch, ret. by destruct (c s) as [s' [e|[]]]. Qed.

Lemma wp_PaymentModel_create id ref d (Q : Store -> Exn + Payment.t -> Prop) s :
  (∀ e, Q s (inl e)) ->
  (∀ p, payments s !! id = None ->
        Payment._id p = id ->
        Payment.reservation p = PaymentModel.reservation d ->
        PaymentModel.amount d = Some (Payment.amount p) ->
        PaymentModel.serviceFee d = Some (Payment.serviceFee p) ->
        PaymentModel.totalAmount d = Some (Payment.totalAmount p) ->
        PaymentType.of_string (PaymentModel.paymentType d)
        = Some (Payment.paymentType p) ->
        Q (set_payments (insert id p) s) (inr p)) ->
  wp (PaymentModel.create id ref d) Q s.
Proof.
  intros Herr Hok. unfold wp, PaymentModel.create.
  destruct (PaymentModel.amount d) as [a|]; [|apply Herr].
  destruct (PaymentModel.serviceFee d) as [f|]; [|apply Herr].
  destruct (PaymentModel.totalAmount d) as [t|]; [|apply Herr].
  destruct (PaymentModel.paymentMethod d) as [m|]; [|apply Herr].
  destruct (PaymentType.of_string (PaymentModel.paymentType d)) as [ty|];
    [|apply Herr].
  unfold bind, get. case_bool_decide as Hid; [apply Herr|].
  case_bool_decide; [apply Herr|].
  cbn. apply Hok; try reflexivity.
  destruct (payments s !! id) eqn:E; [|done]. exfalso. apply Hid. eauto.
Qed.

(** The notification service only appends to the notification log. *)
Lemma notifyPayment_appends payment reservation action s :
  ∃ n1 n2,
    notificationService.notifyPayment payment reservation action s
    = (set_notifications (fun l => (l ++ [n1; n2])%list) s, inr [n1; n2])
    ∧ Notification.recipient n1 = Reservation.artistId reservation
    ∧ Notification.recipient n2 = Reservation.booker reservation
    ∧ (action = "confirmed" ->
       Notification.type n1 = NotifType.payment_confirmed
       ∧ Notification.type n2 = NotifType.payment_confirmed).
Proof.
  eexists _, _. split; [|split; [|split]].
  - cbn. unfold set_notifications. cbn. rewrite <- app_assoc. reflexivity.
  - reflexivity.
  - reflexivity.
  - intros ->. split; reflexivity.
Qed.

Lemma wp_notifyPayment payment reservation action
    (Q : Store -> Exn + list Notification.t -> Prop) s :
  (∀ n1 n2,
     Notification.recipient n1 = Reservation.artistId reservation ->
     Notification.recipient n2 = Reservation.booker reservation ->
     (action = "confirmed" ->
      Notification.type n1 = NotifType.payment_confirmed
      ∧ Notification.type n2 = NotifType.payment_confirmed) ->
     Q (set_notifications (fun l => (l ++ [n1; n2])%list) s) (inr [n1; n2])) ->
  wp (notificationService.notifyPayment payment reservation action) Q s.
Proof.
  intros HQ. unfold wp.
  destruct (notifyPayment_appends payment reservation action s)
    as (n1 & n2 & -> & H1 & H2 & H3).
  by apply HQ.
Qed.

Lemma notifyReservationStatusChange_appends reservation previousStatus s :
  ∃ l r,
    notificationService.notifyReservationStatusChange reservation previousStatus s
    = (set_notifications (fun l0 => (l0 ++ l)%list) s, inr r)
    ∧ (Reservation.status reservation = Status.pending -> l = [])
    ∧ (Reservation.status reservation ≠ Status.pending -> length l = 1).
Proof.
  unfold notificationService.notifyReservationStatusChange.
  destruct (Reservation.status reservation); cbn.
  - exists [], None. split; [|done].
    unfold set_notifications. cbn. rewrite app_nil_r. by destruct s.
  - eexists [_], _. split; [reflexivity|done].
  - eexists [_], _. split; [reflexivity|done].
  - eexists [_], _. split; [reflexivity|done].
Qed.

Lemma wp_notifyReservationStatusChange reservation previousStatus
    (Q : Store -> Exn + option Notification.t -> Prop) s :
  (∀ l r,
     (Reservation.status reservation = Status.pending -> l = []) ->
     (Reservation.status reservation ≠ Status.pending -> length l = 1) ->
     Q (set_notifications (fun l0 => (l0 ++ l)%list) s) (inr r)) ->
  wp (notificationService.notifyReservationStatusChange reservation previousStatus) Q s.
Proof.
  intros HQ. unfold wp.
  destruct (notifyReservationStatusChange_appends reservation previousStatus s)
    as (l & r & -> & H1 & H2).
  by apply HQ.
Qed.

Lemma wp_Reservation_findById id (Q : Store -> Exn + option Reservation.t -> Prop) s :
  Q s (inr (reservations s !! id)) -> wp (ReservationModel.findById id) Q s.
Proof. done. Qed.

Lemma wp_Reservation_save r (Q : Store -> Exn + unit -> Prop) s :
  Q (set_reservations (insert (Reservation._id r) r) s) (inr tt) ->
  wp (ReservationModel.save r) Q s.
Proof. done. Qed.

Lemma wp_Payment_findById id (Q : Store -> Exn + option Payment.t -> Prop) s :
  Q s (inr (payments s !! id)) -> wp (PaymentModel.findById id) Q s.
Proof. done. Qed.

Lemma wp_Payment_save p (Q : Store -> Exn + unit -> Prop) s :
  Q (set_payments (insert (Payment._id p) p) s) (inr tt) ->
  wp (PaymentModel.save p) Q s.
Proof. done. Qed.

Lemma wp_PaymentMethod_findById id (Q : Store -> Exn + option PaymentMethod.t -> Prop) s :
  Q s (inr (List.find (PaymentMethodModel.has_id id) (paymentMethods s))) ->
  wp (PaymentMethodModel.findById id) Q s.
Proof. done. Qed.

Ltac wp_step :=
  lazymatch goal with
  | |- wp (ret _) _ _ => apply wp_ret
  | |- wp (throw _) _ _ => apply wp_throw
  | |- wp (try_catch _ (fun _ => ret tt)) _ _ => apply wp_swallow
  | |- wp (try_catch _ _) _ _ => apply wp_try_catch
  | |- wp (bind _ _) _ _ => apply wp_bind
  | |- wp (ReservationModel.findById _) _ _ => apply wp_Reservation_findById
  | |- wp (ReservationModel.save _) _ _ => apply wp_Reservation_save
  | |- wp (PaymentModel.findById _) _ _ => apply wp_Payment_findById
  | |- wp (PaymentModel.save _) _ _ => apply wp_Payment_save
  | |- wp (PaymentMethodModel.findById _) _ _ => apply wp_PaymentMethod_findById
  end; cbv beta iota.

Lemma wp_read_only {A : Type} (c : M A) (Q : Store -> Exn + A -> Prop) s :
  fst (c s) = s -> (∀ x, Q s x) -> wp c Q s.
Proof. unfold wp. intros -> HQ. apply HQ. Qed.

Lemma errorHandler_is_error {A : Type} production e code (data : A) :
  errorHandler production e ≠ Json code data.
Proof. by destruct e as [m [|c]|m|m|m]. Qed.

Lemma asyncHandler_inv {A : Type} production (fn : M (Reply A)) s s' reply
    (G : Prop) :
  asyncHandler production fn s = (s', reply) ->
  wp fn (fun s1 x =>
           match x with
           | inl e => errorHandler production e
           | inr r => r
           end = reply -> s1 = s' -> G) s ->
  G.
Proof.
  unfold asyncHandler, wp. destruct (fn s) as [s1 [e|r]]; cbn;
    intros [= <- <-] HG; by apply HG.
Qed.

Ltac wp_fail :=
  cbv beta iota; intros;
  solve [ exfalso; eapply errorHandler_is_error; eassumption
        | discriminate
        | congruence ].


(** ** Payments *)

(** C6. For whole amounts within the range where the sum of two doubles
    is exact (amount, serviceFee and their sum of magnitude at most 2^53),
    a payment that [createPayment] stores has totalAmount equal to
    amount + serviceFee of the request, and the reply and the database do
    not depend on a totalAmount the caller sends. *)
Theorem createPayment_totalAmount production principal body gen s p :
  payments s !! paymentController.newId gen = None ->
  (∀ a f,
     paymentController.amount body = Some a ->
     paymentController.serviceFee body = Some f ->
     safe_integer a ∧ safe_integer f ∧ safe_integer (a + f)) ->
  payments (fst (paymentsRouter.POST_payments production principal body gen s))
    !! paymentController.newId gen = Some p ->
  (∃ a f,
      paymentController.amount body = Some a
      ∧ paymentController.serviceFee body = Some f
      ∧ Payment.amount p = a ∧ Payment.serviceFee p = f
      ∧ Payment.totalAmount p = (a + f)%Z)
  ∧ ∀ t,
      paymentsRouter.POST_payments production principal
        (with_totalAmount t body) gen s
      = paymentsRouter.POST_payments production principal body gen s.
Proof.
  intros Hfresh _ Hstored. split; [|reflexivity].
  revert Hstored. unfold paymentsRouter.POST_payments.
  match goal with |- context [asyncHandler ?pr ?fn s] =>
    apply (wp_asyncHandler pr fn
      (fun s' _ => payments s' !! paymentController.newId gen = Some p -> _) s)
  end.
  unfold protect, authorize.
  destruct principal as [user|]; [|wp_step; congruence].
  case_bool_decide; [|wp_step; congruence].
  unfold paymentController.createPayment.
  wp_step. wp_step. destruct (reservations s !! _) as [r|]; [|wp_step; congruence].
  case_bool_decide; cbn [negb]; [|wp_step; congruence].
  wp_step. apply wp_read_only.
  { destruct (truthy _); [|reflexivity].
    unfold bind, PaymentMethodModel.findById. destruct (List.find _ _); [|reflexivity].
    by destruct (negb _). }
  intros [e|saved]; [congruence|].
  repeat wp_step. apply wp_PaymentModel_create; [intros e; cbn; congruence|].
  intros p0 _ Hid _ Ha Hf Ht _. cbn in Ha, Hf, Ht.
  repeat wp_step.
  cbn [Payment.status Payment.set_status Payment.set_transactionId].
  rewrite bool_decide_eq_true_2 by done.
  repeat wp_step.
  apply wp_notifyPayment. intros n1 n2 _ _ _. cbv beta iota.
  assert (∀ m : gmap Id Payment.t,
            <[paymentController.newId gen := Payment.set_transactionId
                  ("sim_" +:+ paymentController.random36 gen)
                  (Payment.set_status PayStatus.completed p0)]> m
              !! paymentController.newId gen = Some p ->
            ∃ a f : Z,
              paymentController.amount body = Some a
              ∧ paymentController.serviceFee body = Some f
              ∧ Payment.amount p = a ∧ Payment.serviceFee p = f
              ∧ Payment.totalAmount p = (a + f)%Z) as Hfinal.
  { intros m. rewrite lookup_insert_eq. intros [= <-]. cbn.
    destruct (paymentController.amount body) as [a|]; [|discriminate].
    destruct (paymentController.serviceFee body) as [f|]; [|discriminate].
    exists a, f. cbn in Ht. intuition congruence. }
  repeat wp_step.
  destruct (_ && _).
  - repeat wp_step. apply wp_notifyReservationStatusChange. intros l r0 _ _.
    repeat wp_step. cbn. rewrite Hid. apply Hfinal.
  - repeat wp_step. cbn. rewrite Hid. apply Hfinal.
Qed.

(** C1. Whenever a payment reaches completed, through [createPayment] or
    through the webhook, the reservation it references gets paymentStatus
    partial when the payment type is advance and paid otherwise, and its
    status becomes confirmed if it was pending (and is kept otherwise). *)
Theorem completion_settles_reservation production s p s' r :
  completes production s p s' ->
  reservations s !! Payment.reservation p = Some r ->
  Reservation._id r = Payment.reservation p ->
  Payment.status p = PayStatus.completed
  ∧ ∃ r',
      reservations s' !! Payment.reservation p = Some r'
      ∧ Reservation.paymentStatus r'
        = (if bool_decide (Payment.paymentType p = PaymentType.advance)
           then PaymentStatus.partial else PaymentStatus.paid)
      ∧ Reservation.status r'
        = (if bool_decide (Reservation.status r = Status.pending)
           then Status.confirmed else Reservation.status r).
Proof.
  intros Hc Hr Hid. destruct Hc as [principal body gen s s' p H | paramsId paymentId tx s s' p H].
  - eapply asyncHandler_inv; [exact H|]. clear H.
    unfold protect, authorize.
    destruct principal as [user|]; [|wp_step; wp_fail].
    case_bool_decide; [|wp_step; wp_fail].
    unfold paymentController.createPayment.
    repeat wp_step.
    destruct (reservations s !! paymentController.reservationId body) as [r0|] eqn:Hr0;
      [|wp_step; wp_fail].
    case_bool_decide; cbn [negb]; [|wp_step; wp_fail].
    wp_step. apply wp_read_only.
    { destruct (truthy _); [|reflexivity].
      unfold bind, PaymentMethodModel.findById. destruct (List.find _ _); [|reflexivity].
      by destruct (negb _). }
    intros [e|saved]; [wp_fail|]. cbv beta iota.
    repeat wp_step. apply wp_PaymentModel_create; [intros e; repeat wp_step; wp_fail|].
    intros p0 _ Hp0id Hp0r _ _ _ _. cbn in Hp0r.
    repeat wp_step.
    cbn [Payment.status Payment.set_status Payment.set_transactionId].
    rewrite bool_decide_eq_true_2 by done.
    repeat wp_step.
    apply wp_notifyPayment. intros n1 n2 _ _ _. cbv beta iota.
    repeat wp_step.
    match goal with |- wp _ _ ?s1 =>
      assert (∀ s2, reservations s2 = reservations s1 ->
                Json 201 (Payment.set_transactionId
                  ("sim_" +:+ paymentController.random36 gen)
                  (Payment.set_status PayStatus.completed p0)) = Json 201 p ->
                s2 = s' ->
                Payment.status p = PayStatus.completed
              ∧ ∃ r',
                  reservations s' !! Payment.reservation p = Some r'
                  ∧ Reservation.paymentStatus r'
                    = (if bool_decide (Payment.paymentType p = PaymentType.advance)
                       then PaymentStatus.partial else PaymentStatus.paid)
                  ∧ Reservation.status r'
                    = (if bool_decide (Reservation.status r = Status.pending)
                       then Status.confirmed else Reservation.status r)) as Hfinal
    end.
    { intros s2 Hs2 [= <-] <-. split; [reflexivity|].
      cbn in Hr, Hid. rewrite Hp0r, Hr0 in Hr. injection Hr as ->.
      rewrite Hs2. cbn. rewrite Hp0r.
      replace (Reservation._id _) with (paymentController.reservationId body).
      2: { rewrite <- Hp0r, <- Hid. by repeat case_bool_decide. }
      rewrite lookup_insert_eq. eexists. split; [reflexivity|].
      by repeat case_bool_decide. }
    destruct (_ && _).
    + repeat wp_step. apply wp_notifyReservationStatusChange. intros l r1 _ _.
      repeat wp_step. by apply Hfinal.
    + repeat wp_step. by apply Hfinal.
  - eapply asyncHandler_inv; [exact H|]. clear H.
    unfold paymentController.paymentWebhook.
    repeat wp_step.
    destruct (payments s !! _) as [p0|]; [|wp_step; wp_fail].
    change (PayStatus.of_string "completed") with (Some PayStatus.completed).
    cbv beta iota.
    repeat wp_step.
    rewrite (bool_decide_eq_true_2 ("completed" = "completed")) by done.
    repeat wp_step.
    set (p1 := match truthy tx with
               | Some tx0 => Payment.set_transactionId tx0 (Payment.set_status PayStatus.completed p0)
               | None => Payment.set_status PayStatus.completed p0
               end).
    assert (Payment.status p1 = PayStatus.completed
            ∧ Payment.reservation p1 = Payment.reservation p0
            ∧ Payment.paymentType p1 = Payment.paymentType p0) as (Hst & Hres & Hty).
    { subst p1. by destruct (truthy tx). }
    cbn [reservations set_payments].
    destruct (reservations s !! Payment.reservation p1) as [r0|] eqn:Hr0.
    2: { repeat wp_step. intros [= <-] _. congruence. }
    repeat wp_step.
    case_bool_decide as Hpend.
    + repeat wp_step. apply wp_notifyReservationStatusChange. intros l r1 _ _.
      repeat wp_step. apply wp_notifyPayment. intros n1 n2 _ _ _.
      intros [= <-] <-. split; [done|].
      rewrite Hr0 in Hr. injection Hr as ->.
      cbn. cbn in Hid. rewrite Hid, lookup_insert_eq.
      eexists. split; [reflexivity|]. cbn in Hpend. cbn.
      by rewrite (bool_decide_eq_true_2 _ Hpend).
    + repeat wp_step. apply wp_notifyPayment. intros n1 n2 _ _ _.
      intros [= <-] <-. split; [done|].
      rewrite Hr0 in Hr. injection Hr as ->.
      cbn. cbn in Hid. rewrite Hid, lookup_insert_eq.
      eexists. split; [reflexivity|]. cbn in Hpend. cbn.
      by rewrite (bool_decide_eq_false_2 _ Hpend).
Qed.

(** C8. The webhook is not idempotent: delivered with status completed
    for a payment that is already completed, it writes the reservation's
    paymentStatus again, appends the two payment_confirmed notifications
    again, and so never leaves the database as it found it. *)
Theorem webhook_redelivery_reapplies production paramsId paymentId transactionId s p r :
  payments s !! default paramsId (truthy paymentId) = Some p ->
  Payment.status p = PayStatus.completed ->
  reservations s !! Payment.reservation p = Some r ->
  Reservation._id r = Payment.reservation p ->
  let out := paymentsRouter.POST_id_webhook production paramsId paymentId
               "completed" transactionId s in
  ∃ p' r' l n1 n2,
    snd out = Json 200 p'
    ∧ reservations (fst out) !! Payment.reservation p = Some r'
    ∧ Reservation.paymentStatus r'
      = (if bool_decide (Payment.paymentType p = PaymentType.advance)
         then PaymentStatus.partial else PaymentStatus.paid)
    ∧ notifications (fst out) = (notifications s ++ l ++ [n1; n2])%list
    ∧ Notification.type n1 = NotifType.payment_confirmed
    ∧ Notification.type n2 = NotifType.payment_confirmed
    ∧ fst out ≠ s.
Proof.
  intros Hp Hcompleted Hr Hid out. subst out.
  unfold paymentsRouter.POST_id_webhook.
  match goal with |- context [asyncHandler ?pr ?fn s] =>
    apply (wp_asyncHandler pr fn
      (fun s' reply => ∃ p' r' l n1 n2,
         reply = Json 200 p'
         ∧ reservations s' !! Payment.reservation p = Some r'
         ∧ Reservation.paymentStatus r' = _
         ∧ notifications s' = (notifications s ++ l ++ [n1; n2])%list
         ∧ Notification.type n1 = NotifType.payment_confirmed
         ∧ Notification.type n2 = NotifType.payment_confirmed
         ∧ s' ≠ s) s)
  end.
  unfold paymentController.paymentWebhook.
  repeat wp_step. rewrite Hp.
  change (PayStatus.of_string "completed") with (Some PayStatus.completed).
  cbv beta iota.
  repeat wp_step.
  rewrite (bool_decide_eq_true_2 ("completed" = "completed")) by done.
  repeat wp_step.
  set (p1 := match truthy transactionId with
             | Some tx0 => Payment.set_transactionId tx0 (Payment.set_status PayStatus.completed p)
             | None => Payment.set_status PayStatus.completed p
             end).
  assert (Payment.reservation p1 = Payment.reservation p
          ∧ Payment.paymentType p1 = Payment.paymentType p) as (Hres & Hty).
  { subst p1. by destruct (truthy transactionId). }
  cbn [reservations set_payments]. rewrite Hres, Hr.
  assert (∀ (l0 l1 : list Notification.t) s1,
            notifications s1 = (l0 ++ l1)%list -> l1 ≠ [] ->
            notifications s = l0 -> s1 ≠ s) as Hneq.
  { intros l0 l1 s1 H1 Hne H0 ->. rewrite H0 in H1.
    apply Hne. apply (app_inv_head l0). by rewrite app_nil_r. }
  repeat wp_step.
  case_bool_decide as Hpend.
  - repeat wp_step. apply wp_notifyReservationStatusChange. intros l r1 _ _.
    repeat wp_step. apply wp_notifyPayment. intros n1 n2 _ _ Hn.
    destruct Hn as [Hn1 Hn2]; [done|].
    eexists _, _, l, n1, n2. split; [reflexivity|].
    split. { cbn. cbn in Hid. rewrite Hid. apply lookup_insert_eq. }
    split. { cbn. by rewrite Hty. }
    split. { cbn. by rewrite app_assoc. }
    split; [done|]. split; [done|].
    eapply (Hneq (notifications s) (l ++ [n1; n2])%list); [|by destruct l|done].
    cbn. by rewrite app_assoc.
  - repeat wp_step. apply wp_notifyPayment. intros n1 n2 _ _ Hn.
    destruct Hn as [Hn1 Hn2]; [done|].
    eexists _, _, [], n1, n2. split; [reflexivity|].
    split. { cbn. cbn in Hid. rewrite Hid. apply lookup_insert_eq. }
    split. { cbn. by rewrite Hty. }
    split. { reflexivity. }
    split; [done|]. split; [done|].
    eapply (Hneq (notifications s) [n1; n2]); [reflexivity|done|done].
Qed.

Lemma createPayment_totalAmount_witness :
  (∃ a f,
      paymentController.amount (Sample.body "full") = Some a
      ∧ paymentController.serviceFee (Sample.body "full") = Some f
      ∧ Payment.amount (Sample.p1 PaymentType.full PayStatus.completed) = a
      ∧ Payment.serviceFee (Sample.p1 PaymentType.full PayStatus.completed) = f
      ∧ Payment.totalAmount (Sample.p1 PaymentType.full PayStatus.completed)
        = (a + f)%Z)
  ∧ ∀ t,
      paymentsRouter.POST_payments false (Some Sample.booker1)
        (with_totalAmount t (Sample.body "full")) Sample.gen
        (Sample.db (Sample.r1 Status.pending PaymentStatus.pending))
      = paymentsRouter.POST_payments false (Some Sample.booker1)
          (Sample.body "full") Sample.gen
          (Sample.db (Sample.r1 Status.pending PaymentStatus.pending)).
Proof.
  apply (createPayment_totalAmount false (Some Sample.booker1)
           (Sample.body "full") Sample.gen
           (Sample.db (Sample.r1 Status.pending PaymentStatus.pending))
           (Sample.p1 PaymentType.full PayStatus.completed)).
  - reflexivity.
  - intros a f [= <-] [= <-]. unfold safe_integer. lia.
  - vm_compute. reflexivity.
Defined.

Lemma completion_settles_reservation_witness :
  (Payment.status (Sample.p1 PaymentType.full PayStatus.completed)
   = PayStatus.completed
   ∧ ∃ r',
       reservations
         (fst (paymentsRouter.POST_payments false (Some Sample.booker1)
                 (Sample.body "full") Sample.gen
                 (Sample.db (Sample.r1 Status.pending PaymentStatus.pending))))
         !! "r1" = Some r'
       ∧ Reservation.paymentStatus r' = PaymentStatus.paid
       ∧ Reservation.status r' = Status.confirmed)
  ∧ (Payment.status (Sample.p1 PaymentType.advance PayStatus.completed)
     = PayStatus.completed
     ∧ ∃ r',
         reservations
           (fst (paymentsRouter.POST_id_webhook false "p1" None "completed" None
                   (Sample.db_with_payment
                      (Sample.r1 Status.pending PaymentStatus.pending)
                      (Sample.p1 PaymentType.advance PayStatus.pending))))
           !! "r1" = Some r'
         ∧ Reservation.paymentStatus r' = PaymentStatus.partial
         ∧ Reservation.status r' = Status.confirmed).
Proof.
  split.
  - apply (completion_settles_reservation false
             (Sample.db (Sample.r1 Status.pending PaymentStatus.pending))
             (Sample.p1 PaymentType.full PayStatus.completed)
             (fst (paymentsRouter.POST_payments false (Some Sample.booker1)
                     (Sample.body "full") Sample.gen
                     (Sample.db (Sample.r1 Status.pending PaymentStatus.pending))))
             (Sample.r1 Status.pending PaymentStatus.pending)).
    + apply (completes_createPayment false (Some Sample.booker1)
               (Sample.body "full") Sample.gen).
      vm_compute. reflexivity.
    + reflexivity.
    + reflexivity.
  - apply (completion_settles_reservation false
             (Sample.db_with_payment
                (Sample.r1 Status.pending PaymentStatus.pending)
                (Sample.p1 PaymentType.advance PayStatus.pending))
             (Sample.p1 PaymentType.advance PayStatus.completed)
             (fst (paymentsRouter.POST_id_webhook false "p1" None "completed" None
                     (Sample.db_with_payment
                        (Sample.r1 Status.pending PaymentStatus.pending)
                        (Sample.p1 PaymentType.advance PayStatus.pending))))
             (Sample.r1 Status.pending PaymentStatus.pending)).
    + apply (completes_webhook false "p1" None None).
      vm_compute. reflexivity.
    + reflexivity.
    + reflexivity.
Defined.

Lemma webhook_redelivery_reapplies_witness :
  let out := paymentsRouter.POST_id_webhook false "p1" None "completed" None
               Sample.delivered_once in
  ∃ p' r' l n1 n2,
    snd out = Json 200 p'
    ∧ reservations (fst out) !! "r1" = Some r'
    ∧ Reservation.paymentStatus r' = PaymentStatus.paid
    ∧ notifications (fst out) = (notifications Sample.delivered_once ++ l ++ [n1; n2])%list
    ∧ Notification.type n1 = NotifType.payment_confirmed
    ∧ Notification.type n2 = NotifType.payment_confirmed
    ∧ fst out ≠ Sample.delivered_once.
Proof.
  apply (webhook_redelivery_reapplies false "p1" None None Sample.delivered_once
           (Sample.p1 PaymentType.full PayStatus.completed)
           (Sample.r1 Status.confirmed PaymentStatus.paid)).
  - vm_compute. reflexivity.
  - reflexivity.
  - vm_compute. reflexivity.
  - reflexivity.
Defined.

(** ** Reading a reservation *)

Lemma artist_route_includes id query :
  str_includes "/artist/" ("/api/reservations/artist/" ++ id ++ query) = true.
Proof. generalize (id ++ query). intros rest. by destruct rest. Qed.

(** On the artist route the role alone authorizes: the id comparison of
    [getReservation] is never reached. *)
Lemma getReservation_artist_route_unchecked production user id query r s :
  User.role user = Role.artist ->
  reservations s !! id = Some r ->
  reservationsRouter.GET_artist_id production (Some user) id query s
  = (s, Json 200 r).
Proof.
  intros Hrole Hr.
  unfold reservationsRouter.GET_artist_id, asyncHandler,
    protect, authorize, reservationController.getReservation.
  rewrite Hrole, artist_route_includes.
  rewrite bool_decide_eq_true_2 by (by apply list_elem_of_singleton).
  unfold try_catch, bind, ReservationModel.findById, get. cbn.
  rewrite Hr. reflexivity.
Qed.

(** C4 fails on the artist route: artist a2, who is not the artist of
    reservation r1 (that is a1), reads it through
    GET /api/reservations/artist/r1 and is answered 200 with the
    reservation instead of 403. *)
Theorem getReservation_artist_route_any_artist :
  Reservation.artistId (Sample.r1 Status.pending PaymentStatus.pending) = "a1"
  ∧ User.artist Sample.artist2 = Some "a2"
  ∧ reservationsRouter.GET_artist_id false (Some Sample.artist2) "r1" ""
      (Sample.db (Sample.r1 Status.pending PaymentStatus.pending))
    = (Sample.db (Sample.r1 Status.pending PaymentStatus.pending),
       Json 200 (Sample.r1 Status.pending PaymentStatus.pending)).
Proof.
  split; [reflexivity|]. split; [reflexivity|].
  by apply getReservation_artist_route_unchecked.
Qed.

(** X11. On the booker route, a principal that is not the owning booker is
    answered 403 (the referenced booker document existing). *)
Lemma getReservation_booker_route_forbidden production user id query r s :
  reservations s !! id = Some r ->
  Reservation.booker r ∈ bookers s ->
  User.booker user ≠ Some (Reservation.booker r) ->
  ∃ message,
    reservationsRouter.GET_id production (Some user) id query s
    = (s, JsonError 403 message).
Proof.
  intros Hr Hb Hne.
  unfold reservationsRouter.GET_id, asyncHandler,
    protect, authorize.
  case_bool_decide as Hrole; [|cbn; eauto].
  apply list_elem_of_singleton in Hrole.
  unfold reservationController.getReservation.
  unfold try_catch, bind, ReservationModel.findById, get,
    ReservationModel.populate_booker. cbn.
  rewrite Hr, Hrole. rewrite (bool_decide_eq_true_2 _ Hb).
  destruct (User.booker user) as [b|]; cbn; [|eauto].
  rewrite bool_decide_eq_false_2 by congruence. cbn. eauto.
Qed.


(** ** Payment methods: the single default *)

Section lists.
Implicit Types (l : list PaymentMethod.t) (P : PaymentMethod.t -> bool).

Lemma filter_map_le P (f : PaymentMethod.t -> PaymentMethod.t) l :
  (∀ m, P (f m) = true -> P m = true) ->
  (length (List.filter P (map f l)) ≤ length (List.filter P l))%nat.
Proof.
  intros Hf. induction l as [|m l IH]; [done|]. cbn.
  destruct (P (f m)) eqn:E.
  - rewrite (Hf m E). cbn. lia.
  - destruct (P m); cbn; lia.
Qed.

Lemma filter_le P (Q : PaymentMethod.t -> bool) l :
  (∀ m, m ∈ l -> P m = true -> Q m = true) ->
  (length (List.filter P l) ≤ length (List.filter Q l))%nat.
Proof.
  induction l as [|m l IH]; [done|]. intros H. cbn.
  assert (length (List.filter P l) ≤ length (List.filter Q l))%nat as IH'.
  { apply IH. intros m' Hm'. apply H. by right. }
  destruct (P m) eqn:E.
  - rewrite (H m) by (done || by left). cbn. lia.
  - destruct (Q m); cbn; lia.
Qed.

Lemma filter_has_id_none i l :
  i ∉ map PaymentMethod._id l ->
  List.filter (PaymentMethodModel.has_id i) l = [].
Proof.
  induction l as [|m l IH]; [done|]. cbn. intros Hni.
  apply not_elem_of_cons in Hni as [Hne Hni].
  unfold PaymentMethodModel.has_id at 1.
  rewrite bool_decide_eq_false_2 by congruence. by apply IH.
Qed.

Lemma unique_ids_has_id i l :
  unique_ids l -> (length (List.filter (PaymentMethodModel.has_id i) l) ≤ 1)%nat.
Proof.
  unfold unique_ids. induction l as [|m l IH]; [cbn; lia|].
  cbn. intros Hnd. apply NoDup_cons in Hnd as [Hni Hnd].
  unfold PaymentMethodModel.has_id at 1. case_bool_decide as E.
  - subst i. rewrite filter_has_id_none by done. cbn. lia.
  - by apply IH.
Qed.

Lemma existsb_has_id i l :
  existsb (PaymentMethodModel.has_id i) l = true <-> i ∈ map PaymentMethod._id l.
Proof.
  induction l as [|m l IH]; cbn.
  - split; [done|]. by intros ?%elem_of_nil.
  - rewrite orb_true_iff, IH, elem_of_cons.
    unfold PaymentMethodModel.has_id. rewrite bool_decide_eq_true.
    split; (intros [H|H]; [left; congruence|by right]).
Qed.

Lemma persist_ids doc l :
  existsb (PaymentMethodModel.has_id (PaymentMethod._id doc)) l = true ->
  map PaymentMethod._id (PaymentMethodModel.persist doc l) = map PaymentMethod._id l.
Proof.
  intros He. unfold PaymentMethodModel.persist. rewrite He. clear He.
  induction l as [|m l IH]; [done|]. cbn. rewrite IH. f_equal.
  unfold PaymentMethodModel.has_id. by case_bool_decide.
Qed.

Lemma persist_unique doc l : unique_ids l -> unique_ids (PaymentMethodModel.persist doc l).
Proof.
  unfold unique_ids. intros Hnd.
  destruct (existsb (PaymentMethodModel.has_id (PaymentMethod._id doc)) l) eqn:He.
  - by rewrite persist_ids.
  - unfold PaymentMethodModel.persist. rewrite He. rewrite map_app. cbn.
    apply NoDup_app. split; [done|]. split; [|apply NoDup_singleton].
    intros i Hi ->%list_elem_of_singleton.
    apply existsb_has_id in Hi. congruence.
Qed.

Lemma pre_save_ids doc l :
  map PaymentMethod._id (pre_save doc l) = map PaymentMethod._id l.
Proof.
  unfold pre_save. destruct (PaymentMethod.isDefault doc); [|done].
  induction l as [|m l IH]; [done|]. cbn. rewrite IH. f_equal.
  by destruct (_ && _).
Qed.

Lemma persist_elem doc l m :
  m ∈ PaymentMethodModel.persist doc l ->
  m = doc ∨ (m ∈ l ∧ PaymentMethodModel.has_id (PaymentMethod._id doc) m = false).
Proof.
  unfold PaymentMethodModel.persist.
  destruct (existsb _ l) eqn:He.
  - intros Hm. apply list_elem_of_fmap in Hm as (m0 & -> & Hm0).
    destruct (PaymentMethodModel.has_id _ m0) eqn:E; [by left|right; done].
  - intros [Hm| ->%list_elem_of_singleton]%elem_of_app; [|by left].
    right. split; [done|].
    destruct (PaymentMethodModel.has_id _ m) eqn:E; [|done].
    assert (existsb (PaymentMethodModel.has_id (PaymentMethod._id doc)) l = true);
      [|congruence].
    apply existsb_exists. exists m. split; [by apply list_elem_of_In|done].
Qed.

Lemma persist_contains doc l : doc ∈ PaymentMethodModel.persist doc l.
Proof.
  unfold PaymentMethodModel.persist.
  destruct (existsb _ l) eqn:He.
  - apply existsb_exists in He as (m & Hm & Hid).
    apply list_elem_of_fmap. exists m. rewrite Hid.
    split; [done|]. by apply list_elem_of_In.
  - apply elem_of_app. right. by apply list_elem_of_singleton.
Qed.

Lemma persist_filter_le P doc l :
  P doc = false ->
  (length (List.filter P (PaymentMethodModel.persist doc l)) ≤ length (List.filter P l))%nat.
Proof.
  intros HP. unfold PaymentMethodModel.persist. destruct (existsb _ l).
  - apply filter_map_le. intros m. destruct (PaymentMethodModel.has_id _ m); [congruence|done].
  - rewrite List.filter_app. cbn. rewrite HP. rewrite app_nil_r. done.
Qed.

End lists.

Lemma pre_persist_at_most_one doc l :
  unique_ids l -> at_most_one_default l ->
  at_most_one_default (PaymentMethodModel.persist doc (pre_save doc l)).
Proof.
  intros Hu Hone user userModel.
  destruct (is_default_of user userModel doc) eqn:Hdoc.
  - (* doc is default and belongs to this owner: the others were cleared *)
    etrans; [|apply (unique_ids_has_id (PaymentMethod._id doc)
                       (PaymentMethodModel.persist doc (pre_save doc l)))].
    2: { apply persist_unique. unfold unique_ids. by rewrite pre_save_ids. }
    apply filter_le. intros m Hm Hdef.
    apply persist_elem in Hm as [->|[Hm Hid]].
    { unfold PaymentMethodModel.has_id. by apply bool_decide_eq_true_2. }
    exfalso. unfold is_default_of in Hdoc, Hdef.
    apply andb_true_iff in Hdoc as [Hown Hd], Hdef as [Hown' Hd'].
    unfold PaymentMethodModel.owned_by in Hown, Hown'.
    apply andb_true_iff in Hown as [Hu1%bool_decide_eq_true Hm1%bool_decide_eq_true].
    unfold pre_save in Hm. rewrite Hd in Hm.
    apply list_elem_of_fmap in Hm as (m0 & -> & Hm0).
    rewrite Hu1, Hm1 in *.
    destruct (PaymentMethodModel.owned_by user userModel m0) eqn:E0;
      destruct (PaymentMethodModel.has_id (PaymentMethod._id doc) m0) eqn:E1;
      destruct (PaymentMethod.isDefault m0) eqn:E2; cbn in *;
      unfold PaymentMethodModel.owned_by in *; cbn in *; congruence.
  - etrans; [apply persist_filter_le; done|].
    etrans; [|apply (Hone user userModel)].
    unfold pre_save. destruct (PaymentMethod.isDefault doc); [|done].
    apply filter_map_le. intros m. destruct (_ && _ && _); [|done].
    unfold is_default_of. cbn. by rewrite andb_false_r.
Qed.

Lemma pre_persist_unique doc l :
  unique_ids l -> unique_ids (PaymentMethodModel.persist doc (pre_save doc l)).
Proof.
  intros Hu. apply persist_unique. unfold unique_ids. by rewrite pre_save_ids.
Qed.

Lemma save_fuel_unfold fuel doc s :
  PaymentMethodModel.save_fuel (S fuel) doc s
  = let s1 := set_paymentMethods
                (fun l => PaymentMethodModel.persist doc (pre_save doc l)) s in
    if Nat.eqb
         (length (List.filter
                    (is_default_of (PaymentMethod.user doc)
                       (PaymentMethod.userModel doc))
                    (paymentMethods s1))) 0
    then
      match PaymentMethodModel.earliest
              (List.filter
                 (PaymentMethodModel.owned_by (PaymentMethod.user doc)
                    (PaymentMethod.userModel doc))
                 (paymentMethods s1)) with
      | Some firstPaymentMethod =>
          PaymentMethodModel.save_fuel fuel
            (PaymentMethod.set_isDefault true firstPaymentMethod) s1
      | None => (s1, inr tt)
      end
    else (s1, inr tt).
Proof.
  cbn [PaymentMethodModel.save_fuel]. unfold pre_save.
  unfold bind, ret, modify, PaymentMethodModel.updateMany,
    PaymentMethodModel.countDocuments, PaymentMethodModel.findOne_sort_createdAt,
    is_default_of.
  destruct (PaymentMethod.isDefault doc); cbn;
    (destruct (Nat.eqb _ 0); [|reflexivity]);
    (destruct (PaymentMethodModel.earliest _); reflexivity).
Qed.

Lemma earliest_elem l m :
  PaymentMethodModel.earliest l = Some m -> m ∈ l.
Proof.
  revert m. induction l as [|m0 l IH]; [done|]. cbn. intros m.
  destruct (PaymentMethodModel.earliest l) as [m'|].
  - case_match; intros [= <-]; [right; by apply IH|by left].
  - intros [= <-]. by left.
Qed.

Lemma earliest_None l : PaymentMethodModel.earliest l = None -> l = [].
Proof.
  destruct l as [|m0 l]; [done|]. cbn.
  destruct (PaymentMethodModel.earliest l); [by case_match|done].
Qed.

Lemma filter_elem (P : PaymentMethod.t -> bool) l m :
  m ∈ List.filter P l <-> m ∈ l ∧ P m = true.
Proof. rewrite !list_elem_of_In. apply filter_In. Qed.

Lemma filter_nonempty (P : PaymentMethod.t -> bool) l m :
  m ∈ l -> P m = true -> Nat.eqb (length (List.filter P l)) 0 = false.
Proof.
  intros Hm HP. assert (m ∈ List.filter P l) as Hin by by apply filter_elem.
  destruct (List.filter P l); [by apply elem_of_nil in Hin|done].
Qed.

(** The nested [save] of the post-save hook ends at once: the document it
    saves is flagged default, so the count it reads is not zero. *)
Lemma save_default_no_nesting fuel doc s :
  PaymentMethod.isDefault doc = true ->
  PaymentMethodModel.save_fuel (S fuel) doc s
  = (set_paymentMethods
       (fun l => PaymentMethodModel.persist doc (pre_save doc l)) s, inr tt).
Proof.
  intros Hd. rewrite save_fuel_unfold. cbv zeta.
  rewrite (filter_nonempty _ _ doc); [done| |].
  - cbn. apply persist_contains.
  - unfold is_default_of, PaymentMethodModel.owned_by.
    rewrite Hd. by rewrite !bool_decide_eq_true_2.
Qed.

(** X5. Two levels of [save] are enough: more fuel changes nothing, and the
    bound is never reached. *)
Lemma save_fuel_enough n doc s :
  PaymentMethodModel.save_fuel (S (S n)) doc s = PaymentMethodModel.save doc s
  ∧ snd (PaymentMethodModel.save doc s) = inr tt.
Proof.
  unfold PaymentMethodModel.save. rewrite !(save_fuel_unfold _ doc). cbv zeta.
  destruct (Nat.eqb _ 0); [|done].
  destruct (PaymentMethodModel.earliest _) as [m|]; [|done].
  by rewrite !save_default_no_nesting.
Qed.

Lemma save_fuel_consistent fuel doc s :
  consistent_methods s -> consistent_methods (fst (PaymentMethodModel.save_fuel fuel doc s)).
Proof.
  revert doc s. induction fuel as [|fuel IH]; intros doc s HI; [done|].
  rewrite save_fuel_unfold. cbv zeta.
  assert (consistent_methods (set_paymentMethods
                 (fun l => PaymentMethodModel.persist doc (pre_save doc l)) s)) as HI1.
  { destruct HI as [Hu Ho]. split; cbn.
    - by apply pre_persist_unique.
    - by apply pre_persist_at_most_one. }
  destruct (Nat.eqb _ 0); [|done].
  destruct (PaymentMethodModel.earliest _) as [m|]; [|done].
  by apply IH.
Qed.

Lemma owned_by_set_isDefault u mo b m :
  PaymentMethodModel.owned_by u mo (PaymentMethod.set_isDefault b m)
  = PaymentMethodModel.owned_by u mo m.
Proof. done. Qed.

(** After [save], the owner of the saved document has a default. *)
Lemma save_has_default doc s :
  (1 ≤ length (List.filter
                 (is_default_of (PaymentMethod.user doc) (PaymentMethod.userModel doc))
                 (paymentMethods (fst (PaymentMethodModel.save doc s)))))%nat.
Proof.
  unfold PaymentMethodModel.save. rewrite save_fuel_unfold. cbv zeta.
  destruct (Nat.eqb _ 0) eqn:Hz.
  - destruct (PaymentMethodModel.earliest _) as [m|] eqn:He.
    + rewrite save_default_no_nesting by done.
      apply earliest_elem, filter_elem in He as [_ Hown].
      assert (PaymentMethod.set_isDefault true m ∈
              PaymentMethodModel.persist (PaymentMethod.set_isDefault true m)
                (pre_save (PaymentMethod.set_isDefault true m)
                   (PaymentMethodModel.persist doc (pre_save doc (paymentMethods s)))))
        as Hin by apply persist_contains.
      cbn [fst paymentMethods set_paymentMethods].
      match goal with |- (1 ≤ length (List.filter ?P ?l))%nat =>
        assert (Nat.eqb (length (List.filter P l)) 0 = false) as Hne
      end.
      { eapply filter_nonempty; [exact Hin|].
        unfold is_default_of. by rewrite owned_by_set_isDefault, Hown. }
      apply Nat.eqb_neq in Hne. lia.
    + apply earliest_None in He. exfalso.
      assert (doc ∈ List.filter
                (PaymentMethodModel.owned_by (PaymentMethod.user doc)
                   (PaymentMethod.userModel doc))
                (PaymentMethodModel.persist doc (pre_save doc (paymentMethods s)))) as Hin.
      { apply filter_elem. split; [apply persist_contains|].
        unfold PaymentMethodModel.owned_by. by rewrite !bool_decide_eq_true_2. }
      cbn in He. rewrite He in Hin. by apply elem_of_nil in Hin.
  - apply Nat.eqb_neq in Hz. cbn [fst]. lia.
Qed.

Lemma wp_PaymentMethod_save doc (Q : Store -> Exn + unit -> Prop) s :
  (∀ x, Q (fst (PaymentMethodModel.save doc s)) x) ->
  wp (PaymentMethodModel.save doc) Q s.
Proof. intros HQ. apply HQ. Qed.

Lemma wp_countDocuments query (Q : Store -> Exn + nat -> Prop) s :
  Q s (inr (length (List.filter query (paymentMethods s)))) ->
  wp (PaymentMethodModel.countDocuments query) Q s.
Proof. done. Qed.

Lemma wp_deleteOne doc (Q : Store -> Exn + unit -> Prop) s :
  Q (set_paymentMethods
       (List.filter (fun m => negb (PaymentMethodModel.has_id (PaymentMethod._id doc) m))) s)
    (inr tt) ->
  wp (PaymentMethodModel.deleteOne doc) Q s.
Proof. done. Qed.

Lemma filter_ids_subset (P : PaymentMethod.t -> bool) l i :
  i ∈ map PaymentMethod._id (List.filter P l) -> i ∈ map PaymentMethod._id l.
Proof.
  intros (m & -> & Hm)%list_elem_of_fmap. apply filter_elem in Hm as [Hm _].
  apply list_elem_of_fmap. eauto.
Qed.

Lemma filter_unique (P : PaymentMethod.t -> bool) l :
  unique_ids l -> unique_ids (List.filter P l).
Proof.
  unfold unique_ids. induction l as [|m l IH]; [done|]. cbn.
  intros [Hni Hnd]%NoDup_cons. destruct (P m); [|by apply IH].
  cbn. apply NoDup_cons. split; [|by apply IH].
  intros Hin. apply Hni. by eapply filter_ids_subset.
Qed.

Lemma filter_filter_le (P Q : PaymentMethod.t -> bool) l :
  (length (List.filter Q (List.filter P l)) ≤ length (List.filter Q l))%nat.
Proof.
  induction l as [|m l IH]; [done|]. cbn.
  destruct (P m); cbn; destruct (Q m); cbn; lia.
Qed.

Lemma deleteOne_consistent (P : PaymentMethod.t -> bool) s :
  consistent_methods s -> consistent_methods (set_paymentMethods (List.filter P) s).
Proof.
  intros [Hu Ho]. split; cbn.
  - by apply filter_unique.
  - intros u mo. etrans; [apply filter_filter_le|apply Ho].
Qed.

Ltac wp_pm_step :=
  lazymatch goal with
  | |- wp (PaymentMethodModel.save _) _ _ => apply wp_PaymentMethod_save
  | |- wp (PaymentMethodModel.countDocuments _) _ _ => apply wp_countDocuments
  | |- wp (PaymentMethodModel.deleteOne _) _ _ => apply wp_deleteOne
  | _ => wp_step
  end; cbv beta iota.

Lemma check_owner_wp {A : Type} user paymentMethod denied (next : Id -> M (Reply A))
    (Q : Store -> Exn + Reply A -> Prop) s :
  Q s (inl reservationController.undefined_deref) ->
  Q s (inr (JsonError 403 denied)) ->
  (∀ userId,
     paymentMethodController.acting_id user = Some userId ->
     PaymentMethod.user paymentMethod = userId ->
     wp (next userId) Q s) ->
  wp (paymentMethodController.check_owner user paymentMethod denied next) Q s.
Proof.
  intros Herr Hdenied Hnext. unfold paymentMethodController.check_owner.
  destruct (paymentMethodController.acting_id user) as [userId|]; [|apply Herr].
  case_bool_decide; cbn [negb]; [|apply Hdenied]. by apply Hnext.
Qed.

(** Every request to the payment-method routes keeps the identifiers
    unique and at most one default per owner. *)
Lemma serve_consistent production user req s :
  consistent_methods s -> consistent_methods (fst (paymentMethodsRouter.serve production user req s)).
Proof.
  intros HI.
  assert (∀ (A : Type) (h : M (Reply A)),
            wp h (fun s' _ => consistent_methods s') s ->
            consistent_methods (fst (paymentMethodsRouter.guarded production user h s))) as Hg.
  { intros A h Hh. unfold paymentMethodsRouter.guarded.
    apply (wp_asyncHandler production _ (fun s' _ => consistent_methods s') s).
    unfold authorize. case_bool_decide; [|by wp_step].
    revert Hh. unfold wp. by destruct (h s) as [s' [e|r]]. }
  destruct req as [type name details newId now | id name details | id | id]; cbn;
    match goal with |- context [paymentMethodsRouter.guarded _ _ ?h s] =>
      specialize (Hg _ h); destruct (paymentMethodsRouter.guarded production user h s)
    end; cbn [fst] in *; apply Hg; clear Hg.
  - unfold paymentMethodController.addPaymentMethod.
    destruct (paymentMethodController.acting_id user) as [userId|];
      destruct (paymentMethodController.acting_model user) as [userModel|];
      try by wp_step.
    repeat wp_pm_step. unfold PaymentMethodModel.create.
    destruct type as [type|]; [|destruct (truthy name); by wp_step].
    destruct (truthy name) as [name'|]; [|by wp_step].
    destruct (Method.of_string type); [|by wp_step].
    repeat wp_pm_step. destruct (List.find _ _); [by wp_step|].
    repeat wp_pm_step. intros [e|[]]; repeat wp_pm_step; by apply save_fuel_consistent.
  - unfold paymentMethodController.updatePaymentMethod.
    repeat wp_pm_step. destruct (List.find _ _) as [pm|]; [|by wp_step].
    apply check_owner_wp; [done|done|]. intros userId _ _.
    repeat wp_pm_step. intros [e|[]]; repeat wp_pm_step; by apply save_fuel_consistent.
  - unfold paymentMethodController.setDefaultPaymentMethod.
    repeat wp_pm_step. destruct (List.find _ _) as [pm|]; [|by wp_step].
    apply check_owner_wp; [done|done|]. intros userId _ _.
    repeat wp_pm_step. intros [e|[]]; repeat wp_pm_step; by apply save_fuel_consistent.
  - unfold paymentMethodController.deletePaymentMethod.
    repeat wp_pm_step. destruct (List.find _ _) as [pm|]; [|by wp_step].
    apply check_owner_wp; [done|done|]. intros userId _ _.
    destruct (PaymentMethod.isDefault pm).
    + repeat wp_pm_step. case_match; repeat wp_pm_step; [|done].
      by apply deleteOne_consistent.
    + repeat wp_pm_step. by apply deleteOne_consistent.
Qed.

Lemma default_count_eq user userModel s :
  default_count user userModel s
  = length (List.filter (is_default_of user userModel) (paymentMethods s)).
Proof.
  unfold default_count, methods_of, is_default_of.
  induction (paymentMethods s) as [|m l IH]; [done|]. cbn.
  destruct (PaymentMethodModel.owned_by user userModel m); cbn; [|done].
  destruct (PaymentMethod.isDefault m); cbn; by rewrite IH.
Qed.

(** X1. From the empty collection, whatever the sequence of create, update,
    set-default and delete requests, no owner ever has two defaults. *)
Theorem at_most_one_default_always production reqs user userModel :
  (default_count user userModel
     (paymentMethodsRouter.serve_all production reqs empty_store) ≤ 1)%nat.
Proof.
  rewrite default_count_eq.
  assert (consistent_methods (paymentMethodsRouter.serve_all production reqs empty_store)) as [_ H].
  { assert (consistent_methods empty_store) as H0.
    { split; [apply NoDup_nil_2|]. intros u mo. cbn. lia. }
    revert H0. generalize empty_store. induction reqs as [|[u req] reqs IH]; intros s Hs.
    - done.
    - cbn. apply IH. by apply serve_consistent. }
  apply H.
Qed.

(** After [save] on a collection with unique identifiers and at most one
    default per owner, the owner of the saved document has exactly one
    default. *)
Lemma save_exactly_one_default doc s :
  consistent_methods s ->
  default_count (PaymentMethod.user doc) (PaymentMethod.userModel doc)
    (fst (PaymentMethodModel.save doc s)) = 1.
Proof.
  intros HI. rewrite default_count_eq.
  pose proof (save_has_default doc s) as Hge.
  destruct (save_fuel_consistent 2 doc s HI) as [_ Hle].
  specialize (Hle (PaymentMethod.user doc) (PaymentMethod.userModel doc)).
  unfold PaymentMethodModel.save in *. lia.
Qed.

(** X2. A successful create, update or set-default leaves the owner of the
    method with exactly one default. *)
Lemma saving_request_one_default production user (h : M (Reply PaymentMethod.t))
    s s' code pm :
  consistent_methods s ->
  (∃ type name details newId now,
      h = paymentMethodController.addPaymentMethod user type name details newId now)
  ∨ (∃ id name details,
        h = paymentMethodController.updatePaymentMethod user id name details)
  ∨ (∃ id, h = paymentMethodController.setDefaultPaymentMethod user id) ->
  paymentMethodsRouter.guarded production user h s = (s', Json code pm) ->
  default_count (PaymentMethod.user pm) (PaymentMethod.userModel pm) s' = 1.
Proof.
  intros HI Hh Hrun. unfold paymentMethodsRouter.guarded in Hrun.
  eapply asyncHandler_inv; [exact Hrun|]. clear Hrun.
  unfold authorize. case_bool_decide; [|wp_step; wp_fail].
  destruct Hh as [(type & name & details & newId & now & ->)
                 |[(id & name & details & ->)|(id & ->)]].
  - unfold paymentMethodController.addPaymentMethod.
    destruct (paymentMethodController.acting_id user) as [userId|];
      destruct (paymentMethodController.acting_model user) as [userModel|];
      try (wp_step; wp_fail).
    repeat wp_pm_step. unfold PaymentMethodModel.create.
    destruct type as [type|]; [|destruct (truthy name); wp_step; wp_fail].
    destruct (truthy name) as [name'|]; [|wp_step; wp_fail].
    destruct (Method.of_string type); [|wp_step; wp_fail].
    repeat wp_pm_step. destruct (List.find _ _); [wp_step; wp_fail|].
    repeat wp_pm_step. intros [e|[]]; repeat wp_pm_step; [wp_fail|].
    intros [= <- <-] <-. by apply save_exactly_one_default.
  - unfold paymentMethodController.updatePaymentMethod.
    repeat wp_pm_step. destruct (List.find _ _) as [pm0|]; [|wp_step; wp_fail].
    apply check_owner_wp; [wp_fail|wp_fail|]. intros userId _ _.
    repeat wp_pm_step. intros [e|[]]; repeat wp_pm_step; [wp_fail|].
    intros [= <- <-] <-. by apply save_exactly_one_default.
  - unfold paymentMethodController.setDefaultPaymentMethod.
    repeat wp_pm_step. destruct (List.find _ _) as [pm0|]; [|wp_step; wp_fail].
    apply check_owner_wp; [wp_fail|wp_fail|]. intros userId _ _.
    repeat wp_pm_step. intros [e|[]]; repeat wp_pm_step; [wp_fail|].
    intros [= <- <-] <-. by apply save_exactly_one_default.
Qed.

(** X3. Deleting the default method of an owner who has no other method is
    refused with status 400, and nothing changes. *)
Lemma deletePaymentMethod_sole_default_refused production user id pm userId s :
  List.find (PaymentMethodModel.has_id id) (paymentMethods s) = Some pm ->
  paymentMethodController.acting_id user = Some userId ->
  PaymentMethod.user pm = userId ->
  PaymentMethod.isDefault pm = true ->
  (length (List.filter
             (PaymentMethodModel.owned_by userId (PaymentMethod.userModel pm))
             (paymentMethods s)) ≤ 1)%nat ->
  asyncHandler production (paymentMethodController.deletePaymentMethod user id) s
  = (s, JsonError 400 "Impossible de supprimer votre seul moyen de paiement").
Proof.
  intros Hfind Hact Hown Hdef Hcount.
  unfold asyncHandler, paymentMethodController.deletePaymentMethod,
    paymentMethodController.check_owner, bind, PaymentMethodModel.findById,
    PaymentMethodModel.countDocuments.
  rewrite Hfind, Hact. rewrite bool_decide_eq_true_2 by done. cbn [negb].
  rewrite Hdef.
  destruct (Nat.ltb_spec 1 (length (List.filter
             (PaymentMethodModel.owned_by userId (PaymentMethod.userModel pm))
             (paymentMethods s)))) as [Hlt|_]; [lia|reflexivity].
Qed.

(** X4. Deleting a method that is not the default succeeds and removes that
    method only: every other stored method, the default among them, is
    kept as it is. *)
Lemma deletePaymentMethod_non_default production user id pm userId s :
  List.find (PaymentMethodModel.has_id id) (paymentMethods s) = Some pm ->
  paymentMethodController.acting_id user = Some userId ->
  PaymentMethod.user pm = userId ->
  PaymentMethod.isDefault pm = false ->
  asyncHandler production (paymentMethodController.deletePaymentMethod user id) s
  = (set_paymentMethods
       (List.filter (fun m => negb (PaymentMethodModel.has_id id m))) s,
     Json 200 tt).
Proof.
  intros Hfind Hact Hown Hdef.
  assert (PaymentMethod._id pm = id) as Hid.
  { apply find_some in Hfind as [_ H]. by apply bool_decide_eq_true in H. }
  unfold asyncHandler, paymentMethodController.deletePaymentMethod,
    paymentMethodController.check_owner, bind, PaymentMethodModel.findById,
    PaymentMethodModel.deleteOne.
  rewrite Hfind, Hact. rewrite bool_decide_eq_true_2 by done. cbn [negb].
  rewrite Hdef, Hid. reflexivity.
Qed.

(** C5 fails after the default is deleted: booker b1 creates two methods
    and deletes the first, the default; the surviving method m2 is not
    promoted, so b1 has one method and no default. *)
Theorem deleting_default_leaves_no_default :
  methods_of "b1" OwnerModel.Booker
    (paymentMethodsRouter.serve_all false Sample.add_add_delete empty_store)
  = [Sample.m2]
  ∧ default_count "b1" OwnerModel.Booker
      (paymentMethodsRouter.serve_all false Sample.add_add_delete empty_store)
    = 0.
Proof. split; vm_compute; reflexivity. Qed.

(** C7 fails in that state: m2 is then b1's only method and is not
    flagged default, so its deletion is answered 200 and the collection is
    left empty. *)
Theorem sole_method_deleted_after_default_removed :
  methods_of "b1" OwnerModel.Booker
    (paymentMethodsRouter.serve_all false Sample.add_add_delete empty_store)
  = [Sample.m2]
  ∧ paymentMethodsRouter.serve false Sample.booker1
      (paymentMethodsRouter.DELETE "m2")
      (paymentMethodsRouter.serve_all false Sample.add_add_delete empty_store)
    = (empty_store, 200).
Proof. split; vm_compute; reflexivity. Qed.

(** * Further properties *)

(** ** Payment methods *)

Lemma find_has_id id l pm :
  List.find (PaymentMethodModel.has_id id) l = Some pm ->
  pm ∈ l ∧ PaymentMethod._id pm = id.
Proof.
  intros [Hin Hid]%find_some. split; [by apply list_elem_of_In|].
  by apply bool_decide_eq_true in Hid.
Qed.

Lemma find_none_existsb id l :
  List.find (PaymentMethodModel.has_id id) l = None ->
  existsb (PaymentMethodModel.has_id id) l = false.
Proof.
  induction l as [|m l IH]; [done|]. cbn.
  destruct (PaymentMethodModel.has_id id m); [done|]. exact IH.
Qed.

Lemma map_id_on (f : PaymentMethod.t -> PaymentMethod.t) l :
  (∀ m, m ∈ l -> f m = m) -> map f l = l.
Proof.
  induction l as [|m l IH]; [done|]. intros H. cbn.
  rewrite (H m) by by left. rewrite IH; [done|]. intros m' Hm'. apply H. by right.
Qed.

(** The pre-save hook changes nothing when the owner of the document has
    no default among the other documents. *)
Lemma pre_save_no_default doc l :
  (∀ m, m ∈ l ->
        is_default_of (PaymentMethod.user doc) (PaymentMethod.userModel doc) m = true ->
        PaymentMethodModel.has_id (PaymentMethod._id doc) m = true) ->
  pre_save doc l = l.
Proof.
  intros H. unfold pre_save. destruct (PaymentMethod.isDefault doc); [|done].
  apply map_id_on. intros m Hm. specialize (H m Hm). unfold is_default_of in H.
  destruct (PaymentMethodModel.owned_by _ _ m); [|done].
  destruct (PaymentMethod.isDefault m); [|by rewrite andb_false_r].
  by rewrite H.
Qed.

Lemma filter_empty_length (P : PaymentMethod.t -> bool) l :
  length (List.filter P l) = 0 -> ∀ m, m ∈ l -> P m = false.
Proof.
  intros Hl m Hm. destruct (P m) eqn:E; [|done].
  assert (m ∈ List.filter P l) as Hin by by apply filter_elem.
  destruct (List.filter P l); [by apply elem_of_nil in Hin|done].
Qed.

Lemma saving_request_one_default_witness :
  default_count "b1" OwnerModel.Booker
    (fst (paymentMethodsRouter.guarded false Sample.booker1
            (paymentMethodController.setDefaultPaymentMethod Sample.booker1 "m2")
            Fixture.two_methods)) = 1.
Proof.
  apply (saving_request_one_default false Sample.booker1
           (paymentMethodController.setDefaultPaymentMethod Sample.booker1 "m2")
           Fixture.two_methods
           (fst (paymentMethodsRouter.guarded false Sample.booker1
                   (paymentMethodController.setDefaultPaymentMethod Sample.booker1 "m2")
                   Fixture.two_methods))
           200 (PaymentMethod.set_isDefault true Sample.m2)).
  - split.
    + apply (bool_decide_unpack _). vm_compute. exact I.
    + intros u mo.
      change (paymentMethods Fixture.two_methods) with [Fixture.m1; Sample.m2].
      unfold is_default_of. cbn. rewrite andb_false_r.
      destruct (_ && _); cbn; lia.
  - right. right. by exists "m2".
  - vm_compute. reflexivity.
Defined.

Lemma deletePaymentMethod_sole_default_refused_witness :
  asyncHandler false
    (paymentMethodController.deletePaymentMethod Sample.booker1 "m1")
    Fixture.one_method
  = (Fixture.one_method,
     JsonError 400 "Impossible de supprimer votre seul moyen de paiement").
Proof.
  apply (deletePaymentMethod_sole_default_refused false Sample.booker1 "m1"
           Fixture.m1 "b1" Fixture.one_method).
  - vm_compute. reflexivity.
  - reflexivity.
  - reflexivity.
  - reflexivity.
  - vm_compute. lia.
Defined.

Lemma deletePaymentMethod_non_default_witness :
  asyncHandler false
    (paymentMethodController.deletePaymentMethod Sample.booker1 "m2")
    Fixture.two_methods
  = (set_paymentMethods
       (List.filter (fun m => negb (PaymentMethodModel.has_id "m2" m)))
       Fixture.two_methods,
     Json 200 tt).
Proof.
  apply (deletePaymentMethod_non_default false Sample.booker1 "m2" Sample.m2
           "b1" Fixture.two_methods).
  - vm_compute. reflexivity.
  - reflexivity.
  - reflexivity.
  - reflexivity.
Defined.

(** X6. PUT /api/payment-methods/:id/default by the owner of a stored method
    flags that method as the default and unflags every other default of
    the same owner; the methods of other owners and all other fields are
    left as they were, and the reply is 200 with the flagged method. *)
Theorem setDefault_moves_default production user id pm s :
  List.find (PaymentMethodModel.has_id id) (paymentMethods s) = Some pm ->
  paymentMethodController.acting_id user = Some (PaymentMethod.user pm) ->
  asyncHandler production
    (paymentMethodController.setDefaultPaymentMethod user id) s
  = (set_paymentMethods
       (map (fun m =>
               if PaymentMethodModel.has_id id m
               then PaymentMethod.set_isDefault true pm
               else if PaymentMethodModel.owned_by (PaymentMethod.user pm)
                         (PaymentMethod.userModel pm) m
                       && PaymentMethod.isDefault m
                    then PaymentMethod.set_isDefault false m
                    else m)) s,
     Json 200 (PaymentMethod.set_isDefault true pm)).
Proof.
  intros Hfind Hact. destruct (find_has_id _ _ _ Hfind) as [Hin Hid].
  unfold asyncHandler, paymentMethodController.setDefaultPaymentMethod,
    paymentMethodController.check_owner.
  unfold bind at 1. unfold PaymentMethodModel.findById at 1.
  rewrite Hfind, Hact. rewrite bool_decide_eq_true_2 by done. cbn [negb].
  unfold bind, PaymentMethodModel.save.
  rewrite save_default_no_nesting by done. cbn [fst snd ret].
  f_equal. unfold set_paymentMethods. f_equal.
  unfold PaymentMethodModel.persist.
  assert (existsb (PaymentMethodModel.has_id
                     (PaymentMethod._id (PaymentMethod.set_isDefault true pm)))
            (pre_save (PaymentMethod.set_isDefault true pm) (paymentMethods s))
          = true) as ->.
  { apply existsb_has_id. rewrite pre_save_ids. apply list_elem_of_fmap.
    exists pm. split; [by rewrite Hid|done]. }
  unfold pre_save. cbn [PaymentMethod.isDefault PaymentMethod.set_isDefault
    PaymentMethod._id PaymentMethod.user PaymentMethod.userModel].
  rewrite Hid. rewrite map_map. apply map_ext. intros m.
  destruct (PaymentMethodModel.has_id id m) eqn:E; cbn [negb].
  - rewrite andb_false_r. cbn. by rewrite E.
  - rewrite andb_true_r. destruct (_ && _) eqn:E2.
    + unfold PaymentMethodModel.has_id in *. cbn. by rewrite E.
    + by rewrite E.
Qed.

Lemma setDefault_moves_default_witness :
  asyncHandler false
    (paymentMethodController.setDefaultPaymentMethod Sample.booker1 "m2")
    Fixture.two_methods
  = (set_paymentMethods
       (map (fun m =>
               if PaymentMethodModel.has_id "m2" m
               then PaymentMethod.set_isDefault true Sample.m2
               else if PaymentMethodModel.owned_by "b1" OwnerModel.Booker m
                       && PaymentMethod.isDefault m
                    then PaymentMethod.set_isDefault false m
                    else m)) Fixture.two_methods,
     Json 200 (PaymentMethod.set_isDefault true Sample.m2)).
Proof.
  apply (setDefault_moves_default false Sample.booker1 "m2" Sample.m2
           Fixture.two_methods).
  - vm_compute. reflexivity.
  - reflexivity.
Defined.

(** X7. POST /api/payment-methods with a type of the enumeration and a name,
    for an owner who has no method yet or already has a default: the new
    document is appended and nothing else changes; it is the default
    exactly when it is the owner's first method, and the reply is 201 with
    it. *)
Theorem addPaymentMethod_appends production user userId userModel type ty name
    details newId now s :
  paymentMethodController.acting_id user = Some userId ->
  paymentMethodController.acting_model user = Some userModel ->
  Method.of_string type = Some ty ->
  name ≠ "" ->
  List.find (PaymentMethodModel.has_id newId) (paymentMethods s) = None ->
  methods_of userId userModel s = [] ∨ (1 ≤ default_count userId userModel s)%nat ->
  let doc :=
    {| PaymentMethod._id := newId;
       PaymentMethod.user := userId;
       PaymentMethod.userModel := userModel;
       PaymentMethod.type := ty;
       PaymentMethod.name := name;
       PaymentMethod.details :=
         cast_details ["cardNumber"; "cardholderName"; "expiryDate";
                       "phoneNumber"; "operator"] (default [] details);
       PaymentMethod.isDefault :=
         Nat.eqb (length (methods_of userId userModel s)) 0;
       PaymentMethod.createdAt := now |} in
  asyncHandler production
    (paymentMethodController.addPaymentMethod user (Some type) (Some name)
       details newId now) s
  = (set_paymentMethods (fun l => (l ++ [doc])%list) s, Json 201 doc).
Proof.
  intros Hact Hmod Hty Hname Hfresh Hcase doc.
  unfold asyncHandler, paymentMethodController.addPaymentMethod.
  rewrite Hact, Hmod.
  unfold bind at 1. unfold PaymentMethodModel.countDocuments at 1.
  unfold bind at 1. unfold PaymentMethodModel.create.
  cbn [truthy]. rewrite bool_decide_eq_false_2 by done. rewrite Hty.
  unfold bind at 1. unfold PaymentMethodModel.findById at 1. rewrite Hfresh.
  unfold bind at 1. fold (methods_of userId userModel s). fold doc.
  assert (PaymentMethodModel.save doc s
          = (set_paymentMethods (fun l => (l ++ [doc])%list) s, inr tt)) as ->;
    [|reflexivity].
  assert (PaymentMethodModel.persist doc (paymentMethods s)
          = (paymentMethods s ++ [doc])%list) as Hpersist.
  { unfold PaymentMethodModel.persist.
    change (PaymentMethod._id doc) with newId.
    by rewrite (find_none_existsb _ _ Hfresh). }
  unfold PaymentMethodModel.save. destruct Hcase as [Hnone|Hsome].
  - rewrite save_default_no_nesting.
    2: { subst doc. cbn. by rewrite Hnone. }
    f_equal. unfold set_paymentMethods. f_equal.
    rewrite pre_save_no_default; [exact Hpersist|].
    intros m Hm Hdef. exfalso.
    unfold is_default_of in Hdef. apply andb_true_iff in Hdef as [Hown _].
    assert (m ∈ methods_of userId userModel s) as Hin by (by apply filter_elem).
    rewrite Hnone in Hin. by apply elem_of_nil in Hin.
  - rewrite default_count_eq in Hsome.
    assert (PaymentMethod.isDefault doc = false) as Hnd.
    { subst doc. cbn [PaymentMethod.isDefault]. apply Nat.eqb_neq.
      intros Hz. unfold methods_of in Hz.
      pose proof (filter_le (is_default_of userId userModel)
                    (PaymentMethodModel.owned_by userId userModel)
                    (paymentMethods s)) as Hle.
      assert (length (List.filter (is_default_of userId userModel) (paymentMethods s))
              ≤ length (List.filter (PaymentMethodModel.owned_by userId userModel)
                          (paymentMethods s)))%nat; [|lia].
      apply Hle. intros m _ H. unfold is_default_of in H.
      by apply andb_true_iff in H as [? _]. }
    rewrite save_fuel_unfold. cbv zeta. unfold pre_save. rewrite Hnd.
    cbn [paymentMethods set_paymentMethods]. rewrite Hpersist.
    assert (Nat.eqb (length (List.filter
              (is_default_of (PaymentMethod.user doc) (PaymentMethod.userModel doc))
              (paymentMethods s ++ [doc])%list)) 0 = false) as ->.
    { apply Nat.eqb_neq. rewrite List.filter_app, length_app.
      change (PaymentMethod.user doc) with userId.
      change (PaymentMethod.userModel doc) with userModel. lia. }
    unfold set_paymentMethods. by rewrite Hpersist.
Qed.

Lemma addPaymentMethod_appends_witness :
  asyncHandler false
    (paymentMethodController.addPaymentMethod Sample.booker1 (Some "wave")
       (Some "Wave") None "m3" 3) Fixture.two_methods
  = (set_paymentMethods
       (fun l => (l ++ [
          {| PaymentMethod._id := "m3";
             PaymentMethod.user := "b1";
             PaymentMethod.userModel := OwnerModel.Booker;
             PaymentMethod.type := Method.wave;
             PaymentMethod.name := "Wave";
             PaymentMethod.details :=
               cast_details ["cardNumber"; "cardholderName"; "expiryDate";
                             "phoneNumber"; "operator"] (default [] None);
             PaymentMethod.isDefault :=
               Nat.eqb (length (methods_of "b1" OwnerModel.Booker Fixture.two_methods)) 0;
             PaymentMethod.createdAt := 3 |}])%list) Fixture.two_methods,
     Json 201
       {| PaymentMethod._id := "m3";
          PaymentMethod.user := "b1";
          PaymentMethod.userModel := OwnerModel.Booker;
          PaymentMethod.type := Method.wave;
          PaymentMethod.name := "Wave";
          PaymentMethod.details :=
            cast_details ["cardNumber"; "cardholderName"; "expiryDate";
                          "phoneNumber"; "operator"] (default [] None);
          PaymentMethod.isDefault :=
            Nat.eqb (length (methods_of "b1" OwnerModel.Booker Fixture.two_methods)) 0;
          PaymentMethod.createdAt := 3 |}).
Proof.
  apply (addPaymentMethod_appends false Sample.booker1 "b1" OwnerModel.Booker
           "wave" Method.wave "Wave" None "m3" 3 Fixture.two_methods).
  - reflexivity.
  - reflexivity.
  - reflexivity.
  - discriminate.
  - vm_compute. reflexivity.
  - right. vm_compute. lia.
Defined.

(** X8. A stored payment method whose owner is not the caller can be neither
    read, updated, made the default nor deleted by the caller: each of the
    four requests is answered 403 and the database is as it was. *)
Theorem payment_method_of_another_owner production user id pm userId s :
  List.find (PaymentMethodModel.has_id id) (paymentMethods s) = Some pm ->
  paymentMethodController.acting_id user = Some userId ->
  PaymentMethod.user pm ≠ userId ->
  (∃ message,
     asyncHandler production (getPaymentMethod user id) s
     = (s, JsonError 403 message))
  ∧ (∀ name details, ∃ message,
       asyncHandler production
         (paymentMethodController.updatePaymentMethod user id name details) s
       = (s, JsonError 403 message))
  ∧ (∃ message,
       asyncHandler production
         (paymentMethodController.setDefaultPaymentMethod user id) s
       = (s, JsonError 403 message))
  ∧ (∃ message,
       asyncHandler production
         (paymentMethodController.deletePaymentMethod user id) s
       = (s, JsonError 403 message)).
Proof.
  intros Hfind Hact Hne.
  unfold asyncHandler, getPaymentMethod,
    paymentMethodController.updatePaymentMethod,
    paymentMethodController.setDefaultPaymentMethod,
    paymentMethodController.deletePaymentMethod,
    paymentMethodController.check_owner, bind, PaymentMethodModel.findById.
  rewrite Hfind, Hact. rewrite bool_decide_eq_false_2 by done. cbn.
  repeat split; eauto.
Qed.

Lemma payment_method_of_another_owner_witness :
  (∃ message,
     asyncHandler false (getPaymentMethod Fixture.booker2 "m1") Fixture.two_methods
     = (Fixture.two_methods, JsonError 403 message))
  ∧ (∀ name details, ∃ message,
       asyncHandler false
         (paymentMethodController.updatePaymentMethod Fixture.booker2 "m1" name details)
         Fixture.two_methods
       = (Fixture.two_methods, JsonError 403 message))
  ∧ (∃ message,
       asyncHandler false
         (paymentMethodController.setDefaultPaymentMethod Fixture.booker2 "m1")
         Fixture.two_methods
       = (Fixture.two_methods, JsonError 403 message))
  ∧ (∃ message,
       asyncHandler false
         (paymentMethodController.deletePaymentMethod Fixture.booker2 "m1")
         Fixture.two_methods
       = (Fixture.two_methods, JsonError 403 message)).
Proof.
  apply (payment_method_of_another_owner false Fixture.booker2 "m1" Fixture.m1
           "b2" Fixture.two_methods).
  - vm_compute. reflexivity.
  - reflexivity.
  - discriminate.
Defined.

(** X9. The post-save hook: when a method that is not flagged default is saved
    and its owner then has no default at all, the owner's method of the
    least createdAt is flagged default, and nothing else is written. *)
Theorem post_save_promotes_earliest doc s :
  PaymentMethod.isDefault doc = false ->
  default_count (PaymentMethod.user doc) (PaymentMethod.userModel doc)
    (set_paymentMethods (PaymentMethodModel.persist doc) s) = 0 ->
  ∃ first,
    PaymentMethodModel.earliest
      (methods_of (PaymentMethod.user doc) (PaymentMethod.userModel doc)
         (set_paymentMethods (PaymentMethodModel.persist doc) s)) = Some first
    ∧ PaymentMethodModel.save doc s
      = (set_paymentMethods
           (fun l =>
              map (fun m =>
                     if PaymentMethodModel.has_id (PaymentMethod._id first) m
                     then PaymentMethod.set_isDefault true first else m)
                (PaymentMethodModel.persist doc l)) s,
         inr tt).
Proof.
  intros Hnd Hzero. rewrite default_count_eq in Hzero.
  cbn [paymentMethods set_paymentMethods] in Hzero.
  unfold methods_of. cbn [paymentMethods set_paymentMethods].
  destruct (PaymentMethodModel.earliest _) as [first|] eqn:He.
  2: { apply earliest_None in He. exfalso.
       assert (doc ∈ List.filter
                 (PaymentMethodModel.owned_by (PaymentMethod.user doc)
                    (PaymentMethod.userModel doc))
                 (PaymentMethodModel.persist doc (paymentMethods s))) as Hin.
       { apply filter_elem. split; [apply persist_contains|].
         unfold PaymentMethodModel.owned_by. by rewrite !bool_decide_eq_true_2. }
       rewrite He in Hin. by apply elem_of_nil in Hin. }
  exists first. split; [done|].
  pose proof (earliest_elem _ _ He) as Hfirst.
  apply filter_elem in Hfirst as [Hin Hown].
  unfold PaymentMethodModel.save. rewrite save_fuel_unfold. cbv zeta.
  unfold pre_save at 1 2 3. rewrite Hnd.
  cbn [paymentMethods set_paymentMethods]. rewrite Hzero, He. cbn [Nat.eqb].
  rewrite save_default_no_nesting by done.
  f_equal. unfold set_paymentMethods. cbn [paymentMethods reservations payments notifications bookers artists]. f_equal.
  apply andb_true_iff in Hown as [Hu%bool_decide_eq_true Hm%bool_decide_eq_true].
  rewrite pre_save_no_default.
  - unfold PaymentMethodModel.persist at 1.
    assert (existsb (PaymentMethodModel.has_id
                       (PaymentMethod._id (PaymentMethod.set_isDefault true first)))
              (PaymentMethodModel.persist doc (paymentMethods s)) = true) as ->.
    { apply existsb_has_id. apply list_elem_of_fmap. by exists first. }
    reflexivity.
  - intros m Hmin Hdef. exfalso.
    cbn [PaymentMethod.user PaymentMethod.userModel PaymentMethod.set_isDefault] in Hdef.
    rewrite Hu, Hm in Hdef.
    by rewrite (filter_empty_length _ _ Hzero m Hmin) in Hdef.
Qed.

Lemma post_save_promotes_earliest_witness :
  ∃ first,
    PaymentMethodModel.earliest
      (methods_of "b1" OwnerModel.Booker
         (set_paymentMethods (PaymentMethodModel.persist Sample.m2)
            (paymentMethodsRouter.serve_all false Sample.add_add_delete empty_store)))
    = Some first
    ∧ PaymentMethodModel.save Sample.m2
        (paymentMethodsRouter.serve_all false Sample.add_add_delete empty_store)
      = (set_paymentMethods
           (fun l =>
              map (fun m =>
                     if PaymentMethodModel.has_id (PaymentMethod._id first) m
                     then PaymentMethod.set_isDefault true first else m)
                (PaymentMethodModel.persist Sample.m2 l))
           (paymentMethodsRouter.serve_all false Sample.add_add_delete empty_store),
         inr tt).
Proof.
  apply (post_save_promotes_earliest Sample.m2
           (paymentMethodsRouter.serve_all false Sample.add_add_delete empty_store)).
  - reflexivity.
  - vm_compute. reflexivity.
Defined.

(** ** Listing the payment methods *)

Lemma insert_sorted_perm {A : Type} (before : A -> A -> bool) x (l : list A) :
  insert_sorted before x l ≡ₚ x :: l.
Proof.
  induction l as [|y l IH]; [done|]. cbn. destruct (before x y); [done|].
  rewrite IH. apply Permutation_swap.
Qed.

Lemma sort_by_perm {A : Type} (before : A -> A -> bool) (l : list A) :
  sort_by before l ≡ₚ l.
Proof.
  induction l as [|x l IH]; [done|]. cbn.
  fold (sort_by before l). by rewrite insert_sorted_perm, IH.
Qed.

Lemma insert_sorted_default_first x l :
  default_first l -> default_first (insert_sorted default_then_latest x l).
Proof.
  intros Hl. destruct l as [|y l]; cbn.
  { intros (m & ->%list_elem_of_singleton & Hd). eauto. }
  unfold default_then_latest at 1.
  destruct (PaymentMethod.isDefault x) eqn:Hx.
  - destruct (PaymentMethod.isDefault y) eqn:Hy; cbn [negb orb].
    + destruct (Nat.leb _ _); intros _; eauto.
    + intros _. eauto.
  - destruct (PaymentMethod.isDefault y) eqn:Hy; cbn [negb andb].
    + intros _. eauto.
    + intros (m & Hm & Hd). exfalso.
      destruct Hl as (h & t & [= <- <-] & Hh); [|congruence].
      destruct (Nat.leb _ _).
      * apply elem_of_cons in Hm as [->|Hm]; [congruence|]. eauto.
      * apply elem_of_cons in Hm as [->|Hm]; [congruence|].
        rewrite insert_sorted_perm in Hm.
        apply elem_of_cons in Hm as [->|Hm]; [congruence|].
        exists m. split; [by right|done].
Qed.

Lemma sort_by_default_first l : default_first (sort_by default_then_latest l).
Proof.
  induction l as [|x l IH].
  - intros (m & Hm & _). by apply elem_of_nil in Hm.
  - cbn. by apply insert_sorted_default_first.
Qed.

(** X10. GET /api/payment-methods answers 200 with exactly the caller's own
    methods (each once, count being their number), the default first when
    the caller has one, and changes nothing. *)
Theorem getMyPaymentMethods_lists_own_default_first production user userId
    userModel s :
  paymentMethodController.acting_id user = Some userId ->
  paymentMethodController.acting_model user = Some userModel ->
  ∃ data,
    asyncHandler production (getMyPaymentMethods user) s
    = (s, Json 200 (length data, data))
    ∧ data ≡ₚ methods_of userId userModel s
    ∧ ((1 ≤ default_count userId userModel s)%nat ->
       ∃ h t, data = h :: t ∧ PaymentMethod.isDefault h = true).
Proof.
  intros Hact Hmod. unfold asyncHandler, getMyPaymentMethods.
  rewrite Hact, Hmod. eexists. split; [reflexivity|].
  split; [apply sort_by_perm|].
  intros Hd. apply sort_by_default_first.
  unfold default_count in Hd.
  destruct (List.filter PaymentMethod.isDefault (methods_of userId userModel s))
    as [|m l] eqn:E; [cbn in Hd; lia|].
  assert (m ∈ List.filter PaymentMethod.isDefault (methods_of userId userModel s))
    as Hm by (rewrite E; by left).
  apply filter_elem in Hm as [Hm Hdm]. exists m. split; [|done].
  by rewrite sort_by_perm.
Qed.

Lemma getMyPaymentMethods_lists_own_default_first_witness :
  ∃ data,
    asyncHandler false (getMyPaymentMethods Sample.booker1) Fixture.two_methods
    = (Fixture.two_methods, Json 200 (length data, data))
    ∧ data ≡ₚ methods_of "b1" OwnerModel.Booker Fixture.two_methods
    ∧ ((1 ≤ default_count "b1" OwnerModel.Booker Fixture.two_methods)%nat ->
       ∃ h t, data = h :: t ∧ PaymentMethod.isDefault h = true).
Proof.
  apply (getMyPaymentMethods_lists_own_default_first false Sample.booker1 "b1"
           OwnerModel.Booker Fixture.two_methods); reflexivity.
Defined.

(** ** Reservations *)

Lemma getReservation_booker_route_forbidden_witness :
  ∃ message,
    reservationsRouter.GET_id false (Some Fixture.booker2) "r1" ""
      (Sample.db (Sample.r1 Status.pending PaymentStatus.pending))
    = (Sample.db (Sample.r1 Status.pending PaymentStatus.pending),
       JsonError 403 message).
Proof.
  apply (getReservation_booker_route_forbidden false Fixture.booker2 "r1" ""
           (Sample.r1 Status.pending PaymentStatus.pending)
           (Sample.db (Sample.r1 Status.pending PaymentStatus.pending))).
  - reflexivity.
  - by_computation.
  - discriminate.
Defined.

(** ** More on reservation status updates *)

(** X12. An accepted status update (the owning booker cancelling, or the
    assigned artist confirming, completing or cancelling) writes the new
    status of that reservation and appends exactly one notification, to
    the other party, of the type of the new status; nothing else in the
    database changes. *)
Theorem updateReservationStatus_notifies_other_party
    production user originalUrl id status r s :
  reservations s !! id = Some r ->
  Reservation._id r = id ->
  (owning_booker user r ∧ status = "cancelled")
  ∨ (assigned_artist user r ∧ status ∈ ["confirmed"; "completed"; "cancelled"]) ->
  ∃ target,
    Status.of_string status = Some target
    ∧ target ≠ Status.pending
    ∧ let byArtist := bool_decide (User.role user = Role.artist) in
      fst (asyncHandler production
             (reservationController.updateReservationStatus (Some user)
                originalUrl id (Some status)) s)
      = set_notifications
          (fun l =>
             (l ++ [ {| Notification.recipient :=
                          if byArtist then Reservation.booker r
                          else Reservation.artistId r;
                        Notification.recipientModel :=
                          if byArtist then OwnerModel.Booker else OwnerModel.Artist;
                        Notification.sender :=
                          if byArtist then Reservation.artistId r
                          else Reservation.booker r;
                        Notification.senderModel :=
                          if byArtist then OwnerModel.Artist else OwnerModel.Booker;
                        Notification.relatedId := id;
                        Notification.type :=
                          match target with
                          | Status.confirmed => NotifType.reservation_confirmed
                          | Status.completed => NotifType.reservation_completed
                          | _ => NotifType.reservation_cancelled
                          end;
                        Notification.title :=
                          match target with
                          | Status.confirmed => "Réservation confirmée"
                          | Status.completed => "Réservation terminée"
                          | _ => "Réservation annulée"
                          end |} ])%list)
          (set_reservations (insert id (Reservation.set_status target r)) s).
Proof.
  intros Hr Hid Hactor. subst id.
  unfold asyncHandler, reservationController.updateReservationStatus.
  assert (∀ x, x ∈ ["confirmed"; "completed"; "cancelled"] ->
    includes ["pending"; "confirmed"; "completed"; "cancelled"] x = true) as Hvalid.
  { intros x Hx. apply includes_true. set_unfold. tauto. }
  destruct Hactor as [([Hrole Hb] & ->) | (Hart & Hin)].
  - exists Status.cancelled.
    rewrite Hvalid by by_computation.
    cbn. unfold try_catch, bind, ReservationModel.findById. cbn.
    rewrite Hr, Hrole, Hb.
    rewrite (bool_decide_eq_true_2 (Reservation.booker r = Reservation.booker r)) by done.
    rewrite (bool_decide_eq_false_2 (Role.booker = Role.artist)) by done.
    split; [reflexivity|]. split; [discriminate|reflexivity].
  - pose proof (isArtist_assigned user originalUrl r Hart) as HisArtist.
    destruct Hart as [Hrole _].
    rewrite (Hvalid _ Hin).
    cbn. unfold try_catch, bind, ReservationModel.findById. cbn.
    rewrite Hr, Hrole, HisArtist. rewrite (proj2 (includes_true _ _) Hin).
    rewrite (bool_decide_eq_true_2 (Role.artist = Role.artist)) by done.
    set_unfold in Hin. destruct Hin as [->|[->|[->|[]]]].
    + exists Status.confirmed. split; [reflexivity|]. split; [discriminate|reflexivity].
    + exists Status.completed. split; [reflexivity|]. split; [discriminate|reflexivity].
    + exists Status.cancelled. split; [reflexivity|]. split; [discriminate|reflexivity].
Qed.

Lemma updateReservationStatus_notifies_other_party_witness :
  ∃ target,
    Status.of_string "completed" = Some target
    ∧ target ≠ Status.pending
    ∧ let byArtist := bool_decide (User.role Sample.artist1 = Role.artist) in
      fst (asyncHandler false
             (reservationController.updateReservationStatus (Some Sample.artist1)
                "/api/reservations/artist/r1/status" "r1" (Some "completed"))
             (Sample.db (Sample.r1 Status.confirmed PaymentStatus.paid)))
      = set_notifications
          (fun l =>
             (l ++ [ {| Notification.recipient :=
                          if byArtist
                          then Reservation.booker (Sample.r1 Status.confirmed PaymentStatus.paid)
                          else Reservation.artistId (Sample.r1 Status.confirmed PaymentStatus.paid);
                        Notification.recipientModel :=
                          if byArtist then OwnerModel.Booker else OwnerModel.Artist;
                        Notification.sender :=
                          if byArtist
                          then Reservation.artistId (Sample.r1 Status.confirmed PaymentStatus.paid)
                          else Reservation.booker (Sample.r1 Status.confirmed PaymentStatus.paid);
                        Notification.senderModel :=
                          if byArtist then OwnerModel.Artist else OwnerModel.Booker;
                        Notification.relatedId := "r1";
                        Notification.type :=
                          match target with
                          | Status.confirmed => NotifType.reservation_confirmed
                          | Status.completed => NotifType.reservation_completed
                          | _ => NotifType.reservation_cancelled
                          end;
                        Notification.title :=
                          match target with
                          | Status.confirmed => "Réservation confirmée"
                          | Status.completed => "Réservation terminée"
                          | _ => "Réservation annulée"
                          end |} ])%list)
          (set_reservations
             (insert "r1" (Reservation.set_status target
                             (Sample.r1 Status.confirmed PaymentStatus.paid)))
             (Sample.db (Sample.r1 Status.confirmed PaymentStatus.paid))).
Proof.
  apply (updateReservationStatus_notifies_other_party false Sample.artist1
           "/api/reservations/artist/r1/status" "r1" "completed"
           (Sample.r1 Status.confirmed PaymentStatus.paid)).
  - reflexivity.
  - reflexivity.
  - right. split; [split; reflexivity|by_computation].
Defined.

(** X13. A principal whose token does not name the reservation's booker
    cannot update its status on PATCH /api/reservations/:id/status, and a
    principal that is not an artist, or whose token names another artist,
    cannot on PATCH /api/reservations/artist/:id/status: the reply is 403
    and the database is as it was.  The refusal comes from the handler
    when the principal has the role the route admits, and from [authorize]
    otherwise (an admin is refused by [authorize] on both routes). *)
Theorem updateReservationStatus_outsider_refused
    production user id query status r s :
  reservations s !! id = Some r ->
  status ∈ ["pending"; "confirmed"; "completed"; "cancelled"] ->
  (User.booker user ≠ Some (Reservation.booker r) ->
   reservationsRouter.PATCH_id_status production (Some user) id query
     (Some status) s
   = (s, JsonError 403
           (if bool_decide (User.role user = Role.booker)
            then "Vous n'êtes pas autorisé à modifier cette réservation"
            else "Le rôle " ++ Role.to_string (User.role user)
                 ++ " n'est pas autorisé à accéder à cette ressource")))
  ∧ ((User.role user = Role.artist ->
      ∃ artistId, User.artist user = Some artistId
                  ∧ artistId ≠ Reservation.artistId r) ->
     reservationsRouter.PATCH_artist_id_status production (Some user) id query
       (Some status) s
     = (s, JsonError 403
             (if bool_decide (User.role user = Role.artist)
              then "Vous n'êtes pas autorisé à modifier cette réservation"
              else "Le rôle " ++ Role.to_string (User.role user)
                   ++ " n'est pas autorisé à accéder à cette ressource"))).
Proof.
  intros Hr Hin.
  unfold reservationsRouter.PATCH_id_status,
    reservationsRouter.PATCH_artist_id_status, asyncHandler, protect, authorize,
    reservationController.updateReservationStatus.
  rewrite (proj2 (includes_true _ _) Hin). cbn [negb].
  destruct (User.role user) eqn:Hrole.
  - split; [|reflexivity]. intros Hb.
    rewrite bool_decide_eq_true_2 by by_computation.
    rewrite (bool_decide_eq_true_2 (Role.booker = Role.booker)) by done.
    unfold try_catch, bind, ReservationModel.findById. rewrite Hr.
    destruct (User.booker user) as [b|]; [|reflexivity].
    rewrite (bool_decide_eq_false_2 (b = Reservation.booker r)) by congruence.
    reflexivity.
  - split; [reflexivity|]. intros Ha.
    destruct (Ha eq_refl) as (a & Hclaim & Hne).
    rewrite bool_decide_eq_true_2 by by_computation.
    rewrite (bool_decide_eq_true_2 (Role.artist = Role.artist)) by done.
    unfold try_catch, bind, ReservationModel.findById. rewrite Hr, Hclaim.
    rewrite (bool_decide_eq_false_2 (a = Reservation.artistId r)) by done.
    reflexivity.
  - split; reflexivity.
Qed.

Lemma updateReservationStatus_outsider_refused_witness :
  reservationsRouter.PATCH_id_status false (Some Fixture.booker2) "r1" ""
    (Some "cancelled") (Sample.db (Sample.r1 Status.confirmed PaymentStatus.paid))
  = (Sample.db (Sample.r1 Status.confirmed PaymentStatus.paid),
     JsonError 403 "Vous n'êtes pas autorisé à modifier cette réservation")
  ∧ reservationsRouter.PATCH_artist_id_status false (Some Sample.artist2) "r1" ""
      (Some "cancelled") (Sample.db (Sample.r1 Status.confirmed PaymentStatus.paid))
    = (Sample.db (Sample.r1 Status.confirmed PaymentStatus.paid),
       JsonError 403 "Vous n'êtes pas autorisé à modifier cette réservation")
  ∧ reservationsRouter.PATCH_artist_id_status false (Some Sample.booker1) "r1" ""
      (Some "cancelled") (Sample.db (Sample.r1 Status.confirmed PaymentStatus.paid))
    = (Sample.db (Sample.r1 Status.confirmed PaymentStatus.paid),
       JsonError 403
         "Le rôle booker n'est pas autorisé à accéder à cette ressource").
Proof.
  split; [|split].
  - apply (proj1 (updateReservationStatus_outsider_refused false
                    Fixture.booker2 "r1" "" "cancelled"
                    (Sample.r1 Status.confirmed PaymentStatus.paid)
                    (Sample.db (Sample.r1 Status.confirmed PaymentStatus.paid))
                    eq_refl ltac:(by_computation))).
    discriminate.
  - apply (proj2 (updateReservationStatus_outsider_refused false
                    Sample.artist2 "r1" "" "cancelled"
                    (Sample.r1 Status.confirmed PaymentStatus.paid)
                    (Sample.db (Sample.r1 Status.confirmed PaymentStatus.paid))
                    eq_refl ltac:(by_computation))).
    intros _. exists "a2". split; [reflexivity|discriminate].
  - apply (proj2 (updateReservationStatus_outsider_refused false
                    Sample.booker1 "r1" "" "cancelled"
                    (Sample.r1 Status.confirmed PaymentStatus.paid)
                    (Sample.db (Sample.r1 Status.confirmed PaymentStatus.paid))
                    eq_refl ltac:(by_computation))).
    discriminate.
Defined.

Lemma artist_status_route_includes id query :
  str_includes "/artist/" ("/api/reservations/artist/" ++ id ++ "/status" ++ query)
  = true.
Proof. generalize (id ++ "/status" ++ query). intros rest. by destruct rest. Qed.

(** X14. On PATCH /api/reservations/artist/:id/status an artist whose token
    carries no artist id is taken for the reservation's artist: for any
    stored reservation and a target among confirmed, completed, cancelled
    the update is answered 200 with the new status. *)
Theorem updateReservationStatus_artist_route_without_claim
    production user id query status r s :
  User.role user = Role.artist ->
  User.artist user = None ->
  reservations s !! id = Some r ->
  status ∈ ["confirmed"; "completed"; "cancelled"] ->
  ∃ target s',
    Status.of_string status = Some target
    ∧ reservationsRouter.PATCH_artist_id_status production (Some user) id query
        (Some status) s
      = (s', Json 200 (Reservation.set_status target r)).
Proof.
  intros Hrole Hclaim Hr Hin.
  unfold reservationsRouter.PATCH_artist_id_status, asyncHandler, protect,
    authorize, reservationController.updateReservationStatus.
  rewrite Hrole, Hclaim, artist_status_route_includes.
  rewrite bool_decide_eq_true_2 by (by apply list_elem_of_singleton).
  assert (includes ["pending"; "confirmed"; "completed"; "cancelled"] status = true)
    as ->.
  { apply includes_true. set_unfold. tauto. }
  rewrite (proj2 (includes_true _ _) Hin).
  cbn. unfold try_catch, bind, ReservationModel.findById. rewrite Hr.
  set_unfold in Hin. destruct Hin as [->|[->|[->|[]]]].
  - exists Status.confirmed. eexists. split; reflexivity.
  - exists Status.completed. eexists. split; reflexivity.
  - exists Status.cancelled. eexists. split; reflexivity.
Qed.

Lemma updateReservationStatus_artist_route_without_claim_witness :
  ∃ target s',
    Status.of_string "cancelled" = Some target
    ∧ reservationsRouter.PATCH_artist_id_status false (Some Fixture.artist2_bare)
        "r1" "" (Some "cancelled")
        (Sample.db (Sample.r1 Status.confirmed PaymentStatus.paid))
      = (s', Json 200 (Reservation.set_status target
                         (Sample.r1 Status.confirmed PaymentStatus.paid))).
Proof.
  apply (updateReservationStatus_artist_route_without_claim false
           Fixture.artist2_bare "r1" "" "cancelled"
           (Sample.r1 Status.confirmed PaymentStatus.paid)).
  - reflexivity.
  - reflexivity.
  - reflexivity.
  - by_computation.
Defined.

(** ** Deleting a reservation *)

(** X15. DELETE /api/reservations/:id on a stored reservation: for an admin or
    the owning booker the reservation is removed, everything else is kept
    and the reply is 200; for every other principal the reply is 403 and
    nothing changes. *)
Theorem deleteReservation_owner_or_admin production user id r s :
  reservations s !! id = Some r ->
  Reservation._id r = id ->
  (User.role user = Role.admin ∨ owning_booker user r ->
   DELETE_reservations_id production (Some user) id s
   = (set_reservations (delete id) s, Json 200 tt))
  ∧ (¬ (User.role user = Role.admin ∨ owning_booker user r) ->
     ∃ message,
       DELETE_reservations_id production (Some user) id s
       = (s, JsonError 403 message)).
Proof.
  intros Hr Hid. subst id.
  unfold DELETE_reservations_id, asyncHandler, protect, authorize,
    deleteReservation, owning_booker.
  unfold bind, ReservationModel.findById, modify, ret, throw.
  destruct (User.role user) eqn:Hrole.
  - rewrite bool_decide_eq_true_2 by by_computation. rewrite Hr.
    rewrite (bool_decide_eq_false_2 (Role.booker = Role.admin)) by done.
    destruct (User.booker user) as [b|] eqn:Hb.
    + case_bool_decide as Hown; cbn.
      * split; [done|]. intros Hn. exfalso. apply Hn. right. by subst b.
      * split; [|eauto]. intros [?|[_ [= ->]]]; done.
    + cbn. split; [|eauto]. intros [?|[_ ?]]; done.
  - rewrite bool_decide_eq_false_2 by by_computation. cbn.
    split; [|eauto]. intros [?|[? _]]; done.
  - rewrite bool_decide_eq_true_2 by by_computation. rewrite Hr.
    rewrite (bool_decide_eq_true_2 (Role.admin = Role.admin)) by done. cbn.
    split; [done|]. intros Hn. exfalso. apply Hn. by left.
Qed.

Lemma deleteReservation_owner_or_admin_witness :
  (User.role Sample.booker1 = Role.admin
   ∨ owning_booker Sample.booker1 (Sample.r1 Status.pending PaymentStatus.pending) ->
   DELETE_reservations_id false (Some Sample.booker1) "r1"
     (Sample.db (Sample.r1 Status.pending PaymentStatus.pending))
   = (set_reservations (delete "r1")
        (Sample.db (Sample.r1 Status.pending PaymentStatus.pending)),
      Json 200 tt))
  ∧ (¬ (User.role Sample.booker1 = Role.admin
        ∨ owning_booker Sample.booker1
            (Sample.r1 Status.pending PaymentStatus.pending)) ->
     ∃ message,
       DELETE_reservations_id false (Some Sample.booker1) "r1"
         (Sample.db (Sample.r1 Status.pending PaymentStatus.pending))
       = (Sample.db (Sample.r1 Status.pending PaymentStatus.pending),
          JsonError 403 message)).
Proof.
  apply (deleteReservation_owner_or_admin false Sample.booker1 "r1"
           (Sample.r1 Status.pending PaymentStatus.pending)
           (Sample.db (Sample.r1 Status.pending PaymentStatus.pending)));
    reflexivity.
Defined.

(** ** More on direct payment-status updates *)

(** X16. PATCH /api/reservations/:id/payment by the owning booker with one of
    pending, paid, failed, refunded stores that payment status (and the
    transaction id, when a non-empty one is sent) on the reservation; its
    status is untouched, and no payment and no notification is written. *)
Theorem updatePaymentStatus_by_owner
    production user id paymentStatus ps transactionId r s :
  reservations s !! id = Some r ->
  Reservation._id r = id ->
  owning_booker user r ->
  PaymentStatus.of_string paymentStatus = Some ps ->
  ps ≠ PaymentStatus.partial ->
  let r' :=
    Reservation.set_transactionId
      (default (Reservation.transactionId r) (truthy transactionId))
      (Reservation.set_paymentStatus ps r) in
  reservationsRouter.PATCH_id_payment production (Some user) id
    (Some paymentStatus) transactionId s
  = (set_reservations (insert id r') s, Json 200 r')
  ∧ Reservation.status r' = Reservation.status r.
Proof.
  intros Hr Hid [Hrole Hb] Hps Hnp r'. subst id. split; [|reflexivity].
  unfold reservationsRouter.PATCH_id_payment, asyncHandler, protect, authorize,
    reservationController.updatePaymentStatus.
  rewrite Hrole. rewrite bool_decide_eq_true_2 by by_computation.
  assert (includes ["pending"; "paid"; "failed"; "refunded"] paymentStatus = true)
    as ->.
  { apply includes_true. revert Hps. unfold PaymentStatus.of_string. cbn.
    repeat (case_bool_decide; [subst; intros _; by_computation|]).
    case_bool_decide; [intros [= <-]|]; done. }
  rewrite Hps.
  cbn. unfold bind, ReservationModel.findById. rewrite Hr, Hb.
  rewrite bool_decide_eq_true_2 by done. cbn.
  subst r'. destruct (truthy transactionId) as [tx|]; cbn; [reflexivity|].
  by destruct r.
Qed.

Lemma updatePaymentStatus_by_owner_witness :
  let r := Sample.r1 Status.pending PaymentStatus.pending in
  let r' :=
    Reservation.set_transactionId
      (default (Reservation.transactionId r) (truthy (Some "tx_1")))
      (Reservation.set_paymentStatus PaymentStatus.paid r) in
  reservationsRouter.PATCH_id_payment false (Some Sample.booker1) "r1"
    (Some "paid") (Some "tx_1") (Sample.db r)
  = (set_reservations (insert "r1" r') (Sample.db r), Json 200 r')
  ∧ Reservation.status r' = Reservation.status r.
Proof.
  apply (updatePaymentStatus_by_owner false Sample.booker1 "r1" "paid"
           PaymentStatus.paid (Some "tx_1")
           (Sample.r1 Status.pending PaymentStatus.pending)
           (Sample.db (Sample.r1 Status.pending PaymentStatus.pending))).
  - reflexivity.
  - reflexivity.
  - split; reflexivity.
  - reflexivity.
  - discriminate.
Defined.

(** X17. PATCH /api/reservations/:id/payment is answered 200 only to the owning
    booker of a stored reservation, and every other answer leaves the
    database as it was. *)
Theorem updatePaymentStatus_only_owner
    production principal id paymentStatus transactionId s :
  let out :=
    reservationsRouter.PATCH_id_payment production principal id paymentStatus
      transactionId s in
  (reply_code (snd out) = 200 ->
   ∃ user r, principal = Some user ∧ reservations s !! id = Some r
             ∧ owning_booker user r)
  ∧ (reply_code (snd out) ≠ 200 -> fst out = s).
Proof.
  unfold reservationsRouter.PATCH_id_payment, asyncHandler, protect, authorize,
    reservationController.updatePaymentStatus, owning_booker.
  destruct principal as [user|]; [|cbn; split; [discriminate|done]].
  case_bool_decide as Hrole; [|cbn; split; [discriminate|done]].
  apply list_elem_of_singleton in Hrole.
  destruct paymentStatus as [paymentStatus|]; [|cbn; split; [discriminate|done]].
  destruct (includes _ paymentStatus); [|cbn; split; [discriminate|done]].
  generalize (PaymentStatus.of_string paymentStatus). intros cast.
  cbn. unfold bind, ReservationModel.findById.
  destruct (reservations s !! id) as [r|] eqn:Hr; [|cbn; split; [discriminate|done]].
  destruct (User.booker user) as [b|] eqn:Hb;
    [|unfold reservationController.undefined_deref; cbn; split; [discriminate|done]].
  case_bool_decide as Hown; [|cbn; split; [discriminate|done]].
  destruct cast; [|cbn; split; [discriminate|done]].
  cbn. split; [|done]. intros _. exists user, r. by subst b.
Qed.

(** ** Creating a reservation *)



(** X19. POST /api/reservations is answered 201 only to a booker, for a service
    that exists and is active, and under an id not in use; every other
    answer leaves the database as it was. *)
Theorem createReservation_refused_unchanged
    production services principal body newId s :
  let out := POST_reservations production services principal body newId s in
  (reply_code (snd out) = 201 ->
   ∃ user serviceId service,
     principal = Some user ∧ User.role user = Role.booker
     ∧ ReservationBody.serviceId body = Some serviceId
     ∧ services !! serviceId = Some service
     ∧ Service.active service = true
     ∧ reservations s !! newId = None)
  ∧ (reply_code (snd out) ≠ 201 -> fst out = s).
Proof.
  unfold POST_reservations, asyncHandler, protect, authorize, createReservation.
  destruct principal as [user|]; [|cbn; split; [discriminate|done]].
  case_bool_decide as Hrole; [|cbn; split; [discriminate|done]].
  apply list_elem_of_singleton in Hrole.
  destruct (ReservationBody.serviceId body) as [serviceId|];
    [|cbn; split; [discriminate|done]].
  destruct (services !! serviceId) as [service|] eqn:Hsvc;
    [|cbn; split; [discriminate|done]].
  destruct (Service.active service) eqn:Hact;
    [|cbn; split; [discriminate|done]].
  cbn [negb].
  destruct (resolve_bookerId _ _) as [bookerId|];
    [|cbn; split; [discriminate|done]].
  unfold Reservation_create.
  destruct (ReservationBody.artistId body); [|cbn; split; [discriminate|done]].
  destruct (truthy (ReservationBody.date body));
    [|cbn; split; [discriminate|done]].
  destruct (truthy (ReservationBody.startTime body));
    [|cbn; split; [discriminate|done]].
  destruct (truthy (ReservationBody.endTime body));
    [|cbn; split; [discriminate|done]].
  destruct (truthy (ReservationBody.location body));
    [|cbn; split; [discriminate|done]].
  destruct (truthy (ReservationBody.eventType body));
    [|cbn; split; [discriminate|done]].
  destruct (ReservationBody.amount body); [|cbn; split; [discriminate|done]].
  destruct (ReservationBody.serviceFee body); [|cbn; split; [discriminate|done]].
  destruct (ReservationBody.paymentMethod body) as [paymentMethod|];
    [|cbn; split; [discriminate|done]].
  destruct (includes _ paymentMethod); [|cbn; split; [discriminate|done]].
  cbn [negb]. unfold try_catch, bind, get.
  case_bool_decide as Hdup; [cbn; split; [discriminate|done]|].
  cbn. split; [|done]. intros _. exists user, serviceId, service.
  repeat split; try done.
  destruct (reservations s !! newId) eqn:E; [|done].
  exfalso. apply Hdup. by eexists.
Qed.

(** ** More on payments *)

(** Unfolds the updates of the database to its fields. *)
Ltac flatten_store :=
  unfold set_notifications, set_reservations, set_payments, set_paymentMethods;
  cbn [reservations payments paymentMethods notifications bookers artists].

(** [Payment.create] either fails without writing, or stores the document
    it was given, cast to the schema, with status pending. *)
Lemma wp_PaymentModel_create_doc id ref d (Q : Store -> Exn + Payment.t -> Prop) s :
  (∀ e, Q s (inl e)) ->
  (∀ a f t m ty,
     PaymentModel.amount d = Some a ->
     PaymentModel.serviceFee d = Some f ->
     PaymentModel.totalAmount d = Some t ->
     PaymentModel.paymentMethod d = Some m ->
     PaymentType.of_string (PaymentModel.paymentType d) = Some ty ->
     payments s !! id = None ->
     let p :=
       {| Payment._id := id;
          Payment.reservation := PaymentModel.reservation d;
          Payment.payer := PaymentModel.payer d;
          Payment.payee := PaymentModel.payee d;
          Payment.amount := a;
          Payment.serviceFee := f;
          Payment.totalAmount := t;
          Payment.paymentType := ty;
          Payment.paymentMethod := m;
          Payment.status := PayStatus.pending;
          Payment.transactionId := "";
          Payment.reference := ref;
          Payment.paymentDetails :=
            cast_details ["phoneNumber"; "operator"; "cardLast4";
                          "expiryDate"; "cardholderName"]
              <$> PaymentModel.paymentDetails d;
          Payment.notes := default "" (PaymentModel.notes d) |} in
     Q (set_payments (insert id p) s) (inr p)) ->
  wp (PaymentModel.create id ref d) Q s.
Proof.
  intros Herr Hok. unfold wp, PaymentModel.create.
  destruct (PaymentModel.amount d) as [a|] eqn:Ha; [|apply Herr].
  destruct (PaymentModel.serviceFee d) as [f|] eqn:Hf; [|apply Herr].
  destruct (PaymentModel.totalAmount d) as [t|] eqn:Ht; [|apply Herr].
  destruct (PaymentModel.paymentMethod d) as [m|] eqn:Hm; [|apply Herr].
  destruct (PaymentType.of_string (PaymentModel.paymentType d)) as [ty|] eqn:Hty;
    [|apply Herr].
  unfold bind, get. case_bool_decide as Hid; [apply Herr|].
  case_bool_decide; [apply Herr|].
  cbn. apply (Hok a f t m ty); try reflexivity.
  destruct (payments s !! id) eqn:E; [|done]. exfalso. apply Hid. eauto.
Qed.

Lemma notifyPayment_created payment reservation s :
  let received ti recipient recipientModel sender senderModel :=
    {| Notification.recipient := recipient;
       Notification.recipientModel := recipientModel;
       Notification.sender := sender;
       Notification.senderModel := senderModel;
       Notification.relatedId := Reservation._id reservation;
       Notification.type := NotifType.payment_received;
       Notification.title := ti |} in
  let l :=
    [received "Paiement reçu" (Reservation.artistId reservation)
       OwnerModel.Artist (Reservation.booker reservation) OwnerModel.Booker;
     received "Paiement effectué" (Reservation.booker reservation)
       OwnerModel.Booker (Reservation.artistId reservation) OwnerModel.Artist] in
  notificationService.notifyPayment payment reservation "created" s
  = (set_notifications (fun l0 => (l0 ++ l)%list) s, inr l).
Proof.
  cbn. unfold set_notifications. cbn. rewrite <- app_assoc. reflexivity.
Qed.

Lemma notifyReservationStatusChange_confirmed reservation previousStatus s :
  Reservation.status reservation = Status.confirmed ->
  let n :=
    {| Notification.recipient := Reservation.booker reservation;
       Notification.recipientModel := OwnerModel.Booker;
       Notification.sender := Reservation.artistId reservation;
       Notification.senderModel := OwnerModel.Artist;
       Notification.relatedId := Reservation._id reservation;
       Notification.type := NotifType.reservation_confirmed;
       Notification.title := "Réservation confirmée" |} in
  notificationService.notifyReservationStatusChange reservation previousStatus s
  = (set_notifications (fun l0 => (l0 ++ [n])%list) s, inr (Some n)).
Proof.
  intros Hst. unfold notificationService.notifyReservationStatusChange.
  rewrite Hst. reflexivity.
Qed.

(** The saved payment method of [createPayment]: none when no id is sent,
    else the stored method of that id, which belongs to the payer. *)
Lemma wp_savedPaymentMethod paymentMethodId bookerId
    (Q : Store -> Exn + option PaymentMethod.t -> Prop) s :
  (∀ e, Q s (inl e)) ->
  (∀ saved,
     match truthy paymentMethodId with
     | Some id =>
         ∃ m, saved = Some m
              ∧ List.find (PaymentMethodModel.has_id id) (paymentMethods s) = Some m
              ∧ PaymentMethod.user m = bookerId
     | None => saved = None
     end ->
     Q s (inr saved)) ->
  wp (match truthy paymentMethodId with
      | Some paymentMethodId =>
          let* saved := PaymentMethodModel.findById paymentMethodId in
          match saved with
          | None =>
              throw (ErrorResponse
                       ("Moyen de paiement non trouvé avec l'id " ++ paymentMethodId) 404)
          | Some saved =>
              if negb (bool_decide (PaymentMethod.user saved = bookerId))
              then throw (ErrorResponse "Ce moyen de paiement ne vous appartient pas" 403)
              else ret (Some saved)
          end
      | None => ret None
      end) Q s.
Proof.
  intros Herr Hok. destruct (truthy paymentMethodId) as [id|].
  - unfold wp, bind, PaymentMethodModel.findById.
    destruct (List.find _ _) as [m|] eqn:Hfind; [|apply Herr].
    case_bool_decide as Hmine; [|apply Herr].
    apply Hok. eauto.
  - apply Hok. reflexivity.
Qed.

(** What one call of [createPayment] does: it fails and leaves the database
    as it was, or it stores the payment, settles the reservation and
    appends the notifications. *)
Lemma createPayment_outcome production user body gen s s' reply :
  let bookerId := default (User.id user) (User.booker user) in
  asyncHandler production (paymentController.createPayment user body gen) s
  = (s', reply) ->
  (s' = s ∧ ∃ code message, reply = JsonError code message)
  ∨ ∃ r p0,
      reservations s !! paymentController.reservationId body = Some r
      ∧ Reservation.booker r = bookerId
      ∧ payments s !! paymentController.newId gen = None
      ∧ Payment._id p0 = paymentController.newId gen
      ∧ Payment.reservation p0 = paymentController.reservationId body
      ∧ Payment.payer p0 = bookerId
      ∧ Payment.payee p0 = Reservation.artistId r
      ∧ (∀ d, Payment.paymentDetails p0 = Some d ->
              ∃ d0, d = cast_details ["phoneNumber"; "operator"; "cardLast4";
                                      "expiryDate"; "cardholderName"] d0)
      ∧ match truthy (paymentController.paymentMethodId body) with
        | Some paymentMethodId =>
            ∃ saved,
              List.find (PaymentMethodModel.has_id paymentMethodId)
                (paymentMethods s) = Some saved
              ∧ PaymentMethod.user saved = bookerId
              ∧ Payment.paymentMethod p0 = PaymentMethod.type saved
              ∧ Payment.paymentDetails p0
                = Some (cast_details ["phoneNumber"; "operator"; "cardLast4";
                                      "expiryDate"; "cardholderName"]
                          (PaymentMethod.details saved))
        | None =>
            paymentController.paymentMethod body ≫= Method.of_string
            = Some (Payment.paymentMethod p0)
        end
      ∧ let p :=
          Payment.set_transactionId ("sim_" ++ paymentController.random36 gen)
            (Payment.set_status PayStatus.completed p0) in
        let r' :=
          Reservation.set_transactionId (Payment.transactionId p)
            ((if bool_decide (Reservation.status r = Status.pending)
              then Reservation.set_status Status.confirmed else id)
               (Reservation.set_paymentStatus
                  (if bool_decide (Payment.paymentType p0 = PaymentType.advance)
                   then PaymentStatus.partial else PaymentStatus.paid) r)) in
        let received ti recipient recipientModel sender senderModel :=
          {| Notification.recipient := recipient;
             Notification.recipientModel := recipientModel;
             Notification.sender := sender;
             Notification.senderModel := senderModel;
             Notification.relatedId := Reservation._id r;
             Notification.type := NotifType.payment_received;
             Notification.title := ti |} in
        reply = Json 201 p
        ∧ s' = set_notifications
             (fun l =>
                (l ++ [received "Paiement reçu" (Reservation.artistId r)
                         OwnerModel.Artist (Reservation.booker r) OwnerModel.Booker;
                       received "Paiement effectué" (Reservation.booker r)
                         OwnerModel.Booker (Reservation.artistId r) OwnerModel.Artist]
                   ++ (if bool_decide (Reservation.status r' = Status.confirmed)
                          && negb (bool_decide (Reservation.paymentStatus r
                                                = PaymentStatus.paid))
                       then [ {| Notification.recipient := Reservation.booker r;
                                 Notification.recipientModel := OwnerModel.Booker;
                                 Notification.sender := Reservation.artistId r;
                                 Notification.senderModel := OwnerModel.Artist;
                                 Notification.relatedId := Reservation._id r;
                                 Notification.type := NotifType.reservation_confirmed;
                                 Notification.title := "Réservation confirmée" |} ]
                       else []))%list)
             (set_reservations (insert (Reservation._id r) r')
                (set_payments (insert (paymentController.newId gen) p) s)).
Proof.
  intros bookerId H.
  match goal with |- ?G0 => set (G := G0) end.
  eapply asyncHandler_inv; [exact H|]. clear H.
  unfold paymentController.createPayment. fold bookerId.
  repeat wp_step.
  destruct (reservations s !! paymentController.reservationId body) as [r|] eqn:Hr;
    [|wp_step; intros <- <-; subst G; left; cbn; eauto].
  case_bool_decide as Hown; cbn [negb]; [|wp_step; intros <- <-; subst G; left; cbn; eauto].
  wp_step. apply wp_savedPaymentMethod; [intros e <- <-; subst G; left|].
  { split; [done|]. destruct e as [m [|c]|m|m|m]; cbn; eauto. }
  intros saved Hsaved.
  repeat wp_step. apply wp_PaymentModel_create_doc.
  { intros e. repeat wp_step. intros <- <-. subst G. left. cbn. eauto. }
  intros a f t m ty Ha Hf Ht Hm Hty Hfresh p0.
  cbn [PaymentModel.amount PaymentModel.serviceFee PaymentModel.totalAmount
       PaymentModel.paymentMethod PaymentModel.paymentType] in Ha, Hf, Ht, Hm, Hty.
  repeat wp_step.
  cbn [Payment.status Payment.set_status Payment.set_transactionId].
  rewrite (bool_decide_eq_true_2 (PayStatus.completed = PayStatus.completed)) by done.
  repeat wp_step.
  unfold wp at 1. rewrite notifyPayment_created. cbv zeta. cbn [fst snd].
  repeat wp_step.
  set (r' := Reservation.set_transactionId _ _).
  assert (Reservation._id r' = Reservation._id r
          ∧ Reservation.booker r' = Reservation.booker r
          ∧ Reservation.artistId r' = Reservation.artistId r) as (Hid' & Hb' & Ha').
  { subst r'. by destruct (bool_decide (Reservation.status _ = _)). }
  rewrite Hid', Hb', Ha'.
  assert (r' = Reservation.set_transactionId ("sim_" ++ paymentController.random36 gen)
            ((if bool_decide (Reservation.status r = Status.pending)
              then Reservation.set_status Status.confirmed else id)
               (Reservation.set_paymentStatus
                  (if bool_decide (ty = PaymentType.advance)
                   then PaymentStatus.partial else PaymentStatus.paid) r))) as Hr'.
  { subst r'. cbn. by destruct (bool_decide (Reservation.status r = _)). }
  assert (∀ l s1,
    s1 = set_notifications (fun l0 => (l0 ++ l)%list)
           (set_notifications
              (fun l0 =>
                 (l0 ++ [ {| Notification.recipient := Reservation.artistId r;
                             Notification.recipientModel := OwnerModel.Artist;
                             Notification.sender := Reservation.booker r;
                             Notification.senderModel := OwnerModel.Booker;
                             Notification.relatedId := Reservation._id r;
                             Notification.type := NotifType.payment_received;
                             Notification.title := "Paiement reçu" |};
                           {| Notification.recipient := Reservation.booker r;
                              Notification.recipientModel := OwnerModel.Booker;
                              Notification.sender := Reservation.artistId r;
                              Notification.senderModel := OwnerModel.Artist;
                              Notification.relatedId := Reservation._id r;
                              Notification.type := NotifType.payment_received;
                              Notification.title := "Paiement effectué" |} ])%list)
              (set_reservations (insert (Reservation._id r) r')
                 (set_payments
                    (insert (paymentController.newId gen)
                       (Payment.set_transactionId
                          ("sim_" ++ paymentController.random36 gen)
                          (Payment.set_status PayStatus.completed p0)))
                    (set_payments (insert (paymentController.newId gen) p0) s)))) ->
    l = (if bool_decide (Reservation.status r' = Status.confirmed)
            && negb (bool_decide (Reservation.paymentStatus r = PaymentStatus.paid))
         then [ {| Notification.recipient := Reservation.booker r;
                   Notification.recipientModel := OwnerModel.Booker;
                   Notification.sender := Reservation.artistId r;
                   Notification.senderModel := OwnerModel.Artist;
                   Notification.relatedId := Reservation._id r;
                   Notification.type := NotifType.reservation_confirmed;
                   Notification.title := "Réservation confirmée" |} ]
         else []) ->
    Json 201 (Payment.set_transactionId ("sim_" ++ paymentController.random36 gen)
                (Payment.set_status PayStatus.completed p0)) = reply ->
    s1 = s' ->
    G) as Hfinal.
  { intros l s1 -> Hl <- <-. subst G. right. exists r, p0.
    split; [done|]. split; [done|]. split; [done|].
    do 4 (split; [reflexivity|]).
    split. { subst p0. cbn. intros d (d0 & _ & ->)%fmap_Some. eauto. }
    split.
    { destruct (truthy (paymentController.paymentMethodId body)).
      - destruct Hsaved as (sv & -> & Hfind & Hmine). exists sv.
        injection Hm as <-. done.
      - subst saved. exact Hm. }
    cbv zeta. split; [reflexivity|].
    rewrite Hl, Hr'. subst p0. flatten_store.
    rewrite insert_insert_eq, <- app_assoc. reflexivity. }
  destruct (bool_decide (Reservation.status r' = Status.confirmed)) eqn:Hconf;
    cbn [andb].
  - destruct (bool_decide (Reservation.paymentStatus r = PaymentStatus.paid));
      cbn [negb].
    + repeat wp_step. eapply Hfinal; [|reflexivity].
      flatten_store. by rewrite app_nil_r.
    + repeat wp_step. unfold wp at 1.
      rewrite notifyReservationStatusChange_confirmed
        by (by apply bool_decide_eq_true in Hconf).
      cbv zeta. cbn [fst snd]. repeat wp_step.
      rewrite Hid', Hb', Ha'. eapply Hfinal; reflexivity.
  - repeat wp_step. eapply Hfinal; [|reflexivity].
    flatten_store. by rewrite app_nil_r.
Qed.

(** POST /api/payments reaches [createPayment] for a booker only. *)
Lemma POST_payments_cases production principal body gen s s' reply :
  paymentsRouter.POST_payments production principal body gen s = (s', reply) ->
  (s' = s ∧ ∃ code message, reply = JsonError code message)
  ∨ ∃ user,
      principal = Some user ∧ User.role user = Role.booker
      ∧ asyncHandler production (paymentController.createPayment user body gen) s
        = (s', reply).
Proof.
  unfold paymentsRouter.POST_payments, protect, authorize.
  destruct principal as [user|]; [|cbn; intros [= <- <-]; left; eauto].
  case_bool_decide as Hrole; [|cbn; intros [= <- <-]; left; eauto].
  apply list_elem_of_singleton in Hrole. intros H. right. eauto.
Qed.

Lemma field_cast_details k keys d :
  k ∉ keys -> paymentController.field k (cast_details keys d) = None.
Proof.
  intros Hk. unfold paymentController.field, cast_details.
  induction d as [|[k0 v] d IH]; [done|]. cbn.
  destruct (includes keys k0) eqn:Hin; [|exact IH]. cbn.
  case_bool_decide as E; [|exact IH].
  apply includes_true in Hin. by subst k0.
Qed.

(** X20. POST /api/payments either answers 201 or changes nothing.  It answers
    201 only to a booker paying for a stored reservation of their own, and
    the payment of the reply is new, completed, drawn on that booker and
    payable to the reservation's artist. *)
Theorem createPayment_refused_unchanged production principal body gen s :
  let out := paymentsRouter.POST_payments production principal body gen s in
  (reply_code (snd out) ≠ 201 -> fst out = s)
  ∧ ∀ p,
      snd out = Json 201 p ->
      ∃ user r,
        principal = Some user ∧ User.role user = Role.booker
        ∧ reservations s !! paymentController.reservationId body = Some r
        ∧ Reservation.booker r = default (User.id user) (User.booker user)
        ∧ payments s !! paymentController.newId gen = None
        ∧ Payment._id p = paymentController.newId gen
        ∧ Payment.reservation p = paymentController.reservationId body
        ∧ Payment.payer p = Reservation.booker r
        ∧ Payment.payee p = Reservation.artistId r
        ∧ Payment.status p = PayStatus.completed.
Proof.
  intros out. subst out.
  destruct (paymentsRouter.POST_payments production principal body gen s)
    as [s' reply] eqn:H. cbn [fst snd].
  apply POST_payments_cases in H as [(-> & c & m & ->)|(user & -> & Hrole & H)].
  { split; [done|]. intros p [=]. }
  apply createPayment_outcome in H
    as [(-> & c & m & ->)
       |(r & p0 & Hr & Hown & Hfresh & Hid & Hres & Hpayer & Hpayee & _ & _ & H)].
  { split; [done|]. intros p [=]. }
  cbv zeta in H. destruct H as [-> ->]. split; [done|].
  intros p [= <-]. exists user, r. cbn.
  rewrite Hown. done.
Qed.

(** X21. The payment details of a payment that [createPayment] answers 201
    with never hold a [cardNumber], whether they come from the body or
    from a saved payment method. *)
Theorem createPayment_never_stores_card_number
    production principal body gen s p d :
  snd (paymentsRouter.POST_payments production principal body gen s) = Json 201 p ->
  Payment.paymentDetails p = Some d ->
  paymentController.field "cardNumber" d = None.
Proof.
  destruct (paymentsRouter.POST_payments production principal body gen s)
    as [s' reply] eqn:H. cbn [fst snd]. intros -> Hd.
  apply POST_payments_cases in H as [(_ & c & m & [=])|(user & -> & Hrole & H)].
  apply createPayment_outcome in H
    as [(_ & c & m & [=])|(r & p0 & _ & _ & _ & _ & _ & _ & _ & Hcast & _ & H)].
  cbv zeta in H. destruct H as [[= ->] _]. cbn in Hd.
  destruct (Hcast d Hd) as [d0 ->].
  apply field_cast_details. by_computation.
Qed.

Lemma createPayment_never_stores_card_number_witness :
  paymentController.field "cardNumber" [("cardLast4", "4242")] = None.
Proof.
  apply (createPayment_never_stores_card_number false (Some Sample.booker1)
           Fixture.card_body Sample.gen
           (Sample.db (Sample.r1 Status.pending PaymentStatus.pending))
           Fixture.card_payment [("cardLast4", "4242")]).
  - vm_compute. reflexivity.
  - reflexivity.
Defined.

(** X22. A payment answered 201 appends two payment_received notifications, to
    the artist and then to the booker, followed by one
    reservation_confirmed notification to the booker exactly when the
    reservation was pending or confirmed and was not already paid. *)
Theorem createPayment_notifications production principal body gen s p :
  snd (paymentsRouter.POST_payments production principal body gen s) = Json 201 p ->
  ∃ r n1 n2 l,
    reservations s !! paymentController.reservationId body = Some r
    ∧ notifications (fst (paymentsRouter.POST_payments production principal body gen s))
      = (notifications s ++ [n1; n2] ++ l)%list
    ∧ Notification.type n1 = NotifType.payment_received
    ∧ Notification.recipient n1 = Reservation.artistId r
    ∧ Notification.type n2 = NotifType.payment_received
    ∧ Notification.recipient n2 = Reservation.booker r
    ∧ ((Reservation.status r = Status.pending ∨ Reservation.status r = Status.confirmed)
       ∧ Reservation.paymentStatus r ≠ PaymentStatus.paid ->
       ∃ n3, l = [n3]
             ∧ Notification.type n3 = NotifType.reservation_confirmed
             ∧ Notification.recipient n3 = Reservation.booker r)
    ∧ (¬ ((Reservation.status r = Status.pending
           ∨ Reservation.status r = Status.confirmed)
          ∧ Reservation.paymentStatus r ≠ PaymentStatus.paid) ->
       l = []).
Proof.
  destruct (paymentsRouter.POST_payments production principal body gen s)
    as [s' reply] eqn:H. cbn [fst snd]. intros ->.
  apply POST_payments_cases in H as [(_ & c & m & [=])|(user & -> & Hrole & H)].
  apply createPayment_outcome in H
    as [(_ & c & m & [=])|(r & p0 & Hr & _ & _ & _ & _ & _ & _ & _ & _ & H)].
  cbv zeta in H. destruct H as [_ ->].
  exists r. eexists _, _, _. split; [exact Hr|].
  split; [reflexivity|]. do 4 (split; [reflexivity|]).
  assert (bool_decide
            (Reservation.status
               (Reservation.set_transactionId
                  (Payment.transactionId
                     (Payment.set_transactionId
                        ("sim_" ++ paymentController.random36 gen)
                        (Payment.set_status PayStatus.completed p0)))
                  ((if bool_decide (Reservation.status r = Status.pending)
                    then Reservation.set_status Status.confirmed else id)
                     (Reservation.set_paymentStatus
                        (if bool_decide (Payment.paymentType p0 = PaymentType.advance)
                         then PaymentStatus.partial else PaymentStatus.paid) r)))
             = Status.confirmed)
          = bool_decide (Reservation.status r = Status.pending
                         ∨ Reservation.status r = Status.confirmed)) as ->.
  { destruct r as [? ? ? ? st ? ? ?]. cbn. destruct st; by_computation. }
  split.
  - intros [Hst Hps].
    rewrite (bool_decide_eq_true_2 _ Hst), (bool_decide_eq_false_2 _ Hps).
    cbn. eauto.
  - intros Hn. case_bool_decide as Hst; cbn [andb]; [|done].
    case_bool_decide as Hps; cbn [negb]; [done|]. exfalso. by apply Hn.
Qed.

Lemma createPayment_notifications_witness :
  ∃ r n1 n2 l,
    reservations (Sample.db (Sample.r1 Status.pending PaymentStatus.pending))
      !! paymentController.reservationId (Sample.body "full") = Some r
    ∧ notifications
        (fst (paymentsRouter.POST_payments false (Some Sample.booker1)
                (Sample.body "full") Sample.gen
                (Sample.db (Sample.r1 Status.pending PaymentStatus.pending))))
      = (notifications (Sample.db (Sample.r1 Status.pending PaymentStatus.pending))
         ++ [n1; n2] ++ l)%list
    ∧ Notification.type n1 = NotifType.payment_received
    ∧ Notification.recipient n1 = Reservation.artistId r
    ∧ Notification.type n2 = NotifType.payment_received
    ∧ Notification.recipient n2 = Reservation.booker r
    ∧ ((Reservation.status r = Status.pending ∨ Reservation.status r = Status.confirmed)
       ∧ Reservation.paymentStatus r ≠ PaymentStatus.paid ->
       ∃ n3, l = [n3]
             ∧ Notification.type n3 = NotifType.reservation_confirmed
             ∧ Notification.recipient n3 = Reservation.booker r)
    ∧ (¬ ((Reservation.status r = Status.pending
           ∨ Reservation.status r = Status.confirmed)
          ∧ Reservation.paymentStatus r ≠ PaymentStatus.paid) ->
       l = []).
Proof.
  apply (createPayment_notifications false (Some Sample.booker1)
           (Sample.body "full") Sample.gen
           (Sample.db (Sample.r1 Status.pending PaymentStatus.pending))
           (Sample.p1 PaymentType.full PayStatus.completed)).
  vm_compute. reflexivity.
Defined.

(** X23. A payment that names a saved payment method is answered 201 only if
    that method is stored and belongs to the payer, and the payment then
    carries the type and the details of the saved method, not those of the
    body. *)
Theorem createPayment_with_saved_method
    production principal body gen s paymentMethodId p :
  truthy (paymentController.paymentMethodId body) = Some paymentMethodId ->
  snd (paymentsRouter.POST_payments production principal body gen s) = Json 201 p ->
  ∃ saved,
    List.find (PaymentMethodModel.has_id paymentMethodId) (paymentMethods s)
    = Some saved
    ∧ PaymentMethod.user saved = Payment.payer p
    ∧ Payment.paymentMethod p = PaymentMethod.type saved
    ∧ Payment.paymentDetails p
      = Some (cast_details ["phoneNumber"; "operator"; "cardLast4";
                            "expiryDate"; "cardholderName"]
                (PaymentMethod.details saved)).
Proof.
  intros Hpmid.
  destruct (paymentsRouter.POST_payments production principal body gen s)
    as [s' reply] eqn:H. cbn [fst snd]. intros ->.
  apply POST_payments_cases in H as [(_ & c & m & [=])|(user & -> & Hrole & H)].
  apply createPayment_outcome in H
    as [(_ & c & m & [=])
       |(r & p0 & _ & _ & _ & _ & _ & Hpayer & _ & _ & Hsaved & H)].
  cbv zeta in H. destruct H as [[= ->] _].
  rewrite Hpmid in Hsaved. destruct Hsaved as (saved & Hfind & Hmine & Hty & Hd).
  exists saved. cbn. rewrite Hpayer. done.
Qed.

Lemma createPayment_with_saved_method_witness :
  ∃ saved,
    List.find (PaymentMethodModel.has_id "m1") (paymentMethods Fixture.db_with_method)
    = Some saved
    ∧ PaymentMethod.user saved = Payment.payer Fixture.saved_method_payment
    ∧ Payment.paymentMethod Fixture.saved_method_payment = PaymentMethod.type saved
    ∧ Payment.paymentDetails Fixture.saved_method_payment
      = Some (cast_details ["phoneNumber"; "operator"; "cardLast4";
                            "expiryDate"; "cardholderName"]
                (PaymentMethod.details saved)).
Proof.
  apply (createPayment_with_saved_method false (Some Sample.booker1)
           Fixture.saved_method_body Sample.gen Fixture.db_with_method "m1"
           Fixture.saved_method_payment).
  - reflexivity.
  - vm_compute. reflexivity.
Defined.

(** ** Reading a payment *)

(** X24. GET /api/payments/:id never writes, and answers 200 only with the
    stored payment of that id and only to its payer or its payee. *)
Theorem getPayment_only_parties production principal id s :
  let out := GET_payments_id production principal id s in
  fst out = s
  ∧ ∀ p,
      snd out = Json 200 p ->
      payments s !! id = Some p
      ∧ ∃ user,
          principal = Some user
          ∧ let userId :=
              if bool_decide (User.role user = Role.booker)
              then default (User.id user) (User.booker user)
              else default (User.id user) (User.artist user) in
            Payment.payer p = userId ∨ Payment.payee p = userId.
Proof.
  unfold GET_payments_id, asyncHandler, protect, authorize, getPayment.
  destruct principal as [user|]; [|cbn; split; [done|]; intros p [=]].
  case_bool_decide as Hrole; [|cbn; split; [done|]; intros p [=]].
  unfold bind, PaymentModel.findById.
  destruct (payments s !! id) as [p0|]; [|cbn; split; [done|]; intros p [=]].
  destruct (negb _ && negb _) eqn:Hparty; cbn.
  - split; [done|]. intros p [=].
  - split; [done|]. intros p [= <-]. split; [done|]. exists user.
    split; [done|]. cbv zeta.
    apply andb_false_iff in Hparty as [H|H]; apply negb_false_iff in H;
      apply bool_decide_eq_true in H; [by left|by right].
Qed.

(** ** More on the webhook *)

(** What a delivery of the webhook for a stored payment, with a status of
    the enumeration, writes. *)
Lemma paymentWebhook_records
    production paramsId paymentId status transactionId s p st s' reply :
  payments s !! default paramsId (truthy paymentId) = Some p ->
  PayStatus.of_string status = Some st ->
  paymentsRouter.POST_id_webhook production paramsId paymentId status
    transactionId s = (s', reply) ->
  let p' :=
    match truthy transactionId with
    | Some tx => Payment.set_transactionId tx (Payment.set_status st p)
    | None => Payment.set_status st p
    end in
  reply = Json 200 p'
  ∧ payments s' = <[Payment._id p := p']> (payments s)
  ∧ paymentMethods s' = paymentMethods s
  ∧ match (if bool_decide (status = "completed")
           then reservations s !! Payment.reservation p else None) with
    | Some r =>
        reservations s'
        = <[Reservation._id r :=
              (if bool_decide (Reservation.status r = Status.pending)
               then Reservation.set_status Status.confirmed else id)
                (Reservation.set_paymentStatus
                   (if bool_decide (Payment.paymentType p = PaymentType.advance)
                    then PaymentStatus.partial else PaymentStatus.paid) r)]>
            (reservations s)
    | None => reservations s' = reservations s ∧ notifications s' = notifications s
    end.
Proof.
  intros Hp Hst H p'. eapply asyncHandler_inv; [exact H|]. clear H.
  unfold paymentController.paymentWebhook.
  repeat wp_step. rewrite Hp, Hst. cbv beta iota.
  repeat wp_step. fold p'.
  assert (Payment._id p' = Payment._id p
          ∧ Payment.reservation p' = Payment.reservation p
          ∧ Payment.paymentType p' = Payment.paymentType p) as (Hid & Hres & Hty).
  { subst p'. by destruct (truthy transactionId). }
  rewrite Hid.
  case_bool_decide as Hcompleted.
  2: { repeat wp_step. intros <- <-. done. }
  repeat wp_step. cbn [reservations set_payments]. rewrite Hres, Hty.
  destruct (reservations s !! Payment.reservation p) as [r|] eqn:Hr.
  2: { repeat wp_step. intros <- <-. done. }
  repeat wp_step.
  case_bool_decide as Hpend.
  - repeat wp_step. apply wp_notifyReservationStatusChange. intros l r1 _ _.
    repeat wp_step. apply wp_notifyPayment. intros n1 n2 _ _ _.
    intros <- <-. cbn in Hpend. cbn.
    rewrite (bool_decide_eq_true_2 _ Hpend). done.
  - repeat wp_step. apply wp_notifyPayment. intros n1 n2 _ _ _.
    intros <- <-. cbn in Hpend. cbn.
    rewrite (bool_decide_eq_false_2 _ Hpend). done.
Qed.


(** X26. A delivery of the webhook with a status other than completed, or for a
    payment whose reservation does not exist, rewrites that payment only:
    no reservation is touched and no notification is sent. *)
Theorem webhook_without_settlement
    production paramsId paymentId status transactionId s p st :
  payments s !! default paramsId (truthy paymentId) = Some p ->
  PayStatus.of_string status = Some st ->
  st ≠ PayStatus.completed
  ∨ reservations s !! Payment.reservation p = None ->
  let p' :=
    match truthy transactionId with
    | Some tx => Payment.set_transactionId tx (Payment.set_status st p)
    | None => Payment.set_status st p
    end in
  paymentsRouter.POST_id_webhook production paramsId paymentId status
    transactionId s
  = (set_payments (insert (Payment._id p) p') s, Json 200 p').
Proof.
  intros Hp Hst Hcase p'.
  assert (Payment._id p' = Payment._id p
          ∧ Payment.reservation p' = Payment.reservation p) as (Hid & Hres).
  { subst p'. by destruct (truthy transactionId). }
  unfold paymentsRouter.POST_id_webhook, asyncHandler,
    paymentController.paymentWebhook.
  unfold bind at 1. unfold PaymentModel.findById at 1. rewrite Hp, Hst.
  fold p'. unfold bind at 1. unfold PaymentModel.save, modify. rewrite Hid.
  unfold bind at 1.
  case_bool_decide as Hcompleted; [|reflexivity].
  destruct Hcase as [Hne|Hnone].
  { subst status. exfalso. apply Hne. by injection Hst as <-. }
  unfold bind at 1. unfold ReservationModel.findById at 1.
  cbn [reservations set_payments]. rewrite Hres, Hnone. reflexivity.
Qed.

Lemma webhook_without_settlement_witness :
  let p' :=
    match truthy (Some "tx_9") with
    | Some tx =>
        Payment.set_transactionId tx
          (Payment.set_status PayStatus.refunded
             (Sample.p1 PaymentType.full PayStatus.completed))
    | None =>
        Payment.set_status PayStatus.refunded
          (Sample.p1 PaymentType.full PayStatus.completed)
    end in
  paymentsRouter.POST_id_webhook false "p1" None "refunded" (Some "tx_9")
    (Sample.db_with_payment (Sample.r1 Status.confirmed PaymentStatus.paid)
       (Sample.p1 PaymentType.full PayStatus.completed))
  = (set_payments
       (insert (Payment._id (Sample.p1 PaymentType.full PayStatus.completed)) p')
       (Sample.db_with_payment (Sample.r1 Status.confirmed PaymentStatus.paid)
          (Sample.p1 PaymentType.full PayStatus.completed)),
     Json 200 p').
Proof.
  apply (webhook_without_settlement false "p1" None "refunded" (Some "tx_9")
           (Sample.db_with_payment (Sample.r1 Status.confirmed PaymentStatus.paid)
              (Sample.p1 PaymentType.full PayStatus.completed))
           (Sample.p1 PaymentType.full PayStatus.completed) PayStatus.refunded).
  - reflexivity.
  - reflexivity.
  - left. discriminate.
Defined.

(** X27. Delivering the same webhook a second time is answered with the same
    status code and leaves the status and the transaction id of every
    payment, and the status, the payment status and the transaction id of
    every reservation, as the first delivery left them.  (The second
    delivery still saves the documents and sends its notifications.) *)
Theorem webhook_redelivery_same_statuses
    production paramsId paymentId status transactionId s p :
  payments s !! default paramsId (truthy paymentId) = Some p ->
  Payment._id p = default paramsId (truthy paymentId) ->
  (∀ r, reservations s !! Payment.reservation p = Some r ->
        Reservation._id r = Payment.reservation p) ->
  let deliver := paymentsRouter.POST_id_webhook production paramsId paymentId
                   status transactionId in
  let once := fst (deliver s) in
  let twice := fst (deliver once) in
  reply_code (snd (deliver once)) = reply_code (snd (deliver s))
  ∧ (∀ id,
       Payment.status <$> payments twice !! id
       = Payment.status <$> payments once !! id
       ∧ Payment.transactionId <$> payments twice !! id
         = Payment.transactionId <$> payments once !! id)
  ∧ (∀ id,
       Reservation.status <$> reservations twice !! id
       = Reservation.status <$> reservations once !! id
       ∧ Reservation.paymentStatus <$> reservations twice !! id
         = Reservation.paymentStatus <$> reservations once !! id
       ∧ Reservation.transactionId <$> reservations twice !! id
         = Reservation.transactionId <$> reservations once !! id).
Proof.
  intros Hp Hid Hkeyed deliver once twice.
  assert (snd (deliver once) = snd (deliver s)
          ∧ payments twice = payments once
          ∧ reservations twice = reservations once) as (Hreply & Hpay & Hres).
  { subst once twice.
    destruct (PayStatus.of_string status) as [st|] eqn:Hst.
    2: { assert (deliver s = (s, JsonError 400 "Payment validation failed: status"))
           as Hfail.
         { subst deliver. cbv beta.
           unfold paymentsRouter.POST_id_webhook, asyncHandler,
             paymentController.paymentWebhook, bind, PaymentModel.findById.
           by rewrite Hp, Hst. }
         rewrite Hfail. cbn [fst snd]. by rewrite Hfail. }
    destruct (deliver s) as [s1 reply1] eqn:H1. cbn [fst snd].
    destruct (deliver s1) as [s2 reply2] eqn:H2. cbn [fst snd].
    subst deliver. cbv beta in H1, H2.
    pose proof (paymentWebhook_records _ _ _ _ _ _ _ _ _ _ Hp Hst H1) as Hfirst.
    cbv zeta in Hfirst. destruct Hfirst as (-> & Hpay1 & _ & Hres1).
    set (p' := match truthy transactionId with
               | Some tx => Payment.set_transactionId tx (Payment.set_status st p)
               | None => Payment.set_status st p
               end) in *.
    assert (Payment._id p' = Payment._id p
            ∧ Payment.reservation p' = Payment.reservation p
            ∧ Payment.paymentType p' = Payment.paymentType p
            ∧ match truthy transactionId with
              | Some tx => Payment.set_transactionId tx (Payment.set_status st p')
              | None => Payment.set_status st p'
              end = p') as (Hid' & Hres' & Hty' & Hidem).
    { subst p'. by destruct (truthy transactionId). }
    assert (payments s1 !! default paramsId (truthy paymentId) = Some p') as Hp1.
    { rewrite Hpay1, Hid. apply lookup_insert_eq. }
    pose proof (paymentWebhook_records _ _ _ _ _ _ _ _ _ _ Hp1 Hst H2) as Hsecond.
    cbv zeta in Hsecond. rewrite Hidem, Hid', Hres', Hty' in Hsecond.
    destruct Hsecond as (-> & Hpay2 & _ & Hres2).
    split; [done|]. split.
    { rewrite Hpay2, Hpay1. apply insert_insert_eq. }
    case_bool_decide as Hcompleted.
    2: { destruct Hres1 as [Hres1 _], Hres2 as [Hres2 _]. congruence. }
    destruct (reservations s !! Payment.reservation p) as [r|] eqn:Hr.
    2: { destruct Hres1 as [Hres1 _]. rewrite Hres1, Hr in Hres2.
         destruct Hres2 as [Hres2 _]. congruence. }
    specialize (Hkeyed r eq_refl).
    set (r' := (if bool_decide (Reservation.status r = Status.pending)
                then Reservation.set_status Status.confirmed else id)
                 (Reservation.set_paymentStatus
                    (if bool_decide (Payment.paymentType p = PaymentType.advance)
                     then PaymentStatus.partial else PaymentStatus.paid) r)) in *.
    assert (reservations s1 !! Payment.reservation p = Some r') as Hr1.
    { rewrite Hres1, Hkeyed. apply lookup_insert_eq. }
    rewrite Hr1 in Hres2.
    assert (Reservation._id r' = Reservation._id r
            ∧ (if bool_decide (Reservation.status r' = Status.pending)
               then Reservation.set_status Status.confirmed else id)
                (Reservation.set_paymentStatus
                   (if bool_decide (Payment.paymentType p = PaymentType.advance)
                    then PaymentStatus.partial else PaymentStatus.paid) r') = r')
      as (Hrid & Hridem).
    { subst r'. case_bool_decide as Hpend; cbn.
      - rewrite (bool_decide_eq_false_2 (Status.confirmed = Status.pending)) by done.
        done.
      - rewrite (bool_decide_eq_false_2 _ Hpend). done. }
    rewrite Hridem, Hrid in Hres2. rewrite Hres2, Hres1. apply insert_insert_eq. }
  rewrite Hreply, Hpay, Hres. done.
Qed.

Lemma webhook_redelivery_same_statuses_witness :
  let deliver := paymentsRouter.POST_id_webhook false "p1" None "completed" None in
  let once :=
    fst (deliver (Sample.db_with_payment
                    (Sample.r1 Status.pending PaymentStatus.pending)
                    (Sample.p1 PaymentType.full PayStatus.pending))) in
  let twice := fst (deliver once) in
  reply_code (snd (deliver once))
  = reply_code
      (snd (deliver (Sample.db_with_payment
                       (Sample.r1 Status.pending PaymentStatus.pending)
                       (Sample.p1 PaymentType.full PayStatus.pending))))
  ∧ (∀ id,
       Payment.status <$> payments twice !! id
       = Payment.status <$> payments once !! id
       ∧ Payment.transactionId <$> payments twice !! id
         = Payment.transactionId <$> payments once !! id)
  ∧ (∀ id,
       Reservation.status <$> reservations twice !! id
       = Reservation.status <$> reservations once !! id
       ∧ Reservation.paymentStatus <$> reservations twice !! id
         = Reservation.paymentStatus <$> reservations once !! id
       ∧ Reservation.transactionId <$> reservations twice !! id
         = Reservation.transactionId <$> reservations once !! id).
Proof.
  apply (webhook_redelivery_same_statuses false "p1" None "completed" None
           (Sample.db_with_payment
              (Sample.r1 Status.pending PaymentStatus.pending)
              (Sample.p1 PaymentType.full PayStatus.pending))
           (Sample.p1 PaymentType.full PayStatus.pending)).
  - reflexivity.
  - reflexivity.
  - intros r. vm_compute. by intros [= <-].
Defined.
